(** * Verification of the submission grading engine

    A shallow embedding of the validator / scoring engine
    ([evaluation/evaluate.py], [evaluation/scoring.py] and the six modules of
    [evaluation/validators/]) and the proofs of its specified properties.

    Conventions of the embedding.
    - Python [str] values are [string]s; a character is a code point below 256,
      and the [str] methods used by the validators are modelled on that range.
      Files are texts: what [open(...).read()] returns once decoded.  The two
      dashes outside that range in messages of the source are kept as they
      are written there.
    - Python [int] values are [Z].
    - Python [float] values are the binary64 numbers of the kernel; they occur
      in the percentage of the report only ([evaluation/report.py]).
    - The submission directory is a tree of directories and text files.
    - Third-party parsers (PyYAML, python-hcl2, [ast.parse]), the [shellcheck]
      binary and the keyword configuration file are inputs of the model,
      gathered in the record [World].
    - A Python exception that leaves a function is an explicit [Raise] result.
      The YAML loader of the Kubernetes validator may end with an exception
      that its caller does not catch; [yaml.safe_load] and [ast.parse], which
      the pipeline, Python and shell validators call, are modelled on the
      texts for which they return or raise the exception that their caller
      catches. *)

From Stdlib Require Import String Ascii List ZArith NArith Lia Bool DecimalString.
From Stdlib Require Floats.
Import ListNotations.
Set Warnings "-register-all".
Open Scope list_scope.
Open Scope string_scope.

(** ** Python string operations *)

Module PyStr.

Definition code (c : ascii) : N := N_of_ascii c.

Definition between (lo hi : N) (c : ascii) : bool :=
  (lo <=? code c)%N && (code c <=? hi)%N.

(** [str.isspace] on one character: TAB..CR, FS..US, space, NEL, NBSP. *)
Definition isspace (c : ascii) : bool :=
  between 9 13 c || between 28 31 c || (code c =? 32)%N
  || (code c =? 133)%N || (code c =? 160)%N.

(** Line boundaries of [str.splitlines]: LF, VT, FF, CR, FS, GS, RS, NEL. *)
Definition is_linebreak (c : ascii) : bool :=
  between 10 13 c || between 28 30 c || (code c =? 133)%N.

Definition LF : ascii := "010"%char.
Definition CR : ascii := "013"%char.
Definition NL : string := String LF EmptyString.

Definition lower_char (c : ascii) : ascii :=
  if between 65 90 c || (between 192 222 c && negb (code c =? 215)%N)
  then ascii_of_N (code c + 32) else c.

Fixpoint lower (s : string) : string :=
  match s with
  | EmptyString => EmptyString
  | String c s' => String (lower_char c) (lower s')
  end.

Definition is_empty (s : string) : bool :=
  match s with EmptyString => true | String _ _ => false end.

(** Truth value of a [str]. *)
Definition truthy (s : string) : bool := negb (is_empty s).

Fixpoint lstrip (s : string) : string :=
  match s with
  | EmptyString => EmptyString
  | String c s' => if isspace c then lstrip s' else s
  end.

Fixpoint rstrip (s : string) : string :=
  match s with
  | EmptyString => EmptyString
  | String c s' =>
      let r := rstrip s' in
      if isspace c && is_empty r then EmptyString else String c r
  end.

Definition strip (s : string) : string := rstrip (lstrip s).

Definition startswith (p s : string) : bool := String.prefix p s.

Fixpoint endswith (suf s : string) : bool :=
  String.eqb s suf
  || match s with
     | EmptyString => false
     | String _ s' => endswith suf s'
     end.

(** [sub in s]. *)
Fixpoint contains (sub s : string) : bool :=
  String.prefix sub s
  || match s with
     | EmptyString => false
     | String _ s' => contains sub s'
     end.

Fixpoint find_from (i : Z) (sub s : string) : Z :=
  if String.prefix sub s then i
  else match s with
       | EmptyString => (-1)%Z
       | String _ s' => find_from (i + 1) sub s'
       end.

(** [s.find(sub)]: index of the first occurrence, [-1] when there is none. *)
Definition find (sub s : string) : Z := find_from 0 sub s.

Definition len (s : string) : Z := Z.of_nat (String.length s).

(** [sep.join(parts)]. *)
Definition join (sep : string) (parts : list string) : string :=
  String.concat sep parts.

(** [str.splitlines] with the line being built in [cur]; [after_cr] records
    that the previous character was a CR, so that CR LF is one boundary. *)
Fixpoint splitlines_go (after_cr : bool) (cur s : string) : list string :=
  match s with
  | EmptyString => if is_empty cur then [] else [cur]
  | String c s' =>
      if after_cr && Ascii.eqb c LF then splitlines_go false cur s'
      else if is_linebreak c
           then cur :: splitlines_go (Ascii.eqb c CR) EmptyString s'
           else splitlines_go false (cur ++ String c EmptyString) s'
  end.

Definition splitlines (s : string) : list string :=
  splitlines_go false EmptyString s.

(** [str(n)] for an [int]. *)
Definition str_of_int (n : Z) : string := NilZero.string_of_int (Z.to_int n).

(** [any(kw in s for kw in kws)]. *)
Definition any_in (kws : list string) (s : string) : bool :=
  existsb (fun kw => contains kw s) kws.

(** The lines of [s] that are neither blank nor comments:
    [[l for l in s.splitlines() if l.strip() and not l.strip().startswith(marker)]]. *)
Definition is_code_line (l : string) : bool :=
  truthy (strip l) && negb (startswith "#" (strip l)).

End PyStr.

(** ** Regular expressions ([re.search], [re.match])

    Patterns are kept as syntax trees and matched with derivatives.  Only the
    yes/no answer of a search is modelled here; the three substitutions and the
    one [findall] of the validators have scanners of their own further down. *)

Module Regex.

Inductive regex : Type :=
| Void                                (* matches nothing *)
| Eps                                 (* the empty word *)
| Cls (p : ascii -> bool)             (* one character of a class *)
| Cat (r1 r2 : regex)
| Alt (r1 r2 : regex)
| Star (r : regex).

Fixpoint nullable (r : regex) : bool :=
  match r with
  | Void => false
  | Eps => true
  | Cls _ => false
  | Cat r1 r2 => nullable r1 && nullable r2
  | Alt r1 r2 => nullable r1 || nullable r2
  | Star _ => true
  end.

Definition cat (r1 r2 : regex) : regex :=
  match r1, r2 with
  | Void, _ => Void
  | _, Void => Void
  | Eps, _ => r2
  | _, Eps => r1
  | _, _ => Cat r1 r2
  end.

Definition alt (r1 r2 : regex) : regex :=
  match r1, r2 with
  | Void, _ => r2
  | _, Void => r1
  | _, _ => Alt r1 r2
  end.

Fixpoint deriv (c : ascii) (r : regex) : regex :=
  match r with
  | Void => Void
  | Eps => Void
  | Cls p => if p c then Eps else Void
  | Cat r1 r2 =>
      if nullable r1 then alt (cat (deriv c r1) r2) (deriv c r2)
      else cat (deriv c r1) r2
  | Alt r1 r2 => alt (deriv c r1) (deriv c r2)
  | Star r1 => cat (deriv c r1) (Star r1)
  end.

(** The whole of [s] is a word of [r]. *)
Fixpoint fullmatch (r : regex) (s : string) : bool :=
  match s with
  | EmptyString => nullable r
  | String c s' => fullmatch (deriv c r) s'
  end.

(** Some prefix of [s] is a word of [r]: [re.match(r, s)] succeeds. *)
Fixpoint prefixmatch (r : regex) (s : string) : bool :=
  nullable r
  || match s with
     | EmptyString => false
     | String c s' => prefixmatch (deriv c r) s'
     end.

(** Some substring of [s] is a word of [r]: [re.search(r, s)] succeeds. *)
Fixpoint search (r : regex) (s : string) : bool :=
  prefixmatch r s
  || match s with
     | EmptyString => false
     | String _ s' => search r s'
     end.

(** [re.match('^' + r + '$', s)]: the final [$] also matches just before a
    newline that ends the text. *)
Definition match_anchored (r : regex) (s : string) : bool :=
  fullmatch r s || fullmatch (Cat r (Cls (Ascii.eqb PyStr.LF))) s.

Definition chr (c : ascii) : regex := Cls (Ascii.eqb c).

(** A character under [re.IGNORECASE]. *)
Definition chr_i (c : ascii) : regex :=
  Cls (fun d => Ascii.eqb (PyStr.lower_char d) (PyStr.lower_char c)).

Fixpoint lit (s : string) : regex :=
  match s with
  | EmptyString => Eps
  | String c s' => Cat (chr c) (lit s')
  end.

Fixpoint lit_i (s : string) : regex :=
  match s with
  | EmptyString => Eps
  | String c s' => Cat (chr_i c) (lit_i s')
  end.

(** [\s] *)
Definition ws : regex := Cls PyStr.isspace.

(** [.] without [re.DOTALL] *)
Definition dot : regex := Cls (fun c => negb (Ascii.eqb c PyStr.LF)).

Definition plus (r : regex) : regex := Cat r (Star r).

Fixpoint alts (rs : list regex) : regex :=
  match rs with
  | [] => Void
  | [r] => r
  | r :: rs' => Alt r (alts rs')
  end.

Fixpoint seq (rs : list regex) : regex :=
  match rs with
  | [] => Eps
  | [r] => r
  | r :: rs' => Cat r (seq rs')
  end.

(** A pattern that is an alternation of literal texts. *)
Definition one_of (words : list string) : regex := alts (map lit words).

(** [sum(1 for kw in kws if re.search(kw, text))] *)
Definition count_matches (kws : list regex) (text : string) : Z :=
  Z.of_nat (List.length (filter (fun kw => search kw text) kws)).

End Regex.

(** ** Exceptions *)

Inductive exn : Type :=
| AttributeError (msg : string)
| TypeError (msg : string)
| ValueError (msg : string).

(** [str(e)] *)
Definition exn_text (e : exn) : string :=
  match e with
  | AttributeError msg => msg
  | TypeError msg => msg
  | ValueError msg => msg
  end.

Inductive result (A : Type) : Type :=
| Ok (a : A)
| Raise (e : exn).

Arguments Ok {A} a.
Arguments Raise {A} e.

Definition bind {A B : Type} (m : result A) (k : A -> result B) : result B :=
  match m with
  | Ok a => k a
  | Raise e => Raise e
  end.

Declare Scope py_scope.
Delimit Scope py_scope with py.
Notation "x <- m ;; k" := (bind m (fun x => k))
  (at level 61, m at next level, right associativity) : py_scope.
Notation "' pat <- m ;; k" := (bind m (fun x => match x with pat => k end))
  (at level 61, pat pattern, m at next level, right associativity) : py_scope.

(** A block that mutates local variables of type [S] and may raise: the
    variables keep the value they had when the exception was raised. *)
Definition block (S A : Type) : Type := S -> S * result A.

Module Block.

Definition ret {S A : Type} (a : A) : block S A := fun s => (s, Ok a).

Definition bind {S A B : Type} (m : block S A) (k : A -> block S B) : block S B :=
  fun s =>
    match m s with
    | (s', Ok a) => k a s'
    | (s', Raise e) => (s', Raise e)
    end.

Definition lift {S A : Type} (r : result A) : block S A := fun s => (s, r).

Definition modify {S : Type} (f : S -> S) : block S unit := fun s => (f s, Ok tt).

Definition when {S : Type} (b : bool) (m : block S unit) : block S unit :=
  if b then m else ret tt.

Fixpoint for_each {S A : Type} (xs : list A) (body : A -> block S unit) : block S unit :=
  match xs with
  | [] => ret tt
  | x :: xs' => bind (body x) (fun _ => for_each xs' body)
  end.

(** A [for] loop whose body says whether it ends in [break]. *)
Fixpoint for_each_until {S A : Type} (xs : list A) (body : A -> block S bool)
  : block S unit :=
  match xs with
  | [] => ret tt
  | x :: xs' =>
      bind (body x) (fun stop => if stop then ret tt else for_each_until xs' body)
  end.

(** [try: m except (AttributeError, TypeError): pass] *)
Definition try_pass {S : Type} (m : block S unit) : block S unit :=
  fun s => (fst (m s), Ok tt).

(** The local variables at the end of the block, or the exception. *)
Definition run {S : Type} (m : block S unit) (s : S) : result S :=
  match m s with
  | (s', Ok _) => Ok s'
  | (_, Raise e) => Raise e
  end.

End Block.

Declare Scope block_scope.
Delimit Scope block_scope with block.
Notation "x <- m ;; k" := (Block.bind m (fun x => k))
  (at level 61, m at next level, right associativity) : block_scope.
Notation "m ;; k" := (Block.bind m (fun _ => k))
  (at level 61, right associativity) : block_scope.

(** ** The Check primitive *)

Record Check : Type := mkCheck {
  name : string;
  max_points : Z;
  points_awarded : Z;
  passed : bool;
  details : string;
}.

(** The helper [_check], defined alike in every validator. *)
Definition _check (name : string) (max_points : Z) (passed : bool) (details : string) : Check :=
  {| name := name;
     max_points := max_points;
     points_awarded := if passed then max_points else 0%Z;
     passed := passed;
     details := details |}.

(** ** The submission directory *)

Module Fs.

Inductive node : Type :=
| File (content : string)
| Dir (entries : list (string * node)).

Definition path := list string.

Fixpoint assoc {A : Type} (k : string) (l : list (string * A)) : option A :=
  match l with
  | [] => None
  | (k', v) :: l' => if String.eqb k k' then Some v else assoc k l'
  end.

Definition child (n : node) (fname : string) : option node :=
  match n with
  | File _ => None
  | Dir entries => assoc fname entries
  end.

(** The node that the path leads to from [root]. *)
Fixpoint resolve (root : node) (p : path) : option node :=
  match p with
  | [] => Some root
  | d :: p' => match child root d with
               | Some n => resolve n p'
               | None => None
               end
  end.

(** [os.path.isdir] *)
Definition isdir (root : node) (p : path) : bool :=
  match resolve root p with
  | Some (Dir _) => true
  | _ => false
  end.

(** [os.listdir] of a directory. *)
Definition listdir (root : node) (p : path) : list string :=
  match resolve root p with
  | Some (Dir entries) => map fst entries
  | _ => []
  end.

(** The helper [_read_file] of the validators: the text of the file, the
    empty string when it cannot be opened. *)
Definition _read_file (root : node) (p : path) : string :=
  match resolve root p with
  | Some (File content) => content
  | _ => EmptyString
  end.

End Fs.

(** A Python [dict] with [str] keys, in insertion order. *)
Module PyDict.

Definition t (A : Type) : Type := list (string * A).

Fixpoint set {A : Type} (k : string) (v : A) (d : t A) : t A :=
  match d with
  | [] => [(k, v)]
  | (k', v') :: d' => if String.eqb k k' then (k, v) :: d' else (k', v') :: set k v d'
  end.

Definition get {A : Type} (k : string) (d : t A) : option A := Fs.assoc k d.

Definition mem {A : Type} (k : string) (d : t A) : bool :=
  match get k d with Some _ => true | None => false end.

Definition values {A : Type} (d : t A) : list A := map snd d.

Definition keys {A : Type} (d : t A) : list string := map fst d.

End PyDict.

(** ** Parsed YAML documents and the operations Python applies to them *)

Module Yaml.

Inductive value : Type :=
| YNull
| YBool (b : bool)
| YInt (n : Z)
| YFloat (nonzero : bool)
| YStr (s : string)
| YList (items : list value)
| YDict (fields : list (string * value)).

(** [type(v).__name__] *)
Definition type_name (v : value) : string :=
  match v with
  | YNull => "NoneType"
  | YBool _ => "bool"
  | YInt _ => "int"
  | YFloat _ => "float"
  | YStr _ => "str"
  | YList _ => "list"
  | YDict _ => "dict"
  end.

Definition empty_dict : value := YDict [].
Definition empty_list : value := YList [].

Definition no_attribute (v : value) (attr : string) : exn :=
  AttributeError ("'" ++ type_name v ++ "' object has no attribute '" ++ attr ++ "'").

(** [v.get(key, default)]: only a [dict] has the method. *)
Definition get (v : value) (key : string) (default : value) : result value :=
  match v with
  | YDict fields =>
      match Fs.assoc key fields with
      | Some x => Ok x
      | None => Ok default
      end
  | _ => Raise (no_attribute v "get")
  end.

(** [isinstance(v, dict)] *)
Definition is_dict (v : value) : bool :=
  match v with YDict _ => true | _ => false end.

(** Truth value. *)
Definition truthy (v : value) : bool :=
  match v with
  | YNull => false
  | YBool b => b
  | YInt n => negb (n =? 0)%Z
  | YFloat nonzero => nonzero
  | YStr s => PyStr.truthy s
  | YList items => match items with [] => false | _ => true end
  | YDict fields => match fields with [] => false | _ => true end
  end.

(** [v is True] *)
Definition is_True (v : value) : bool :=
  match v with YBool true => true | _ => false end.

(** [v == s] for a [str] literal [s]. *)
Definition eq_str (v : value) (s : string) : bool :=
  match v with YStr s' => String.eqb s' s | _ => false end.

Fixpoint chars (s : string) : list value :=
  match s with
  | EmptyString => []
  | String c s' => YStr (String c EmptyString) :: chars s'
  end.

(** The items that [for x in v] (and [list.extend(v)]) goes through. *)
Definition iter (v : value) : result (list value) :=
  match v with
  | YList items => Ok items
  | YStr s => Ok (chars s)
  | YDict fields => Ok (map (fun kv => YStr (fst kv)) fields)
  | _ => Raise (TypeError ("'" ++ type_name v ++ "' object is not iterable"))
  end.

(** [s in v] for a [str] literal [s]. *)
Definition str_in (s : string) (v : value) : result bool :=
  match v with
  | YList items => Ok (existsb (fun x => eq_str x s) items)
  | YStr s' => Ok (PyStr.contains s s')
  | YDict fields => Ok (PyDict.mem s fields)
  | _ => Raise (TypeError ("argument of type '" ++ type_name v ++ "' is not iterable"))
  end.

(** [v.endswith(suffix)] *)
Definition endswith (v : value) (suffix : string) : result bool :=
  match v with
  | YStr s => Ok (PyStr.endswith suffix s)
  | _ => Raise (no_attribute v "endswith")
  end.

End Yaml.

(** ** Parsed Python modules

    A parsed module is given by its nodes in the order of [ast.walk]; of a node
    the model keeps what the validators test with [isinstance]. *)

Module PyAst.

Inductive stmt_kind : Type :=
| Pass                          (* [ast.Pass] *)
| ExprStr                       (* [ast.Expr] of a [str] constant: a docstring *)
| OtherStmt.                    (* any other statement *)

Inductive node : Type :=
| FunctionDef (fname : string) (body : list stmt_kind)
| AttributeOfName (id : string)     (* [ast.Attribute] whose value is the [ast.Name] id *)
| CallOfAttribute (attr : string)   (* [ast.Call] whose func is an [ast.Attribute] *)
| OtherNode.

Definition tree : Type := list node.

(** [ast.walk] *)
Definition walk (t : tree) : list node := t.

(** The statements of a body that are neither [pass] nor a docstring. *)
Definition real_stmts (body : list stmt_kind) : list stmt_kind :=
  filter (fun s => match s with OtherStmt => true | _ => false end) body.

End PyAst.

(** ** The world outside the engine *)

Inductive parse_result (A : Type) : Type :=
| Parsed (a : A)
| ParseError (msg : string).

Arguments Parsed {A} a.
Arguments ParseError {A} msg.

(** How a call of [list(yaml.safe_load_all(text))] ends: with the documents,
    with a [yaml.YAMLError], or with another exception (PyYAML raises a
    [ValueError] for a date such as [2024-13-45]). *)
Inductive load_result : Type :=
| Loaded (docs : list Yaml.value)
| YAMLError
| OtherError (e : exn).

(** How a run of the [shellcheck] binary ends. *)
Inductive tool_run : Type :=
| Exited (returncode : Z)
| TimedOut.

Record World : Type := {
  (** [import hcl2] succeeded. *)
  hcl2_available : bool;
  (** [hcl2.load]: the top-level keys of the parsed file, [None] on any error. *)
  hcl2_load : string -> option (list string);
  (** [list(yaml.safe_load_all(text))]. *)
  yaml_safe_load_all : string -> load_result;
  (** [yaml.safe_load(text)], with the text of the [YAMLError]; the pipeline
      validator is modelled on the texts for which the call returns or raises
      a [YAMLError]. *)
  yaml_safe_load : string -> parse_result Yaml.value;
  (** [ast.parse(text)], with the text of the [SyntaxError]; the Python and
      shell validators are modelled on the texts for which the call returns
      or raises a [SyntaxError]. *)
  ast_parse : string -> parse_result PyAst.tree;
  (** The [shellcheck] binary run on a file of the submission; [None] when it
      is not installed. *)
  shellcheck : option (Fs.path -> tool_run);
  (** [concept_keywords.json]: group name and list name to the patterns; a
      missing file, group or list is the empty list. *)
  keywords : string -> string -> list Regex.regex;
}.

(** ** Scanners shared by the validators *)

Module Scan.

(** [re.sub(p, '', line)] for a pattern [p] that ends in [.*$], on a line
    without line breaks: the line is cut at the leftmost position where [p]
    matches; [at_start] tells whether [p] matches at the start of a text. *)
Fixpoint cut_at (at_start : string -> bool) (line : string) : string :=
  match line with
  | EmptyString => EmptyString
  | String c rest =>
      if at_start line then EmptyString else String c (cut_at at_start rest)
  end.

(** The text before the first occurrence of the character [c], when there
    is one. *)
Fixpoint before_char (c : ascii) (s : string) : option string :=
  match s with
  | EmptyString => None
  | String d s' =>
      if Ascii.eqb d c then Some EmptyString
      else match before_char c s' with
           | Some b => Some (String d b)
           | None => None
           end
  end.

(** The text before the first occurrence of [stop]. *)
Fixpoint before (stop s : string) : option string :=
  if String.prefix stop s then Some EmptyString
  else match s with
       | EmptyString => None
       | String d s' =>
           match before stop s' with
           | Some b => Some (String d b)
           | None => None
           end
       end.

(** The leading white space of [s] and what follows it. *)
Fixpoint span_ws (s : string) : string * string :=
  match s with
  | EmptyString => (EmptyString, EmptyString)
  | String c s' =>
      if PyStr.isspace c
      then let (w, r) := span_ws s' in (String c w, r)
      else (EmptyString, s)
  end.

Fixpoint drop (n : nat) (s : string) : string :=
  match n, s with
  | O, _ => s
  | S n', String _ s' => drop n' s'
  | S _, EmptyString => EmptyString
  end.

(** [re.findall] and [re.sub] go through the text from left to right and
    resume after each match: [skip] counts the characters of the last match
    that are still to be passed over. *)
Fixpoint findall_go (match_at : string -> option string) (skip : nat) (s : string)
  : list string :=
  match s with
  | EmptyString => []
  | String _ s' =>
      match skip with
      | S k => findall_go match_at k s'
      | O =>
          match match_at s with
          | Some m => m :: findall_go match_at (String.length m - 1) s'
          | None => findall_go match_at 0 s'
          end
      end
  end.

Definition findall (match_at : string -> option string) (s : string) : list string :=
  findall_go match_at 0 s.

(** [re.sub(p, '', s)] for a pattern whose matches are never empty. *)
Fixpoint remove_go (match_at : string -> option string) (skip : nat) (s : string)
  : string :=
  match s with
  | EmptyString => EmptyString
  | String c s' =>
      match skip with
      | S k => remove_go match_at k s'
      | O =>
          match match_at s with
          | Some m => remove_go match_at (String.length m - 1) s'
          | None => String c (remove_go match_at 0 s')
          end
      end
  end.

Definition remove_all (match_at : string -> option string) (s : string) : string :=
  remove_go match_at 0 s.

End Scan.

(** ** Markdown templates

    [_strip_md_template] is defined three times in the source: the copies of
    [shell_validator.py] and [document_validator.py] are the same, the copy of
    [pipeline_validator.py] lacks the test of empty table rows. *)

Module Markdown.

Import Regex.

(** The match of [<!--.*?-->] (with [re.DOTALL]) at the start of [s]. *)
Definition html_comment_at (s : string) : option string :=
  if String.prefix "<!--" s then
    match Scan.before "-->" (Scan.drop 4 s) with
    | Some inner => Some ("<!--" ++ inner ++ "-->")
    | None => None
    end
  else None.

(** [re.sub(r'<!--.*?-->', '', content, flags=re.DOTALL)] *)
Definition remove_html_comments (content : string) : string :=
  Scan.remove_all html_comment_at content.

Definition bar : regex := chr "|".

(** [^\|[\s\-|]+\|$] *)
Definition table_separator : regex :=
  seq [bar;
       plus (Cls (fun c => PyStr.isspace c || Ascii.eqb c "-" || Ascii.eqb c "|"));
       bar].

(** [^\|\s*\|\s*\|\s*\|\s*\|$] *)
Definition empty_table_row : regex :=
  seq [bar; Star ws; bar; Star ws; bar; Star ws; bar; Star ws; bar].

(** The lines that the loop of [_strip_md_template] keeps. *)
Definition keep_line (empty_rows : bool) (line : string) : bool :=
  let stripped := PyStr.strip line in
  if PyStr.startswith "#" stripped then false
  else if match_anchored table_separator stripped then false
  else if empty_rows && match_anchored empty_table_row stripped then false
  else if String.eqb stripped "-" then false
  else true.

Definition strip_template (empty_rows : bool) (content : string) : string :=
  let content := remove_html_comments content in
  PyStr.join PyStr.NL (filter (keep_line empty_rows) (PyStr.splitlines content)).

(** [shell_validator._strip_md_template], [document_validator._strip_md_template] *)
Definition _strip_md_template (content : string) : string :=
  strip_template true content.

(** [pipeline_validator._strip_md_template] *)
Definition _strip_md_template_pipeline (content : string) : string :=
  strip_template false content.

End Markdown.

(** ** Points and messages

    Idioms that the validators repeat: a point for a condition, the words yes
    and no in the details, and sub-criteria that each add one point and one
    entry to the details ([if c: score += 1; details.append(label)], in the
    order of the source). *)

Module Tally.

Definition bool_pt (b : bool) : Z := if b then 1%Z else 0%Z.

Definition yes_no (b : bool) : string := if b then "yes" else "no".

Definition labels (criteria : list (bool * string)) : list string :=
  map snd (filter fst criteria).

Definition score (criteria : list (bool * string)) : Z :=
  Z.of_nat (List.length (labels criteria)).

(** The details of a tally: the labels found, or the message [otherwise]. *)
Definition found (found_labels : list string) (otherwise : string) : string :=
  match found_labels with
  | [] => otherwise
  | _ => "Found: " ++ PyStr.join ", " found_labels
  end.

End Tally.

(** ** [validators/terraform_validator.py] *)

Module Terraform.

Import PyStr.

Definition DQUOTE : ascii := "034"%char.

Fixpoint has_char (c : ascii) (s : string) : bool :=
  match s with
  | EmptyString => false
  | String d s' => Ascii.eqb d c || has_char c s'
  end.

(** The pattern [\s*#(?!.*Q).*$], with Q the double quote, matches at the
    start of the text: a hash sign, after white space only, that no double
    quote follows on the line. *)
Fixpoint tf_comment_at (s : string) : bool :=
  match s with
  | EmptyString => false
  | String c s' =>
      if Ascii.eqb c "#" then negb (has_char DQUOTE s')
      else if isspace c then tf_comment_at s'
      else false
  end.

Definition is_tf_comment (stripped : string) : bool :=
  startswith "#" stripped || startswith "//" stripped.

Definition _strip_tf_comments (content : string) : string :=
  join NL
    (map (Scan.cut_at tf_comment_at)
       (filter (fun line => negb (is_tf_comment (strip line))) (splitlines content))).

Definition tf_dir : Fs.path := ["terraform"].

(** [_parse_hcl_file] *)
Definition _parse_hcl_file (w : World) (root : Fs.node) (p : Fs.path) : option (list string) :=
  if negb (hcl2_available w) then None
  else match Fs.resolve root p with
       | Some (Fs.File content) => hcl2_load w content
       | _ => None
       end.

(** The [.tf] files of the directory, name to path. *)
Definition collect_tf_files (root : Fs.node) : PyDict.t Fs.path :=
  fold_left
    (fun tf_files fname =>
       if endswith ".tf" fname
       then PyDict.set fname (tf_dir ++ [fname])%list tf_files
       else tf_files)
    (Fs.listdir root tf_dir) [].

(** The loop of check 1: the files that fail to parse and the parsed ones. *)
Definition parse_all (w : World) (root : Fs.node) (tf_files : PyDict.t Fs.path)
  : list string * PyDict.t (list string) :=
  fold_left
    (fun '(parse_errors, all_parsed) '(fname, fpath) =>
       match _parse_hcl_file w root fpath with
       | None => ((parse_errors ++ [fname])%list, all_parsed)
       | Some parsed => (parse_errors, PyDict.set fname parsed all_parsed)
       end)
    tf_files ([], []).

Definition content_lines (content : string) : list string :=
  map strip
    (filter (fun l => truthy (strip l) && negb (startswith "#" (strip l))
                      && negb (startswith "//" (strip l)))
       (splitlines content)).

Definition key_files : list string := ["main.tf"; "networking.tf"; "variables.tf"].

Definition files_with_content (root : Fs.node) : Z :=
  Z.of_nat
    (List.length
       (filter
          (fun kf =>
             (3 <? Z.of_nat (List.length
                               (content_lines (Fs._read_file root (tf_dir ++ [kf])%list))))%Z)
          key_files)).

Definition has_resource_blocks (all_parsed : PyDict.t (list string)) : bool :=
  existsb (fun parsed => existsb (String.eqb "resource") parsed) (PyDict.values all_parsed).

(** [(?:from_port\s*=\s*22|to_port\s*=\s*22)] *)
Definition port_22 : Regex.regex :=
  Regex.Alt
    (Regex.seq [Regex.lit "from_port"; Regex.Star Regex.ws; Regex.chr "=";
                Regex.Star Regex.ws; Regex.lit "22"])
    (Regex.seq [Regex.lit "to_port"; Regex.Star Regex.ws; Regex.chr "=";
                Regex.Star Regex.ws; Regex.lit "22"]).

(** The match of
    [ingress\s*\{[^}]*(?:from_port\s*=\s*22|to_port\s*=\s*22)[^}]*\}]
    at the start of [s]: the block runs to the first closing brace. *)
Definition ingress_at (s : string) : option string :=
  if String.prefix "ingress" s then
    let (w, r) := Scan.span_ws (Scan.drop 7 s) in
    match r with
    | String "{" r' =>
        match Scan.before_char "}" r' with
        | Some body =>
            if Regex.search port_22 body
            then Some ("ingress" ++ w ++ "{" ++ body ++ "}")
            else None
        | None => None
        end
    | _ => None
    end
  else None.

Definition ingress_blocks (content : string) : list string :=
  Scan.findall ingress_at content.

Definition ssh_open (root : Fs.node) (tf_files : PyDict.t Fs.path) : bool :=
  existsb
    (fun fpath =>
       existsb (contains "0.0.0.0/0") (ingress_blocks (Fs._read_file root fpath)))
    (PyDict.values tf_files).

Definition skeleton_markers : list string :=
  ["todo"; "hint:"; "task:"; "requirements:"; "implement"; "---";
   "your cost analysis"; "such as:"; "address the findings"].

Definition analysis_markers : list string :=
  (skeleton_markers ++
   ["analyze"; "propose"; "explain"; "describe"; "consider";
    "lifecycle policies"; "spot/mixed"; "right-siz"; "cost-sav";
    "cost_optimization.tf"; "cost report"])%list.

(** The comment lines of the file that carry none of the markers. *)
Definition comment_lines (markers : list string) (raw : string) : list string :=
  filter
    (fun l => startswith "#" (strip l) && (10 <? len (strip l))%Z
              && negb (any_in markers (lower l)))
    (splitlines raw).

Definition validate (w : World) (root : Fs.node) (quick : bool) : list Check :=
  if negb (Fs.isdir root tf_dir) then
    [_check "Terraform directory exists" 5 false "submission/terraform/ not found"]
  else
    let tf_files := collect_tf_files root in
    (* Check 1: HCL files parse without errors *)
    let '(checks, all_parsed) :=
      if negb (hcl2_available w) then
        ([_check "HCL parsing (python-hcl2)" 5 false
            "python-hcl2 not installed — install with: pip install python-hcl2"],
         [])
      else
        let '(parse_errors, all_parsed) := parse_all w root tf_files in
        match parse_errors with
        | _ :: _ =>
            ([_check "HCL parsing" 5 false
                ("Parse errors in: " ++ join ", " parse_errors)], all_parsed)
        | [] =>
            ([_check "HCL parsing" 5 (0 <? Z.of_nat (List.length tf_files))%Z
                (match tf_files with [] => "No .tf files found" | _ => EmptyString end)],
             all_parsed)
        end in
    (* Check 2: plan structure *)
    let plan_ok := (2 <=? files_with_content root)%Z && has_resource_blocks all_parsed in
    let checks :=
      (checks ++
       [_check "Plan structure (resource blocks exist)" 5 plan_ok
          (if negb plan_ok then "Missing resource blocks in Terraform files"
           else EmptyString)])%list in
    if quick then checks
    else
      (* Check 3: VPC *)
      let all_content :=
        fold_left (fun acc fpath => acc ++ Fs._read_file root fpath ++ NL)
          (PyDict.values tf_files) EmptyString in
      let content_lower := lower all_content in
      let has_vpc := contains "aws_vpc" all_content in
      let has_public_subnet :=
        contains "public" content_lower && contains "aws_subnet" all_content in
      let has_private_subnet :=
        contains "private" content_lower && contains "aws_subnet" all_content in
      let has_nat := contains "aws_nat_gateway" all_content in
      let has_igw := contains "aws_internet_gateway" all_content in
      let vpc_score :=
        (Tally.bool_pt has_vpc + Tally.bool_pt (has_public_subnet && has_private_subnet)
         + Tally.bool_pt has_nat + Tally.bool_pt has_igw)%Z in
      let checks :=
        (checks ++
         [_check "VPC: public + private subnets, NAT gateway" 4 (3 <=? vpc_score)%Z
            ("VPC components found: " ++ str_of_int vpc_score
             ++ "/4 (VPC, subnets, NAT, IGW)")])%list in
      (* Check 4: security groups *)
      let ssh_open := ssh_open root tf_files in
      let checks :=
        (checks ++
         [_check "Security groups: no 0.0.0.0/0 on SSH" 2 (negb ssh_open)
            (if ssh_open
             then "SSH (port 22) is open to 0.0.0.0/0 — restrict to management CIDR"
             else EmptyString)])%list in
      (* Check 5: EKS *)
      let has_eks_cluster := contains "aws_eks_cluster" all_content in
      let has_eks_node_group := contains "aws_eks_node_group" all_content in
      let has_iam_role := contains "aws_iam_role" all_content in
      let eks_score :=
        (Tally.bool_pt has_eks_cluster + Tally.bool_pt (has_eks_node_group && has_iam_role))%Z in
      let checks :=
        (checks ++
         [_check "EKS: cluster, IAM roles, node groups" 2 (2 <=? eks_score)%Z
            ("EKS components: cluster=" ++ Tally.yes_no has_eks_cluster
             ++ ", node_group=" ++ Tally.yes_no has_eks_node_group
             ++ ", iam=" ++ Tally.yes_no has_iam_role)])%list in
      (* Check 6: cost optimization *)
      let cost_content_raw := Fs._read_file root (tf_dir ++ ["cost_optimization.tf"])%list in
      let cost_lower := lower (_strip_tf_comments cost_content_raw) in
      let criteria :=
        [(any_in ["spot"; "mixed_instances"; "mixed instance"; "on_demand_percentage"]
            cost_lower, "spot/mixed instances");
         (any_in ["lifecycle"; "transition"; "glacier"; "infrequent_access";
                  "intelligent_tiering"] cost_lower, "S3 lifecycle");
         (any_in ["rightsize"; "right-size"; "smaller instance"; "instance_type";
                  "graviton"] cost_lower, "rightsizing");
         ((5 <=? Z.of_nat (List.length (comment_lines skeleton_markers cost_content_raw)))%Z,
          "cost analysis comments")] in
      let cost_details := map snd (filter fst criteria) in
      let cost_score := Z.of_nat (List.length cost_details) in
      let checks :=
        (checks ++
         [_check "Cost optimization: spot, lifecycle, rightsizing" 4 (2 <=? cost_score)%Z
            (match cost_details with
             | [] => "No cost optimization measures found"
             | _ => "Found: " ++ join ", " cost_details
             end)])%list in
      (* Check 7: cost analysis response *)
      let analysis_comments := comment_lines analysis_markers cost_content_raw in
      let analysis_text := lower (join NL analysis_comments) in
      let analysis_score :=
        if (5 <=? Z.of_nat (List.length analysis_comments))%Z then
          (Tally.bool_pt (any_in ["monthly cost"; "total cost"; "saving"; "reduce";
                            "current spend"] analysis_text)
           + Tally.bool_pt (any_in ["$"; "usd"; "percent"; "%"; "estimated"] analysis_text)
           + Tally.bool_pt (any_in ["trade-off"; "tradeoff"; "risk"; "consideration"; "impact"]
                        analysis_text))%Z
        else 0%Z in
      (checks ++
       [_check "Cost analysis: report review and savings proposals" 3
          (2 <=? analysis_score)%Z
          ("Cost analysis depth: " ++ str_of_int analysis_score ++ "/3")])%list.

End Terraform.

(** ** [validators/kubernetes_validator.py] *)

Module Kubernetes.

Import PyStr.
Definition value : Type := Yaml.value.

Definition k8s_dir : Fs.path := ["k8s"].

Definition has_code_line (content : string) : bool :=
  existsb is_code_line (splitlines content).

(** [_load_yaml]: the documents of the file that are not null; [None] for a
    file that cannot be read, holds comments only, or makes the parser raise
    a [YAMLError].  Any other exception of the parser leaves the function. *)
Definition _load_yaml (w : World) (root : Fs.node) (p : Fs.path)
  : result (option (list value)) :=
  match Fs.resolve root p with
  | Some (Fs.File content) =>
      let stripped := join NL (filter is_code_line (splitlines content)) in
      if negb (truthy (strip stripped)) then Ok None
      else match yaml_safe_load_all w content with
           | Loaded docs =>
               Ok (Some (filter (fun d => match d with Yaml.YNull => false | _ => true end)
                           docs))
           | YAMLError => Ok None
           | OtherError e => Raise e
           end
  | _ => Ok None
  end.

(** [doc.get(spec, {}).get(template, {}).get(spec, {})] *)
Definition pod_spec_of (doc : value) : result value :=
  (spec <- Yaml.get doc "spec" Yaml.empty_dict ;;
   template <- Yaml.get spec "template" Yaml.empty_dict ;;
   Yaml.get template "spec" Yaml.empty_dict)%py.

(** [_find_container_spec]: the containers of the pod template, then those of
    a bare pod; an exception ends the collection with what was found. *)
Definition _find_container_spec (doc : value) : list value :=
  match (spec <- Yaml.get doc "spec" Yaml.empty_dict ;;
         template <- Yaml.get spec "template" Yaml.empty_dict ;;
         pod_spec <- Yaml.get template "spec" Yaml.empty_dict ;;
         cs <- Yaml.get pod_spec "containers" Yaml.empty_list ;;
         templated <- Yaml.iter cs ;;
         Ok (spec, templated))%py with
  | Raise _ => []
  | Ok (spec, templated) =>
      match (cs <- Yaml.get spec "containers" Yaml.empty_list ;; Yaml.iter cs)%py with
      | Raise _ => templated
      | Ok bare => (templated ++ bare)%list
      end
  end.

(** The parse loop of [validate] over the names [names], from the lists
    [parse_errors] and [yaml_files] built so far: names of the files with
    parse errors and the documents of the files that parse.  An exception
    that leaves [_load_yaml] ends the loop. *)
Fixpoint load_files (w : World) (root : Fs.node) (names : list string)
    (parse_errors : list string) (yaml_files : PyDict.t (list value))
  : result (list string * PyDict.t (list value)) :=
  match names with
  | [] => Ok (parse_errors, yaml_files)
  | fname :: names' =>
      if endswith ".yaml" fname || endswith ".yml" fname then
        let fpath := (k8s_dir ++ [fname])%list in
        (docs <- _load_yaml w root fpath ;;
         match docs with
         | None =>
             if has_code_line (Fs._read_file root fpath)
             then load_files w root names' (parse_errors ++ [fname])%list yaml_files
             else load_files w root names' parse_errors yaml_files
         | Some docs =>
             load_files w root names' parse_errors (PyDict.set fname docs yaml_files)
         end)%py
      else load_files w root names' parse_errors yaml_files
  end.

Definition load_all (w : World) (root : Fs.node)
  : result (list string * PyDict.t (list value)) :=
  load_files w root (Fs.listdir root k8s_dir) [] [].

Definition set_if {S : Type} (b : bool) (f : S -> S) : block S unit :=
  Block.when b (Block.modify f).

(** Check 2: some container has both requests and limits. *)
Definition scan_resources (all_docs : list value) : block bool unit :=
  Block.for_each all_docs (fun doc =>
    Block.for_each_until (_find_container_spec doc) (fun container =>
      (res <- Block.lift (Yaml.get container "resources" Yaml.empty_dict) ;;
       requests <- Block.lift (Yaml.get res "requests" Yaml.YNull) ;;
       if Yaml.truthy requests then
         limits <- Block.lift (Yaml.get res "limits" Yaml.YNull) ;;
         if Yaml.truthy limits
         then Block.modify (fun _ => true) ;; Block.ret true
         else Block.ret false
       else Block.ret false)%block)).

(** Check 3: liveness and readiness probes. *)
Definition scan_probes (all_docs : list value) : block (bool * bool) unit :=
  Block.for_each all_docs (fun doc =>
    Block.for_each (_find_container_spec doc) (fun container =>
      (liveness <- Block.lift (Yaml.get container "livenessProbe" Yaml.YNull) ;;
       set_if (Yaml.truthy liveness) (fun '(_, r) => (true, r)) ;;
       readiness <- Block.lift (Yaml.get container "readinessProbe" Yaml.YNull) ;;
       set_if (Yaml.truthy readiness) (fun '(l, _) => (l, true)))%block)).

Definition kind_is (doc : value) (kind : string) : bool :=
  match Yaml.get doc "kind" Yaml.YNull with
  | Ok k => Yaml.is_dict doc && Yaml.eq_str k kind
  | Raise _ => false
  end.

(** Check 4: an autoscaler with both replica bounds. *)
Definition scan_hpa (all_docs : list value) : block bool unit :=
  Block.for_each all_docs (fun doc =>
    if kind_is doc "HorizontalPodAutoscaler" then
      (spec <- Block.lift (Yaml.get doc "spec" Yaml.empty_dict) ;;
       min_replicas <- Block.lift (Yaml.get spec "minReplicas" Yaml.YNull) ;;
       if Yaml.truthy min_replicas then
         max_replicas <- Block.lift (Yaml.get spec "maxReplicas" Yaml.YNull) ;;
         set_if (Yaml.truthy max_replicas) (fun _ => true)
       else Block.ret tt)%block
    else Block.ret tt).

(** Check 5: anti-affinity or topology spread. *)
Definition scan_anti_affinity (all_docs : list value) : block bool unit :=
  Block.for_each all_docs (fun doc =>
    Block.try_pass
      (pod_spec <- Block.lift (pod_spec_of doc) ;;
       affinity <- Block.lift (Yaml.get pod_spec "affinity" Yaml.empty_dict) ;;
       anti <- Block.lift (Yaml.get affinity "podAntiAffinity" Yaml.YNull) ;;
       set_if (Yaml.truthy anti) (fun _ => true) ;;
       spread <- Block.lift (Yaml.get pod_spec "topologySpreadConstraints" Yaml.YNull) ;;
       set_if (Yaml.truthy spread) (fun _ => true))%block).

(** Check 6: a network policy whose policy types name Ingress. *)
Definition scan_netpol (all_docs : list value) : block bool unit :=
  Block.for_each all_docs (fun doc =>
    if kind_is doc "NetworkPolicy" then
      (spec <- Block.lift (Yaml.get doc "spec" Yaml.empty_dict) ;;
       policy_types <- Block.lift (Yaml.get spec "policyTypes" Yaml.empty_list) ;;
       ingress <- Block.lift (Yaml.str_in "Ingress" policy_types) ;;
       set_if ingress (fun _ => true))%block
    else Block.ret tt).

(** Check 7: the variables are [(has_non_root, has_read_only_fs)]. *)
Definition scan_security (all_docs : list value) : block (bool * bool) unit :=
  Block.for_each all_docs (fun doc =>
    Block.try_pass
      (pod_spec <- Block.lift (pod_spec_of doc) ;;
       pod_sc <- Block.lift (Yaml.get pod_spec "securityContext" Yaml.empty_dict) ;;
       non_root <- Block.lift (Yaml.get pod_sc "runAsNonRoot" Yaml.YNull) ;;
       set_if (Yaml.is_True non_root) (fun '(_, ro) => (true, ro)) ;;
       cs <- Block.lift (Yaml.get pod_spec "containers" Yaml.empty_list) ;;
       containers <- Block.lift (Yaml.iter cs) ;;
       Block.for_each containers (fun container =>
         sc <- Block.lift (Yaml.get container "securityContext" Yaml.empty_dict) ;;
         non_root <- Block.lift (Yaml.get sc "runAsNonRoot" Yaml.YNull) ;;
         set_if (Yaml.is_True non_root) (fun '(_, ro) => (true, ro)) ;;
         read_only <- Block.lift (Yaml.get sc "readOnlyRootFilesystem" Yaml.YNull) ;;
         set_if (Yaml.is_True read_only) (fun '(nr, _) => (nr, true))))%block).

(** Check 8: the variables are [(has_latest, has_any_image)]. *)
Definition scan_images (all_docs : list value) : block (bool * bool) unit :=
  Block.for_each all_docs (fun doc =>
    Block.for_each (_find_container_spec doc) (fun container =>
      (image <- Block.lift (Yaml.get container "image" (Yaml.YStr EmptyString)) ;;
       if Yaml.truthy image then
         Block.modify (fun '(latest, _) => (latest, true)) ;;
         is_latest <- Block.lift (Yaml.endswith image ":latest") ;;
         if is_latest then Block.modify (fun '(_, any) => (true, any))
         else
           tagged <- Block.lift (Yaml.str_in ":" image) ;;
           set_if (negb tagged) (fun '(_, any) => (true, any))
       else Block.ret tt)%block)).

(** Check 9, second loop: a container or a volume refers to a ConfigMap. *)
Definition scan_configmap_ref (all_docs : list value) : block bool unit :=
  Block.for_each all_docs (fun doc =>
    if negb (Yaml.is_dict doc) then Block.ret tt
    else
      Block.try_pass
        (pod_spec <- Block.lift (pod_spec_of doc) ;;
         cs <- Block.lift (Yaml.get pod_spec "containers" Yaml.empty_list) ;;
         containers <- Block.lift (Yaml.iter cs) ;;
         Block.for_each containers (fun container =>
           efs <- Block.lift (Yaml.get container "envFrom" Yaml.empty_list) ;;
           env_froms <- Block.lift (Yaml.iter efs) ;;
           Block.for_each env_froms (fun env_from =>
             ref <- Block.lift (Yaml.get env_from "configMapRef" Yaml.YNull) ;;
             set_if (Yaml.truthy ref) (fun _ => true)) ;;
           evs <- Block.lift (Yaml.get container "env" Yaml.empty_list) ;;
           env_vars <- Block.lift (Yaml.iter evs) ;;
           Block.for_each env_vars (fun env_var =>
             vf <- Block.lift (Yaml.get env_var "valueFrom" Yaml.empty_dict) ;;
             if Yaml.truthy vf then
               ref <- Block.lift (Yaml.get vf "configMapKeyRef" Yaml.YNull) ;;
               set_if (Yaml.truthy ref) (fun _ => true)
             else Block.ret tt)) ;;
         vs <- Block.lift (Yaml.get pod_spec "volumes" Yaml.empty_list) ;;
         volumes <- Block.lift (Yaml.iter vs) ;;
         Block.for_each volumes (fun vol =>
           cm <- Block.lift (Yaml.get vol "configMap" Yaml.YNull) ;;
           set_if (Yaml.truthy cm) (fun _ => true)))%block).

Definition incident_dir : Fs.path := (k8s_dir ++ ["incident_responses"])%list.

Definition scenario_text (root : Fs.node) (scenario_num : Z) : string :=
  let fname := "scenario_" ++ str_of_int scenario_num ++ ".md" in
  lower (Fs._read_file root (incident_dir ++ [fname])%list).

(** One round of the loop over the three incident scenarios. *)
Definition incident_check (w : World) (root : Fs.node) (scenario_num max_pts : Z) : Check :=
  let check_name :=
    "Incident " ++ str_of_int scenario_num ++ ": root cause + remediation" in
  let content := scenario_text root scenario_num in
  if negb (truthy content) || (len (strip content) <? 100)%Z then
    _check check_name max_pts false "Response is empty or too short"
  else
    let group := "incident_" ++ str_of_int scenario_num in
    let rc_matches := Regex.count_matches (keywords w group "root_cause") content in
    let rem_matches := Regex.count_matches (keywords w group "remediation") content in
    let passed := (2 <=? rc_matches)%Z && (1 <=? rem_matches)%Z in
    let score := 0%Z in
    let score :=
      if (2 <=? rc_matches)%Z then (score + 2)%Z
      else if (1 <=? rc_matches)%Z then (score + 1)%Z
      else score in
    let score :=
      if (1 <=? rem_matches)%Z then (score + Z.min rem_matches 2)%Z else score in
    let score := Z.min score max_pts in
    {| name := check_name;
       max_points := max_pts;
       points_awarded := score;
       passed := passed;
       details := "root_cause_keywords=" ++ str_of_int rc_matches
                  ++ ", remediation_keywords=" ++ str_of_int rem_matches |}.

Definition prevention_count (w : World) (root : Fs.node) : Z :=
  Z.of_nat
    (List.length
       (filter
          (fun scenario_num =>
             existsb (fun kw => Regex.search kw (scenario_text root scenario_num))
               (keywords w ("incident_" ++ str_of_int scenario_num) "prevention"))
          [1; 2; 3]%Z)).

Definition validate (w : World) (root : Fs.node) (quick : bool) : result (list Check) :=
  if negb (Fs.isdir root k8s_dir) then
    Ok [_check "K8s directory exists" 3 false "submission/k8s/ not found"]
  else
    ('(parse_errors, yaml_files) <- load_all w root ;;
    (* Check 1: YAML validation *)
    let checks :=
      match parse_errors with
      | _ :: _ =>
          [_check "YAML parsing" 3 false ("Parse errors in: " ++ join ", " parse_errors)]
      | [] =>
          let has_content := (0 <? Z.of_nat (List.length yaml_files))%Z in
          [_check "YAML parsing" 3 has_content
             (if has_content then EmptyString else "No YAML content found")]
      end in
    if quick then Ok checks
    else
      let all_docs := concat (PyDict.values yaml_files) in
      (has_resources <- Block.run (scan_resources all_docs) false ;;
       let checks :=
         (checks ++ [_check "Resource requests and limits" 1 has_resources EmptyString])%list in
       '(has_liveness, has_readiness) <- Block.run (scan_probes all_docs) (false, false) ;;
       let checks :=
         (checks ++ [_check "Liveness and readiness probes" 1
                       (has_liveness && has_readiness) EmptyString])%list in
       has_hpa <- Block.run (scan_hpa all_docs) false ;;
       let checks :=
         (checks ++ [_check "HPA with min/max replicas" 1 has_hpa EmptyString])%list in
       has_anti_affinity <- Block.run (scan_anti_affinity all_docs) false ;;
       let checks :=
         (checks ++ [_check "Anti-affinity or topology spread" 1
                       has_anti_affinity EmptyString])%list in
       has_netpol <- Block.run (scan_netpol all_docs) false ;;
       let checks :=
         (checks ++ [_check "NetworkPolicy restricts ingress" 1 has_netpol EmptyString])%list in
       '(has_non_root, has_read_only_fs) <-
         Block.run (scan_security all_docs) (false, false) ;;
       let sec_score :=
         (Tally.bool_pt has_non_root + Tally.bool_pt has_read_only_fs)%Z in
       let checks :=
         (checks ++ [_check "Security context (non-root, read-only fs)" 2
                       (2 <=? sec_score)%Z
                       ("non-root=" ++ Tally.yes_no has_non_root
                        ++ ", readOnlyRootFs=" ++ Tally.yes_no has_read_only_fs)])%list in
       '(has_latest, has_any_image) <- Block.run (scan_images all_docs) (false, false) ;;
       let checks :=
         (checks ++ [_check "Image tag not :latest" 1 (has_any_image && negb has_latest)
                       (if has_latest then "Image uses :latest or has no tag"
                        else EmptyString)])%list in
       let has_configmap := existsb (fun doc => kind_is doc "ConfigMap") all_docs in
       has_configmap_ref <- Block.run (scan_configmap_ref all_docs) false ;;
       let checks :=
         (checks ++ [_check "ConfigMap referenced from deployment" 1
                       (has_configmap && has_configmap_ref)
                       ("configmap=" ++ Tally.yes_no has_configmap
                        ++ ", referenced=" ++ Tally.yes_no has_configmap_ref)])%list in
       (* Incident responses *)
       let checks :=
         (checks ++ map (fun '(scenario_num, max_pts) =>
                           incident_check w root scenario_num max_pts)
                      [(1, 4); (2, 4); (3, 4)]%Z)%list in
       (* Prevention measures *)
       Ok (checks ++ [_check "Prevention measures in incident responses" 1
                        (2 <=? prevention_count w root)%Z EmptyString])%list))%py.

End Kubernetes.

(** ** [validators/shell_validator.py] *)

Module Shell.

Import PyStr.

(** [\s+#\s.*$] matches at the start of the text: white space, a hash sign,
    one more white space character; [seen_ws] records that white space was
    passed. *)
Fixpoint shell_comment_from (seen_ws : bool) (s : string) : bool :=
  match s with
  | EmptyString => false
  | String c s' =>
      if isspace c then shell_comment_from true s'
      else if seen_ws && Ascii.eqb c "#" then
        match s' with
        | String d _ => isspace d
        | EmptyString => false
        end
      else false
  end.

Definition shell_comment_at (s : string) : bool := shell_comment_from false s.

Definition _strip_shell_comments (content : string) : string :=
  join NL
    (map (Scan.cut_at shell_comment_at)
       (filter (fun line => negb (startswith "#" (strip line))) (splitlines content))).

Definition _has_substantial_code (content : string) (min_lines : Z) : bool :=
  let code_lines :=
    filter
      (fun l => truthy (strip l)
                && negb (startswith "#" (strip l))
                && negb (String.eqb (lower (strip l)) "pass")
                && negb (contains "todo" (lower l)))
      (splitlines content) in
  (min_lines <=? Z.of_nat (List.length code_lines))%Z.

(** [_run_shellcheck]: true when the linter accepts the file, is not
    installed, or runs out of time. *)
Definition _run_shellcheck (w : World) (p : Fs.path) : bool :=
  match shellcheck w with
  | None => true
  | Some run =>
      match run p with
      | Exited returncode => (returncode =? 0)%Z
      | TimedOut => true
      end
  end.

Definition _has_set_options (content : string) : bool :=
  contains "set -e" content || contains "set -euo pipefail" content.

(** The shell scripts of [network/] and [edge/]. *)
Definition collect_sh_files (root : Fs.node) : list Fs.path :=
  flat_map
    (fun subdir =>
       if negb (Fs.isdir root [subdir]) then []
       else map (fun fname => [subdir; fname])
              (filter (endswith ".sh") (Fs.listdir root [subdir])))
    ["network"; "edge"].

(** [os.path.basename] *)
Definition basename (p : Fs.path) : string := last p EmptyString.

(** The scripts with five lines of code or more. *)
Definition content_scripts (root : Fs.node) (sh_files : list Fs.path) : list Fs.path :=
  filter
    (fun fpath =>
       negb (Z.of_nat (List.length
                         (filter is_code_line (splitlines (Fs._read_file root fpath))))
             <? 5)%Z)
    sh_files.

(** [(policy\s+(input|forward)\s+drop|-P\s+(INPUT|FORWARD)\s+DROP)] under
    [re.IGNORECASE] *)
Definition drop_policy : Regex.regex :=
  let chain := Regex.Alt (Regex.lit_i "input") (Regex.lit_i "forward") in
  Regex.Alt
    (Regex.seq [Regex.lit_i "policy"; Regex.plus Regex.ws; chain;
                Regex.plus Regex.ws; Regex.lit_i "drop"])
    (Regex.seq [Regex.lit_i "-P"; Regex.plus Regex.ws; chain;
                Regex.plus Regex.ws; Regex.lit_i "DROP"]).

(** [func_bodies]: function name to whether its body has a statement that
    is neither [pass] nor a docstring; a later definition of a name replaces
    an earlier one. *)
Definition func_bodies (tree : PyAst.tree) : PyDict.t bool :=
  fold_left
    (fun bodies node =>
       match node with
       | PyAst.FunctionDef fname body =>
           PyDict.set fname
             (0 <? Z.of_nat (List.length (PyAst.real_stmts body)))%Z bodies
       | _ => bodies
       end)
    (PyAst.walk tree) [].

(** Check 1: the linter on the scripts with content. *)
Definition shellcheck_check (w : World) (root : Fs.node) (sh_files : list Fs.path) : Check :=
  let checked := content_scripts root sh_files in
  let shellcheck_results :=
    map (fun fpath => (basename fpath, _run_shellcheck w fpath)) checked in
  let has_content_scripts := Z.of_nat (List.length checked) in
  let failed_scripts :=
    map fst (filter (fun r => negb (snd r)) shellcheck_results) in
  if (has_content_scripts =? 0)%Z then
    _check "shellcheck passes on .sh files" 2 false "No shell scripts with content found"
  else
    match failed_scripts with
    | _ :: _ =>
        _check "shellcheck passes on .sh files" 2 false
          ("Failed: " ++ join ", " failed_scripts)
    | [] => _check "shellcheck passes on .sh files" 2 true EmptyString
    end.

Definition validate (w : World) (root : Fs.node) (quick : bool) : list Check :=
  let sh_files := collect_sh_files root in
  (* Check 1: shellcheck *)
  let checks := [shellcheck_check w root sh_files] in
  (* Check 2: Python syntax of camera_discovery.py *)
  let camera_content := Fs._read_file root ["network"; "camera_discovery.py"] in
  let py_valid :=
    if truthy camera_content then
      match ast_parse w camera_content with
      | Parsed _ => true
      | ParseError _ => false
      end
    else false in
  let checks :=
    (checks ++ [_check "Python syntax valid (camera_discovery.py)" 1 py_valid
                  EmptyString])%list in
  if quick then checks
  else
    (* Check 3: firewall, default DROP *)
    let firewall_raw := Fs._read_file root ["network"; "firewall_rules.sh"] in
    let firewall_content := _strip_shell_comments firewall_raw in
    let fw_lower := lower firewall_content in
    let has_drop_policy := Regex.search drop_policy firewall_content in
    let checks :=
      (checks ++ [_check "Firewall: default DROP policy" 3 has_drop_policy
                    EmptyString])%list in
    (* Check 4: firewall rules *)
    let fw_criteria :=
      if _has_substantial_code firewall_raw 8 then
        [(Regex.search (Regex.one_of ["554"; "rtsp"]) fw_lower
          && Regex.search (Regex.one_of ["camera"; "10.50.20"; "eno2"]) fw_lower,
          "RTSP from camera VLAN");
         (Regex.search (Regex.lit "443") firewall_content
          && Regex.search (Regex.one_of ["output"; "outbound"; "established"]) fw_lower,
          "HTTPS outbound");
         (Regex.search (Regex.lit "22") firewall_content
          && Regex.search (Regex.one_of ["10.50.1."; "management"; "mgmt"]) fw_lower,
          "SSH from management")]
      else [] in
    let fw_score := Tally.score fw_criteria in
    let checks :=
      (checks ++ [_check "Firewall: RTSP, HTTPS, SSH, camera isolation" 3
                    (2 <=? fw_score)%Z
                    (Tally.found (Tally.labels fw_criteria) "Missing firewall rules")])%list in
    (* Check 5: setup.sh *)
    let setup_raw := Fs._read_file root ["edge"; "setup.sh"] in
    let setup_lower := lower (_strip_shell_comments setup_raw) in
    let setup_criteria :=
      ((if negb (_has_substantial_code setup_raw 10) then []
        else
          [(any_in ["apt-get install.*docker"; "docker-ce"; "install docker"; "docker.io"]
              setup_lower, "Docker");
           (any_in ["ntp"; "chrony"; "timedatectl"; "timesyncd"] setup_lower, "NTP");
           (any_in ["logrotate"; "log rotation"; "log-rotate"; "maxsize"; "rotate "]
              setup_lower, "log rotation");
           (any_in ["systemctl"; "systemd"; ".service"; "wantedby"] setup_lower,
            "systemd service")])
       ++ [(_has_set_options setup_raw && _has_substantial_code setup_raw 10,
            "error handling")])%list in
    let setup_score := Tally.score setup_criteria in
    let checks :=
      (checks ++ [_check "setup.sh: Docker, NTP, log rotation, systemd, error handling" 5
                    (3 <=? setup_score)%Z
                    ("Found: " ++ join ", " (Tally.labels setup_criteria)
                     ++ " (" ++ str_of_int setup_score ++ "/5)")])%list in
    (* Check 6: camera_discovery.py *)
    let cam_criteria :=
      if truthy camera_content then
        match ast_parse w camera_content with
        | ParseError _ => []
        | Parsed tree =>
            let has_implemented_funcs :=
              existsb (fun b => b) (PyDict.values (func_bodies tree)) in
            if has_implemented_funcs then
              [(any_in [".parse("; ".fromstring("; "findall("; "find("; "iter("]
                  camera_content, "XML parsing");
               (any_in ["json.dump("; "json.dumps("] camera_content, "JSON output");
               (any_in ["timeout"; "TimeoutError"; "socket.timeout"] camera_content,
                "timeout handling")]
            else []
        end
      else [] in
    let cam_score := Tally.score cam_criteria in
    let checks :=
      (checks ++ [_check "camera_discovery.py: XML parsing, JSON output, timeout" 3
                    (2 <=? cam_score)%Z
                    (Tally.found (Tally.labels cam_criteria) "Skeleton not implemented")])%list in
    (* Check 7: site_plan.md *)
    let site_plan_raw := Fs._read_file root ["network"; "site_plan.md"] in
    let site_plan := lower (Markdown._strip_md_template site_plan_raw) in
    let site_content_lines :=
      map strip (filter (fun l => truthy (strip l)) (splitlines site_plan)) in
    let site_plan :=
      if (Z.of_nat (List.length site_content_lines) <? 5)%Z then EmptyString
      else site_plan in
    let vlan_matches :=
      Regex.count_matches (keywords w "site_plan_vlan" "keywords") site_plan in
    let ip_matches :=
      Regex.count_matches (keywords w "site_plan_ip" "keywords") site_plan in
    let site_score :=
      (Tally.bool_pt (2 <=? vlan_matches)%Z
       + Tally.bool_pt (2 <=? ip_matches)%Z)%Z in
    let checks :=
      (checks ++ [_check "site_plan.md: VLAN design, IP scheme, isolation" 2
                    (1 <=? site_score)%Z
                    ("VLAN keywords=" ++ str_of_int vlan_matches
                     ++ ", IP keywords=" ++ str_of_int ip_matches)])%list in
    (* Check 8: golden_image.md *)
    let golden_raw := Fs._read_file root ["edge"; "golden_image.md"] in
    let golden_content := lower (Markdown._strip_md_template golden_raw) in
    let gi_matches :=
      Regex.count_matches (keywords w "golden_image" "keywords") golden_content in
    (checks ++ [_check "golden_image.md: creation process, patching strategy" 1
                  (2 <=? gi_matches)%Z
                  ("Concept keywords matched: " ++ str_of_int gi_matches)])%list.

End Shell.

(** ** [validators/pipeline_validator.py] *)

Module Pipeline.

Import PyStr.

Definition _strip_yaml_comments (content : string) : string :=
  join NL (filter (fun line => negb (startswith "#" (strip line))) (splitlines content)).

Definition cicd_dir : Fs.path := ["cicd"].

Definition validate (w : World) (root : Fs.node) (quick : bool) : list Check :=
  let content := Fs._read_file root (cicd_dir ++ ["pipeline.yaml"])%list in
  (* Check 1: pipeline YAML syntax *)
  let checks :=
    if negb (truthy (strip content)) then
      [_check "Pipeline YAML syntax" 1 false "pipeline.yaml is empty"]
    else
      let non_comment := join NL (filter is_code_line (splitlines content)) in
      if negb (truthy (strip non_comment)) then
        [_check "Pipeline YAML syntax" 1 false "pipeline.yaml has no YAML content"]
      else
        match yaml_safe_load w content with
        | Parsed parsed =>
            [_check "Pipeline YAML syntax" 1
               (match parsed with Yaml.YNull => false | _ => true end) EmptyString]
        | ParseError e =>
            [_check "Pipeline YAML syntax" 1 false ("YAML error: " ++ e)]
        end in
  if quick then checks
  else
    let stripped_content := _strip_yaml_comments content in
    let content_lower := lower stripped_content in
    (* Check 2: build, test and deploy stages *)
    let has_build := Regex.search (Regex.lit "build") content_lower in
    let has_test := Regex.search (Regex.lit "test") content_lower in
    let has_deploy := Regex.search (Regex.lit "deploy") content_lower in
    let stage_score :=
      (Tally.bool_pt has_build + Tally.bool_pt has_test
       + Tally.bool_pt has_deploy)%Z in
    let order_ok := true in
    let order_ok :=
      if has_build && has_test then
        if (find "test" content_lower <? find "build" content_lower)%Z then false
        else order_ok
      else order_ok in
    let order_ok :=
      if has_test && has_deploy then
        if (find "deploy" content_lower <? find "test" content_lower)%Z then false
        else order_ok
      else order_ok in
    let stage_score :=
      if negb order_ok then Z.max (stage_score - 1) 0 else stage_score in
    let checks :=
      (checks ++
       [{| name := "Build + test + deploy stages in order";
           max_points := 3;
           points_awarded := stage_score;
           passed := (3 <=? stage_score)%Z;
           details := "build=" ++ Tally.yes_no has_build
                      ++ ", test=" ++ Tally.yes_no has_test
                      ++ ", deploy=" ++ Tally.yes_no has_deploy
                      ++ ", order=" ++ (if order_ok then "correct" else "incorrect") |}])%list in
    (* Check 3: ECR push, staging, production with manual gate *)
    let ecr_criteria :=
      [(any_in ["ecr"; "docker push"; "docker build"; "container registry"] content_lower,
        "ECR/container push");
       (any_in ["staging"; "stage"] content_lower, "staging deploy");
       (any_in ["manual"; "approval"; "approve"; "environment.*protection";
                "required_reviewers"; "gate"; "confirm"] content_lower,
        "manual approval gate")] in
    let ecr_score := Tally.score ecr_criteria in
    let checks :=
      (checks ++
       [{| name := "ECR push, staging deploy, prod manual gate";
           max_points := 3;
           points_awarded := ecr_score;
           passed := (2 <=? ecr_score)%Z;
           details := Tally.found (Tally.labels ecr_criteria)
                        "Missing deployment stages" |}])%list in
    (* Check 4: rollback / failure handling *)
    let has_rollback :=
      any_in ["rollback"; "roll back"; "undo"; "revert"; "failure"; "on_failure";
              "if.*fail"] content_lower in
    let checks :=
      (checks ++ [_check "Rollback/failure handling in pipeline" 1 has_rollback
                    EmptyString])%list in
    (* Check 6: monitoring_setup.md *)
    let monitoring_raw := Fs._read_file root (cicd_dir ++ ["monitoring_setup.md"])%list in
    let monitoring_content := lower (Markdown._strip_md_template_pipeline monitoring_raw) in
    let count group := Regex.count_matches (keywords w group "keywords") monitoring_content in
    let alert_matches := count "monitoring_setup_alerting" in
    let esc_matches := count "monitoring_setup_escalation" in
    let mon_criteria :=
      [((3 <=? count "monitoring_setup_metrics")%Z, "metrics");
       ((2 <=? count "monitoring_setup_slo")%Z, "SLOs");
       ((2 <=? alert_matches)%Z && (1 <=? esc_matches)%Z, "alerting + escalation")] in
    let mon_score := Tally.score mon_criteria in
    (checks ++
     [{| name := "monitoring_setup.md: metrics, SLOs, alerting, escalation";
         max_points := 3;
         points_awarded := mon_score;
         passed := (2 <=? mon_score)%Z;
         details := Tally.found (Tally.labels mon_criteria)
                      "Insufficient monitoring detail" |}])%list.

End Pipeline.

(** ** [validators/python_validator.py] *)

Module Python.

Import PyStr.

(** [_get_function_names] *)
Definition _get_function_names (tree : PyAst.tree) : list string :=
  flat_map (fun node => match node with
                        | PyAst.FunctionDef fname _ => [fname]
                        | _ => []
                        end) (PyAst.walk tree).

(** [_has_argparse] *)
Definition _has_argparse (tree : PyAst.tree) : bool :=
  existsb (fun node => match node with
                       | PyAst.AttributeOfName id => String.eqb id "argparse"
                       | PyAst.CallOfAttribute attr => String.eqb attr "ArgumentParser"
                       | _ => false
                       end) (PyAst.walk tree).

(** [_has_subparsers] *)
Definition _has_subparsers (content : string) : bool :=
  contains "add_subparsers" content || contains "subcommand" (lower content).

(** The names of the functions whose body has a statement other than [pass]
    and docstrings (a [set] in the source; only its members matter). *)
Definition implemented_funcs (tree : PyAst.tree) : list string :=
  flat_map (fun node => match node with
                        | PyAst.FunctionDef fname body =>
                            if (0 <? Z.of_nat (List.length (PyAst.real_stmts body)))%Z
                            then [fname] else []
                        | _ => []
                        end) (PyAst.walk tree).

(** [[fn for fn in implemented if word in fn.lower()]] *)
Definition funcs_named (word : string) (implemented : list string) : list string :=
  filter (fun fn => contains word (lower fn)) implemented.

Definition nonempty {A : Type} (l : list A) : bool :=
  match l with [] => false | _ => true end.

(** The points that the rollback and health-check functions earn. *)
Definition rollback_pt (implemented : list string) : Z :=
  Tally.bool_pt (nonempty (funcs_named "rollback" implemented)).

Definition health_pt (implemented : list string) : Z :=
  Tally.bool_pt (nonempty (funcs_named "health" implemented)).

(** The test of the argparse point: argparse is used and arguments or
    subparsers are defined. *)
Definition argparse_ok (tree : PyAst.tree) (content : string) : bool :=
  let has_argparse_usage := _has_argparse tree in
  has_argparse_usage
  && (contains "add_argument" content || contains "add_subparsers" content).

Definition validate (w : World) (root : Fs.node) (quick : bool) : list Check :=
  let content := Fs._read_file root ["cicd"; "deploy.py"] in
  if negb (truthy content) then
    [_check "deploy.py exists" 4 false "File not found or empty"]
  else
    match ast_parse w content with
    | ParseError e =>
        [_check "deploy.py: valid Python syntax" 4 false ("SyntaxError: " ++ e)]
    | Parsed tree =>
        if quick then [_check "deploy.py: valid Python syntax" 1 true EmptyString]
        else
          let implemented := implemented_funcs tree in
          let argparse_ok := argparse_ok tree content in
          let score :=
            (1 + Tally.bool_pt argparse_ok
             + rollback_pt implemented + health_pt implemented)%Z in
          let details :=
            (["valid syntax"]
             ++ (if argparse_ok
                 then ["argparse"] ++ (if _has_subparsers content then ["subcommands"] else [])
                 else [])
             ++ (if nonempty (funcs_named "rollback" implemented)
                 then ["rollback function"] else [])
             ++ (if nonempty (funcs_named "health" implemented)
                 then ["healthcheck function"] else []))%list in
          [{| name := "deploy.py: valid Python, argparse, rollback, healthcheck";
              max_points := 4;
              points_awarded := score;
              passed := (3 <=? score)%Z;
              details := "Found: " ++ join ", " details |}]
    end.

End Python.

(** ** [validators/document_validator.py] *)

Module Document.

Import PyStr.

Definition _count_keyword_matches (content : string) (kws : list Regex.regex) : Z :=
  Regex.count_matches kws (lower content).

Definition debug_dir : Fs.path := ["debug"].

(** [action.item] *)
Definition action_item : Regex.regex :=
  Regex.seq [Regex.lit "action"; Regex.dot; Regex.lit "item"].

(** The points of the remediation script before the linter is asked. *)
Definition remediation_criteria (remediation_content : string) : list (bool * string) :=
  let rem_stripped := join NL (filter is_code_line (splitlines remediation_content)) in
  let rem_lower := lower rem_stripped in
  let has_code :=
    (3 <=? Z.of_nat (List.length
                       (filter (fun l => truthy (strip l)) (splitlines rem_stripped))))%Z in
  [(has_code && Regex.search (Regex.lit "mtu") rem_lower
    && Regex.search (Regex.one_of ["1500"; "ip link"; "ifconfig"; "netplan"]) rem_lower,
    "sets MTU");
   (has_code && startswith "#!/" (strip remediation_content)
    && contains "set -e" remediation_content,
    "shebang + error handling");
   (has_code && any_in ["verify"; "check"; "test"; "ip link show"; "ping"] rem_lower,
    "verification step")].

(** The linter reports warnings on the remediation script. *)
Definition shellcheck_fails (w : World) : bool :=
  match shellcheck w with
  | None => false
  | Some run =>
      match run (debug_dir ++ ["remediation.sh"])%list with
      | Exited returncode => negb (returncode =? 0)%Z
      | TimedOut => false
      end
  end.

Definition validate (w : World) (root : Fs.node) (quick : bool) : list Check :=
  let kws group := keywords w group "keywords" in
  let rca_raw := Fs._read_file root (debug_dir ++ ["root_cause_analysis.md"])%list in
  let rca_content := lower (Markdown._strip_md_template rca_raw) in
  let remediation_content := Fs._read_file root (debug_dir ++ ["remediation.sh"])%list in
  let postmortem_raw := Fs._read_file root (debug_dir ++ ["postmortem.md"])%list in
  let postmortem_content := lower (Markdown._strip_md_template postmortem_raw) in
  let product_raw := Fs._read_file root (debug_dir ++ ["product_recommendations.md"])%list in
  let product_content := lower (Markdown._strip_md_template product_raw) in
  (* Check 1: the analysis names the MTU *)
  let mtu_matches := _count_keyword_matches rca_content (kws "debug_rca_mtu") in
  let checks :=
    [{| name := "RCA: identifies MTU as root cause";
        max_points := 3;
        points_awarded := Z.min mtu_matches 3;
        passed := (3 <=? mtu_matches)%Z;
        details := "MTU-related keywords matched: " ++ str_of_int mtu_matches |}] in
  (* Check 2: VPN tunnel and fragmentation *)
  let vpn_matches := _count_keyword_matches rca_content (kws "debug_rca_vpn") in
  let checks :=
    (checks ++
     [{| name := "RCA: identifies VPN tunnel + packet fragmentation";
         max_points := 3;
         points_awarded := Z.min vpn_matches 3;
         passed := (3 <=? vpn_matches)%Z;
         details := "VPN-related keywords matched: " ++ str_of_int vpn_matches |}])%list in
  (* Check 3: timeline *)
  let timeline_matches := _count_keyword_matches rca_content (kws "debug_timeline") in
  let checks :=
    (checks ++
     [_check "RCA: correct timeline reconstruction" 1 (3 <=? timeline_matches)%Z
        ("Timeline keywords matched: " ++ str_of_int timeline_matches)])%list in
  if quick then checks
  else
    (* Check 4: remediation.sh *)
    let rem_criteria := remediation_criteria remediation_content in
    let rem_score := Tally.score rem_criteria in
    let rem_details := Tally.labels rem_criteria in
    let lint_failed := (0 <? rem_score)%Z && shellcheck_fails w in
    let rem_score := if lint_failed then Z.max (rem_score - 1) 0 else rem_score in
    let rem_details :=
      if lint_failed then (rem_details ++ ["shellcheck warnings"])%list else rem_details in
    let checks :=
      (checks ++
       [{| name := "remediation.sh: sets MTU, passes shellcheck";
           max_points := 3;
           points_awarded := rem_score;
           passed := (2 <=? rem_score)%Z;
           details := Tally.found rem_details "Script not implemented" |}])%list in
    (* Check 5: postmortem.md *)
    let pm_matches := _count_keyword_matches postmortem_content (kws "postmortem_sections") in
    let has_action_items :=
      Regex.search action_item (lower postmortem_raw)
      && (200 <? len (strip postmortem_content))%Z in
    let pm_score :=
      (Tally.bool_pt (4 <=? pm_matches)%Z + Tally.bool_pt has_action_items)%Z in
    let checks :=
      (checks ++
       [{| name := "postmortem.md: all sections, action items";
           max_points := 2;
           points_awarded := pm_score;
           passed := (1 <=? pm_score)%Z;
           details := "Sections matched: " ++ str_of_int pm_matches
                      ++ ", action items: " ++ Tally.yes_no has_action_items |}])%list in
    (* Check 6: product_recommendations.md *)
    let mon_matches :=
      _count_keyword_matches product_content (kws "monitoring_recommendations") in
    let prod_score := Z.min mon_matches 3 in
    (checks ++
     [{| name := "product_recommendations.md: monitoring + automated detection";
         max_points := 3;
         points_awarded := prod_score;
         passed := (2 <=? prod_score)%Z;
         details := "Monitoring/detection keywords matched: "
                    ++ str_of_int mon_matches |}])%list.

End Document.

(** ** [scoring.py] *)

Module Scoring.

Record ModuleConfig : Type := {
  max_score : Z;
  (** The weight in hundredths; it takes no part in the arithmetic. *)
  weight_percent : Z;
}.

Definition MODULE_CONFIG : list (string * ModuleConfig) :=
  [("terraform", {| max_score := 25; weight_percent := 25 |});
   ("k8s", {| max_score := 25; weight_percent := 25 |});
   ("network", {| max_score := 20; weight_percent := 20 |});
   ("cicd", {| max_score := 15; weight_percent := 15 |});
   ("debug", {| max_score := 15; weight_percent := 15 |})].

Record ModuleResult : Type := {
  score : Z;
  max : Z;
  checks : list Check;
}.

Record EvaluationResult : Type := {
  total_score : Z;
  max_score_total : Z;          (* the key [max_score] of the result *)
  band : string;
  modules : PyDict.t ModuleResult;
}.

Definition compute_module_score (checks : list Check) : Z :=
  fold_right (fun c acc => (points_awarded c + acc)%Z) 0%Z checks.

Definition score_to_band (score : Z) : string :=
  if (80 <=? score)%Z then "Strong Hire"
  else if (65 <=? score)%Z then "Hire"
  else if (50 <=? score)%Z then "Borderline"
  else "No Hire".

(** The loop of [compute_total_score] over the configured modules, with the
    accumulators [(modules, total_score, max_score)]. *)
Definition fold_modules (module_results : PyDict.t (list Check))
  : PyDict.t ModuleResult * Z * Z :=
  fold_left
    (fun '(modules, total_score, max_score_acc) '(module_name, config) =>
       let checks :=
         match PyDict.get module_name module_results with
         | Some cs => cs
         | None => []
         end in
       let score := compute_module_score checks in
       let module_max := max_score config in
       (PyDict.set module_name
          {| score := score; max := module_max; checks := checks |} modules,
        (total_score + score)%Z,
        (max_score_acc + module_max)%Z))
    MODULE_CONFIG ([], 0%Z, 0%Z).

Definition compute_total_score (module_results : PyDict.t (list Check))
  : EvaluationResult :=
  let '(modules, total_score, max_score) := fold_modules module_results in
  {| total_score := total_score;
     max_score_total := max_score;
     band := score_to_band total_score;
     modules := modules |}.

End Scoring.

(** ** [evaluate.py] *)

Module Evaluate.

(** A validator module: its [__name__] and its [validate] function. *)
Record Validator : Type := {
  vname : string;
  validate : World -> Fs.node -> bool -> result (list Check);
}.

Definition total (f : World -> Fs.node -> bool -> list Check)
  : World -> Fs.node -> bool -> result (list Check) :=
  fun w root quick => Ok (f w root quick).

Definition terraform_validator : Validator :=
  {| vname := "evaluation.validators.terraform_validator";
     validate := total Terraform.validate |}.

Definition kubernetes_validator : Validator :=
  {| vname := "evaluation.validators.kubernetes_validator";
     validate := Kubernetes.validate |}.

Definition shell_validator : Validator :=
  {| vname := "evaluation.validators.shell_validator";
     validate := total Shell.validate |}.

Definition pipeline_validator : Validator :=
  {| vname := "evaluation.validators.pipeline_validator";
     validate := total Pipeline.validate |}.

Definition python_validator : Validator :=
  {| vname := "evaluation.validators.python_validator";
     validate := total Python.validate |}.

Definition document_validator : Validator :=
  {| vname := "evaluation.validators.document_validator";
     validate := total Document.validate |}.

Definition MODULE_VALIDATORS : PyDict.t (list Validator) :=
  [("terraform", [terraform_validator]);
   ("k8s", [kubernetes_validator]);
   ("network", [shell_validator]);
   ("cicd", [pipeline_validator; python_validator]);
   ("debug", [document_validator])].

Definition VALID_MODULES : list string := PyDict.keys MODULE_VALIDATORS.

(** The Check that stands for a validator whose call raised. *)
Definition error_check (v : Validator) (e : exn) : Check :=
  {| name := "Validator error (" ++ vname v ++ ")";
     max_points := 0;
     points_awarded := 0;
     passed := false;
     details := exn_text e |}.

(** The loop of [run_module], with the list [checks] built so far. *)
Fixpoint run_validators (w : World) (submission_dir : Fs.node) (quick : bool)
    (validators : list Validator) (checks : list Check) : list Check :=
  match validators with
  | [] => checks
  | validator :: rest =>
      match validate validator w submission_dir quick with
      | Ok result => run_validators w submission_dir quick rest (checks ++ result)%list
      | Raise e =>
          run_validators w submission_dir quick rest
            (checks ++ [error_check validator e])%list
      end
  end.

Definition run_module (w : World) (module_name : string) (submission_dir : Fs.node)
    (quick : bool) : list Check :=
  let validators :=
    match PyDict.get module_name MODULE_VALIDATORS with
    | Some vs => vs
    | None => []
    end in
  run_validators w submission_dir quick validators [].

(** The two loops of [evaluate]: the requested modules are run, the other
    known modules get an empty list.  The warning printed for an unknown
    module name is not modelled. *)
Definition collect_results (w : World) (submission_dir : Fs.node) (module : option string)
    (quick : bool) : PyDict.t (list Check) :=
  let modules_to_run :=
    match module with
    | Some m => if PyStr.truthy m then [m] else VALID_MODULES
    | None => VALID_MODULES
    end in
  let module_results :=
    fold_left
      (fun module_results name =>
         if negb (PyDict.mem name MODULE_VALIDATORS) then module_results
         else PyDict.set name (run_module w name submission_dir quick) module_results)
      modules_to_run [] in
  fold_left
    (fun module_results name =>
       if negb (PyDict.mem name module_results)
       then PyDict.set name [] module_results
       else module_results)
    VALID_MODULES module_results.

(** [evaluate]; [None] stands for the exit of the process when the
    submission directory is not a directory. *)
Definition evaluate (w : World) (submission_dir : Fs.node) (module : option string)
    (quick : bool) : option Scoring.EvaluationResult :=
  if negb (Fs.isdir submission_dir []) then None
  else Some (Scoring.compute_total_score (collect_results w submission_dir module quick)).

End Evaluate.

(** ** Predicates of the specification *)

Module Spec.

Open Scope Z_scope.

(** The points of a Check lie between zero and its ceiling, and the ceiling
    is one of the small constants of the source. *)
Definition check_ok (c : Check) : Prop :=
  0 <= points_awarded c <= max_points c /\ max_points c <= 5.

Definition max_sum (cs : list Check) : Z :=
  fold_right (fun c acc => max_points c + acc) 0 cs.

(** Every Check of the list is in range and the ceilings add up to [K] at most. *)
Definition within (K : Z) (cs : list Check) : Prop :=
  Forall check_ok cs /\ max_sum cs <= K.

(** The same for the outcome of a validator call that may raise. *)
Definition result_within (K : Z) (r : result (list Check)) : Prop :=
  match r with
  | Ok cs => within K cs
  | Raise _ => True
  end.



End Spec.

(** ** The six validators and the configured ceilings *)

Module Engine.

Definition all_validators : list Evaluate.Validator :=
  [Evaluate.terraform_validator; Evaluate.kubernetes_validator;
   Evaluate.shell_validator; Evaluate.pipeline_validator;
   Evaluate.python_validator; Evaluate.document_validator].

(** [MODULE_CONFIG[name][max_score]], zero for a name that is not configured. *)
Definition module_max (module_name : string) : Z :=
  match PyDict.get module_name Scoring.MODULE_CONFIG with
  | Some config => Scoring.max_score config
  | None => 0%Z
  end.

(** What [evaluate] hands to the aggregator for a module: the Checks of its
    validators, or nothing when the module was not run. *)
Definition results_of_run (w : World) (root : Fs.node) (quick : bool)
    (module_results : PyDict.t (list Check)) : Prop :=
  forall module_name cs,
    PyDict.get module_name module_results = Some cs ->
    cs = [] \/ cs = Evaluate.run_module w module_name root quick.

(** The entry of a module in the result, from the Checks of the module. *)
Definition entry (module_name : string) (module_max : Z) (cs : list Check)
  : string * Scoring.ModuleResult :=
  (module_name,
   {| Scoring.score := Scoring.compute_module_score cs;
      Scoring.max := module_max;
      Scoring.checks := cs |}).

End Engine.

(** ** Sample submissions and worlds, for the concrete cases *)

Module Sample.

Definition text (lines : list string) : string := PyStr.join PyStr.NL lines.

(** A pod manifest whose container leaves [resources] empty. *)
Definition pod_manifest : string :=
  text ["apiVersion: v1";
        "kind: Pod";
        "spec:";
        "  containers:";
        "    - name: app";
        "      image: nginx:1.25";
        "      resources:"].

(** What PyYAML makes of [pod_manifest]. *)
Definition pod_doc : Yaml.value :=
  Yaml.YDict
    [("apiVersion", Yaml.YStr "v1");
     ("kind", Yaml.YStr "Pod");
     ("spec",
      Yaml.YDict
        [("containers",
          Yaml.YList
            [Yaml.YDict [("name", Yaml.YStr "app");
                         ("image", Yaml.YStr "nginx:1.25");
                         ("resources", Yaml.YNull)]])])].

(** A deploy script in which every function is a stub. *)
Definition stub_script : string :=
  text ["def rollback(environment, revision=None):";
        "    '''Rollback to a previous deployment revision.'''";
        "    pass";
        "";
        "def health_check(environment, timeout=300):";
        "    pass"].

Definition stub_tree : PyAst.tree :=
  [PyAst.OtherNode;
   PyAst.FunctionDef "rollback" [PyAst.ExprStr; PyAst.Pass];
   PyAst.FunctionDef "health_check" [PyAst.Pass];
   PyAst.OtherNode; PyAst.OtherNode].

(** A deploy script with a working rollback. *)
Definition deploy_script : string :=
  text ["def rollback(environment):";
        "    print(environment)";
        "    return True"].

Definition deploy_tree : PyAst.tree :=
  [PyAst.OtherNode;
   PyAst.FunctionDef "rollback" [PyAst.OtherStmt; PyAst.OtherStmt];
   PyAst.OtherNode; PyAst.OtherNode].

(** A shell script with five lines of code. *)
Definition long_script : string :=
  text ["#!/bin/bash"; "set -e"; "ip link set dev eth0 mtu 1400";
        "ip link show dev eth0"; "ping -c 1 10.0.0.1"; "echo done"].

(** A world without [hcl2] and without [shellcheck], whose parsers know the
    sample files only. *)
Definition world : World :=
  {| hcl2_available := false;
     hcl2_load := fun _ => None;
     yaml_safe_load_all :=
       fun content => if String.eqb content pod_manifest then Loaded [pod_doc] else YAMLError;
     yaml_safe_load := fun _ => ParseError "could not parse";
     ast_parse :=
       fun content =>
         if String.eqb content stub_script then Parsed stub_tree
         else if String.eqb content deploy_script then Parsed deploy_tree
         else ParseError "invalid syntax";
     shellcheck := None;
     keywords := fun _ _ => [Regex.lit "mtu"; Regex.lit "vpn"; Regex.lit "tunnel"] |}.

(** The same world with a [shellcheck] that rejects every script. *)
Definition strict_world : World :=
  {| hcl2_available := hcl2_available world;
     hcl2_load := hcl2_load world;
     yaml_safe_load_all := yaml_safe_load_all world;
     yaml_safe_load := yaml_safe_load world;
     ast_parse := ast_parse world;
     shellcheck := Some (fun _ => Exited 1);
     keywords := keywords world |}.

(** A submission directory without any of the domain directories. *)
Definition empty_submission : Fs.node := Fs.Dir [].

(** A submission whose only file is the pod manifest. *)
Definition pod_submission : Fs.node :=
  Fs.Dir [("k8s", Fs.Dir [("pod.yaml", Fs.File pod_manifest)])].

(** Submissions whose only file is a deploy script. *)
Definition stub_submission : Fs.node :=
  Fs.Dir [("cicd", Fs.Dir [("deploy.py", Fs.File stub_script)]);
          ("network", Fs.Dir [("camera_discovery.py", Fs.File stub_script)])].

Definition deploy_submission : Fs.node :=
  Fs.Dir [("cicd", Fs.Dir [("deploy.py", Fs.File deploy_script)])].

(** A submission with one shell script of five lines and a remediation
    script. *)
Definition script_submission : Fs.node :=
  Fs.Dir [("network", Fs.Dir [("firewall_rules.sh", Fs.File long_script)]);
          ("debug", Fs.Dir [("remediation.sh", Fs.File long_script)])].

(** A provisioning script that installs Docker, a time service, log rotation
    and a systemd unit. *)
Definition setup_script : string :=
  text ["#!/bin/bash";
        "set -euo pipefail";
        "apt-get update";
        "apt-get install -y docker-ce chrony logrotate";
        "systemctl enable docker";
        "systemctl enable chrony";
        "mkdir -p /etc/analytics";
        "cp analytics.service /etc/systemd/system/";
        "systemctl daemon-reload";
        "systemctl enable analytics.service";
        "systemctl start analytics.service";
        "echo done"].

(** A submission that has none of the five module directories, but an
    [edge/] directory with a provisioning script. *)
Definition edge_only : Fs.node :=
  Fs.Dir [("edge", Fs.Dir [("setup.sh", Fs.File setup_script)])].

(** A submission with an empty [terraform/] directory. *)
Definition bare_terraform : Fs.node := Fs.Dir [("terraform", Fs.Dir [])].

End Sample.

(** ** Predicates on texts *)

Module Text.

(** No character of the text is a line boundary. *)
Fixpoint no_linebreak (s : string) : bool :=
  match s with
  | EmptyString => true
  | String c s' => negb (PyStr.is_linebreak c) && no_linebreak s'
  end.

(** The text ends with a newline character. *)
Definition ends_with_newline (s : string) : bool := PyStr.endswith PyStr.NL s.

(** The first character of the text after its leading white space is a hash
    sign. *)
Definition hash_first (s : string) : bool :=
  match PyStr.lstrip s with
  | String c _ => Ascii.eqb c "#"
  | EmptyString => false
  end.

(** The lines that [_strip_shell_comments] joins. *)
Definition shell_lines (content : string) : list string :=
  map (Scan.cut_at Shell.shell_comment_at)
    (filter (fun line => negb (PyStr.startswith "#" (PyStr.strip line)))
       (PyStr.splitlines content)).

End Text.

(** ** Sample texts *)

Module SampleText.

(** A line, then an empty line. *)
Definition blank_tail : string := "a" ++ PyStr.NL ++ PyStr.NL.

(** A text in which the removal of one HTML comment leaves another. *)
Definition nested_comment : string := "<!-<!---->--->".

(** A filled-in template with an inline shell comment. *)
Definition notes : string :=
  Sample.text ["# Title";
               "<!-- fill in -->";
               "ip link set eth0 up  # bring the link up";
               "| --- | --- |";
               "-";
               "plain words"].

End SampleText.

(** ** The external linter *)

Module Linter.

(** The [shellcheck] binary is not installed, or every run of it times out. *)
Definition silent (w : World) : Prop :=
  match shellcheck w with
  | None => True
  | Some run => forall p : Fs.path, run p = TimedOut
  end.

(** Some script of [network/] or [edge/] has five lines of code or more. *)
Definition has_content_scripts (root : Fs.node) : bool :=
  match Shell.content_scripts root (Shell.collect_sh_files root) with
  | [] => false
  | _ :: _ => true
  end.

(** The remediation Check when the linter takes no point away. *)
Definition remediation_check (root : Fs.node) : Check :=
  let criteria :=
    Document.remediation_criteria
      (Fs._read_file root (Document.debug_dir ++ ["remediation.sh"])%list) in
  {| name := "remediation.sh: sets MTU, passes shellcheck";
     max_points := 3;
     points_awarded := Tally.score criteria;
     passed := (2 <=? Tally.score criteria)%Z;
     details := Tally.found (Tally.labels criteria) "Script not implemented" |}.

End Linter.

(** ** Stub routines *)

Module Stubs.

(** The body holds docstrings and [pass] statements only. *)
Definition stub_body (body : list PyAst.stmt_kind) : bool :=
  forallb (fun s => match s with PyAst.OtherStmt => false | _ => true end) body.

(** Every function that the module declares is a stub. *)
Definition all_stubs (tree : PyAst.tree) : Prop :=
  forall fname body,
    In (PyAst.FunctionDef fname body) (PyAst.walk tree) -> stub_body body = true.

Definition deploy_py (root : Fs.node) : string :=
  Fs._read_file root ["cicd"; "deploy.py"].

Definition camera_py (root : Fs.node) : string :=
  Fs._read_file root ["network"; "camera_discovery.py"].

End Stubs.

(** ** The Terraform directory *)

Module TerraformDir.



Definition missing_check : Check :=
  _check "Terraform directory exists" 5 false "submission/terraform/ not found".

End TerraformDir.

(** ** The empty submission *)

Module Empty.

(** The directories that the validators read. *)
Definition read_dirs : list string :=
  ["terraform"; "k8s"; "network"; "edge"; "cicd"; "debug"].

(** The five module directories. *)
Definition module_dirs : list string := ["terraform"; "k8s"; "network"; "cicd"; "debug"].

(** The submission directory exists and holds none of the directories [dirs]. *)
Definition lacks (dirs : list string) (root : Fs.node) : Prop :=
  Fs.isdir root [] = true
  /\ Forall (fun d => Fs.isdir root [d] = false) dirs.

(** No pattern of the keyword configuration matches the empty text. *)
Definition keywords_need_text (w : World) : Prop :=
  forall (group list_name : string) (kw : Regex.regex),
    In kw (keywords w group list_name) -> Regex.search kw EmptyString = false.

(** The Check is failed and awards nothing. *)
Definition failed (c : Check) : Prop := passed c = false /\ points_awarded c = 0%Z.

(** The points and the verdict of a Check. *)
Definition outcome (c : Check) : Z * bool := (points_awarded c, passed c).

Definition k8s_missing_check : Check :=
  _check "K8s directory exists" 3 false "submission/k8s/ not found".

Definition deploy_missing_check : Check :=
  _check "deploy.py exists" 4 false "File not found or empty".

End Empty.

(** ** Further predicates: bands and results *)

Module Bands.

(** The bands in the order of the thresholds of [score_to_band]. *)
Definition rank (band : string) : nat :=
  if String.eqb band "Strong Hire" then 3
  else if String.eqb band "Hire" then 2
  else if String.eqb band "Borderline" then 1
  else 0.

Definition all_bands : list string := ["No Hire"; "Borderline"; "Hire"; "Strong Hire"].

(** The entry of a module that was not run. *)
Definition not_run (module_name : string) : Scoring.ModuleResult :=
  {| Scoring.score := 0;
     Scoring.max := Engine.module_max module_name;
     Scoring.checks := [] |}.

End Bands.

(** ** Shapes of Kubernetes documents *)

Module Shape.

(** The value under [key], or [default], when [v] is a mapping. *)
Definition field (v : Yaml.value) (key : string) (default : Yaml.value) : Yaml.value :=
  match Yaml.get v key default with
  | Ok x => x
  | Raise _ => default
  end.

(** [v] is a mapping whose value under [key], when there is one, is a
    mapping too. *)
Definition dict_at (v : Yaml.value) (key : string) : bool :=
  Yaml.is_dict v && Yaml.is_dict (field v key Yaml.empty_dict).

(** [for x in v] works on the value. *)
Definition iterable (v : Yaml.value) : bool :=
  match v with
  | Yaml.YList _ | Yaml.YStr _ | Yaml.YDict _ => true
  | _ => false
  end.

(** A container that the checks outside of [try] can read: a mapping whose
    [resources] are a mapping and whose [image] is a text or a false value. *)
Definition safe_container (c : Yaml.value) : bool :=
  dict_at c "resources"
  && match field c "image" (Yaml.YStr EmptyString) with
     | Yaml.YStr _ => true
     | other => negb (Yaml.truthy other)
     end.

(** A document that the checks outside of [try] can read. *)
Definition safe_doc (doc : Yaml.value) : bool :=
  forallb safe_container (Kubernetes._find_container_spec doc)
  && (if Kubernetes.kind_is doc "HorizontalPodAutoscaler" then dict_at doc "spec" else true)
  && (if Kubernetes.kind_is doc "NetworkPolicy"
      then dict_at doc "spec"
           && iterable (field (field doc "spec" Yaml.empty_dict) "policyTypes" Yaml.empty_list)
      else true).

(** The container has requests and limits that count as true. *)
Definition has_requests_and_limits (c : Yaml.value) : bool :=
  let res := field c "resources" Yaml.empty_dict in
  Yaml.truthy (field res "requests" Yaml.YNull)
  && Yaml.truthy (field res "limits" Yaml.YNull).

Definition has_liveness (c : Yaml.value) : bool :=
  Yaml.truthy (field c "livenessProbe" Yaml.YNull).

Definition has_readiness (c : Yaml.value) : bool :=
  Yaml.truthy (field c "readinessProbe" Yaml.YNull).

(** The documents that the full checks of the Kubernetes validator read. *)
Definition all_docs (w : World) (root : Fs.node) : list Yaml.value :=
  match Kubernetes.load_all w root with
  | Ok (_, yaml_files) => concat (PyDict.values yaml_files)
  | Raise _ => []
  end.

(** The names of the YAML files of [k8s/]. *)
Definition yaml_names (root : Fs.node) : list string :=
  filter (fun fname => PyStr.endswith ".yaml" fname || PyStr.endswith ".yml" fname)
    (Fs.listdir root Kubernetes.k8s_dir).

(** A deployment with one container that has requests and, when
    [with_limits] is set, limits. *)
Definition deployment (with_limits : bool) : Yaml.value :=
  let resources :=
    ([("requests", Yaml.YDict [("cpu", Yaml.YStr "500m")])]
     ++ (if with_limits then [("limits", Yaml.YDict [("cpu", Yaml.YStr "1")])]
         else []))%list in
  Yaml.YDict
    [("kind", Yaml.YStr "Deployment");
     ("spec",
      Yaml.YDict
        [("template",
          Yaml.YDict
            [("spec",
              Yaml.YDict
                [("containers",
                  Yaml.YList
                    [Yaml.YDict [("name", Yaml.YStr "app");
                                 ("image", Yaml.YStr "registry/app:1.4");
                                 ("resources", Yaml.YDict resources)]])])])])].

End Shape.

(** ** Loop bodies of the Kubernetes validator *)

Module Loops.

(** The body of the inner loop of check 2; its result says whether the loop
    is left with [break]. *)
Definition resources_body (container : Yaml.value) : block bool bool :=
  (res <- Block.lift (Yaml.get container "resources" Yaml.empty_dict) ;;
   requests <- Block.lift (Yaml.get res "requests" Yaml.YNull) ;;
   if Yaml.truthy requests then
     limits <- Block.lift (Yaml.get res "limits" Yaml.YNull) ;;
     if Yaml.truthy limits
     then Block.modify (fun _ => true) ;; Block.ret true
     else Block.ret false
   else Block.ret false)%block.

End Loops.

(** ** A sample deployment *)

Module KubeSample.

(** A deployment manifest; PyYAML makes [Shape.deployment with_limits] of it. *)
Definition deployment_manifest (with_limits : bool) : string :=
  Sample.text
    (["kind: Deployment";
      "spec:";
      "  template:";
      "    spec:";
      "      containers:";
      "        - name: app";
      "          image: registry/app:1.4";
      "          resources:";
      "            requests:";
      "              cpu: 500m"]
     ++ (if with_limits
         then ["            limits:";
               "              cpu: '1'"]
         else []))%list.

(** The sample world with a YAML parser that knows the deployment manifest. *)
Definition world (with_limits : bool) : World :=
  {| hcl2_available := hcl2_available Sample.world;
     hcl2_load := hcl2_load Sample.world;
     yaml_safe_load_all :=
       fun content =>
         if String.eqb content (deployment_manifest with_limits)
         then Loaded [Shape.deployment with_limits] else YAMLError;
     yaml_safe_load := yaml_safe_load Sample.world;
     ast_parse := ast_parse Sample.world;
     shellcheck := shellcheck Sample.world;
     keywords := keywords Sample.world |}.

(** A submission whose only file is the deployment manifest. *)
Definition submission (with_limits : bool) : Fs.node :=
  Fs.Dir [("k8s", Fs.Dir [("deployment.yaml", Fs.File (deployment_manifest with_limits))])].

(** A manifest with a date that does not exist; PyYAML raises a
    [ValueError] when it builds the date. *)
Definition dated_manifest : string :=
  Sample.text ["kind: ConfigMap";
               "data:";
               "  released: 2024-13-45"].

(** The sample world with a YAML parser that knows the dated manifest. *)
Definition dated_world : World :=
  {| hcl2_available := hcl2_available Sample.world;
     hcl2_load := hcl2_load Sample.world;
     yaml_safe_load_all :=
       fun content =>
         if String.eqb content dated_manifest
         then OtherError (ValueError "month must be in 1..12") else YAMLError;
     yaml_safe_load := yaml_safe_load Sample.world;
     ast_parse := ast_parse Sample.world;
     shellcheck := shellcheck Sample.world;
     keywords := keywords Sample.world |}.

(** A submission with a skeleton manifest and the dated manifest. *)
Definition dated_submission : Fs.node :=
  Fs.Dir [("k8s",
           Fs.Dir [("deployment.yaml", Fs.File "# TODO: write the deployment");
                   ("config.yaml", Fs.File dated_manifest)])].

(** A submission whose manifests are skeletons: comments and blank lines. *)
Definition skeleton_submission : Fs.node :=
  Fs.Dir [("k8s",
           Fs.Dir [("deployment.yaml",
                    Fs.File (Sample.text ["# TODO: write the deployment"; "";
                                          "  # resources, probes, security context"]));
                   ("hpa.yml", Fs.File EmptyString);
                   ("notes.txt", Fs.File "kind: Deployment")])].

End KubeSample.

(** ** The containers that the Kubernetes validator reads *)

Module Containers.

(** The containers of all loaded documents, in the order of the loops of
    checks 2, 3 and 8. *)
Definition all_containers (w : World) (root : Fs.node) : list Yaml.value :=
  flat_map Kubernetes._find_container_spec (Shape.all_docs w root).

End Containers.

(** ** The YAML files of [k8s/] *)

Module YamlFiles.

Definition path_of (fname : string) : Fs.path := (Kubernetes.k8s_dir ++ [fname])%list.

(** [_load_yaml] returns documents for the file. *)
Definition loads (w : World) (root : Fs.node) (fname : string) : bool :=
  match Kubernetes._load_yaml w root (path_of fname) with
  | Ok (Some _) => true
  | _ => false
  end.

(** The exception that the parser raises on the file and that [_load_yaml]
    does not catch: the file has a line of code, and the parser ends with an
    exception other than a [YAMLError]. *)
Definition crash (w : World) (root : Fs.node) (fname : string) : option exn :=
  let content := Fs._read_file root (path_of fname) in
  if Kubernetes.has_code_line content then
    match yaml_safe_load_all w content with
    | OtherError e => Some e
    | _ => None
    end
  else None.

(** The first such exception, in the order of the names. *)
Fixpoint first_crash_of (w : World) (root : Fs.node) (names : list string) : option exn :=
  match names with
  | [] => None
  | fname :: names' =>
      match crash w root fname with
      | Some e => Some e
      | None => first_crash_of w root names'
      end
  end.

Definition first_crash (w : World) (root : Fs.node) : option exn :=
  first_crash_of w root (Shape.yaml_names root).

(** The file has no line of code: it is empty, blank, or comments only. *)
Definition skeleton (root : Fs.node) (fname : string) : bool :=
  negb (Kubernetes.has_code_line (Fs._read_file root (path_of fname))).

(** The file counts as a parse error. *)
Definition broken (w : World) (root : Fs.node) (fname : string) : bool :=
  negb (loads w root fname) && negb (skeleton root fname).

Definition is_yaml (fname : string) : bool :=
  PyStr.endswith ".yaml" fname || PyStr.endswith ".yml" fname.

Definition is_nil {A : Type} (l : list A) : bool :=
  match l with [] => true | _ => false end.

End YamlFiles.

(** ** The text that the stage checks of the pipeline validator read *)

Module Stages.

Definition pipeline_file : Fs.path := (Pipeline.cicd_dir ++ ["pipeline.yaml"])%list.

(** [content_lower] of [validate]: the pipeline file without its comment
    lines, in lower case. *)
Definition content_lower (root : Fs.node) : string :=
  PyStr.lower (Pipeline._strip_yaml_comments (Fs._read_file root pipeline_file)).

End Stages.

(** ** Skeleton submissions *)

Module Skeletons.

(** A provisioning script that names every keyword of the setup Check in
    four lines of code. *)
Definition short_setup : string :=
  Sample.text ["#!/bin/bash";
               "set -euo pipefail";
               "# Provision the edge node";
               "apt-get install -y docker-ce chrony logrotate";
               "systemctl enable docker"].

(** A remediation script with two lines of code. *)
Definition short_remediation : string :=
  Sample.text ["#!/bin/bash";
               "# TODO: verify the path MTU";
               "ip link set dev eth0 mtu 1400"].

(** A pipeline file that holds comments and blank lines only. *)
Definition pipeline_skeleton : string :=
  Sample.text ["# CI/CD pipeline"; ""; "  # stages: build, test, deploy"].

Definition submission : Fs.node :=
  Fs.Dir [("edge", Fs.Dir [("setup.sh", Fs.File short_setup)]);
          ("debug", Fs.Dir [("remediation.sh", Fs.File short_remediation)]);
          ("cicd", Fs.Dir [("pipeline.yaml", Fs.File pipeline_skeleton)])].

(** The texts that the gates of the Checks read. *)
Definition setup_raw (root : Fs.node) : string := Fs._read_file root ["edge"; "setup.sh"].

Definition remediation_raw (root : Fs.node) : string :=
  Fs._read_file root (Document.debug_dir ++ ["remediation.sh"])%list.

(** The lines of code of the remediation script, as [has_code] counts them. *)
Definition remediation_code_lines (root : Fs.node) : Z :=
  Z.of_nat
    (List.length
       (filter (fun l => PyStr.truthy (PyStr.strip l))
          (PyStr.splitlines
             (PyStr.join PyStr.NL
                (filter PyStr.is_code_line (PyStr.splitlines (remediation_raw root))))))).

End Skeletons.

(** ** Implemented functions, read off the syntax tree *)

Module Implemented.

(** The node defines a function whose lower-case name holds [word] and whose
    body has a statement other than [pass] and docstrings. *)
Definition defines (word : string) (node : PyAst.node) : bool :=
  match node with
  | PyAst.FunctionDef fname body =>
      PyStr.contains word (PyStr.lower fname)
      && match PyAst.real_stmts body with [] => false | _ => true end
  | _ => false
  end.

(** Some definition of the module is such a function. *)
Definition has (word : string) (tree : PyAst.tree) : bool :=
  existsb (defines word) (PyAst.walk tree).

End Implemented.

(** ** [report.py]: the head of the markdown report *)

Module Report.

(** [float(n)] for an [int]: the binary64 number nearest to [n]. *)
Definition float_of_int (n : Z) : PrimFloat.float :=
  FloatOps.SF2Prim (SpecFloat.binary_normalize FloatOps.prec FloatOps.emax n 0 false).

(** [int(x)] for a [float]: the integer part, rounded toward zero; [None]
    where Python raises, on the infinities and on NaN. *)
Definition int_of_float (x : PrimFloat.float) : option Z :=
  match FloatOps.Prim2SF x with
  | SpecFloat.S754_zero _ => Some 0%Z
  | SpecFloat.S754_finite negative m e =>
      let magnitude :=
        if (0 <=? e)%Z then (Zpos m * 2 ^ e)%Z else (Zpos m / 2 ^ (- e))%Z in
      Some (if negative then (- magnitude)%Z else magnitude)
  | _ => None
  end.

(** [int((total / max_score) * 100) if max_score > 0 else 0].  The true
    division of two [int]s is the division of their [float]s as long as both
    are below [2 ** 53] in size, which the scores are. *)
Definition percent (total max_score : Z) : option Z :=
  if (0 <? max_score)%Z then
    int_of_float
      (PrimFloat.mul (PrimFloat.div (float_of_int total) (float_of_int max_score))
         (float_of_int 100))
  else Some 0%Z.

(** [text * n]: the empty text when [n] is not positive. *)
Definition times (text : string) (n : Z) : string :=
  String.concat EmptyString (repeat text (Z.to_nat n)).

(** The score bar for a percentage. *)
Definition score_bar (pct : Z) : string :=
  let filled := (pct / 5)%Z in
  times "#" filled ++ times "-" (20 - filled).

(** The lines of [generate_markdown_report] that come before the module
    scores: title, total, recommendation and score bar. *)
Definition head_lines (results : Scoring.EvaluationResult) : option (list string) :=
  let total := Scoring.total_score results in
  let max_score := Scoring.max_score_total results in
  let band := Scoring.band results in
  match percent total max_score with
  | None => None
  | Some pct =>
      Some ["# Evaluation Report";
            EmptyString;
            "**Total Score: " ++ PyStr.str_of_int total ++ " / "
            ++ PyStr.str_of_int max_score ++ "**";
            "**Recommendation: " ++ band ++ "**";
            EmptyString;
            "[" ++ score_bar pct ++ "] " ++ PyStr.str_of_int pct ++ "%";
            EmptyString]
  end.

(** The totals out of a hundred whose percentage falls one short, because
    the quotient times a hundred lies just below the total. *)
Definition short_totals : list Z := [29; 57; 58]%Z.

(** The percentage of [total] out of a hundred is [total], or one less for
    the totals that fall short. *)
Definition percent_is (total : Z) : bool :=
  match percent total 100 with
  | Some pct =>
      (pct =? total - (if existsb (Z.eqb total) short_totals then 1 else 0))%Z
  | None => false
  end.

End Report.

(** ** Texts with something to read *)

Module Ink.

(** Some character of the text is not white space: [s.strip()] is not
    empty. *)
Fixpoint has_ink (s : string) : bool :=
  match s with
  | EmptyString => false
  | String c s' => negb (PyStr.isspace c) || has_ink s'
  end.

End Ink.

(** ** What quick mode reads *)

Module Quick.

(** The text of the root cause analysis as the keyword Checks read it. *)
Definition rca_content (root : Fs.node) : string :=
  PyStr.lower
    (Markdown._strip_md_template
       (Fs._read_file root (Document.debug_dir ++ ["root_cause_analysis.md"])%list)).





(** A submission whose deploy script does not parse. *)
Definition broken_submission : Fs.node :=
  Fs.Dir [("cicd", Fs.Dir [("deploy.py", Fs.File "def rollback(:")])].

End Quick.

(** ** The declared ceilings of the Checks *)

Module Ceilings.

(** The names of the Checks of the six validators with the [max_points] that
    the source gives them, where the source gives one value only. *)
Definition declared : PyDict.t Z :=
  [("Terraform directory exists", 5);
   ("HCL parsing (python-hcl2)", 5);
   ("HCL parsing", 5);
   ("Plan structure (resource blocks exist)", 5);
   ("VPC: public + private subnets, NAT gateway", 4);
   ("Security groups: no 0.0.0.0/0 on SSH", 2);
   ("EKS: cluster, IAM roles, node groups", 2);
   ("Cost optimization: spot, lifecycle, rightsizing", 4);
   ("Cost analysis: report review and savings proposals", 3);
   ("K8s directory exists", 3);
   ("YAML parsing", 3);
   ("Resource requests and limits", 1);
   ("Liveness and readiness probes", 1);
   ("HPA with min/max replicas", 1);
   ("Anti-affinity or topology spread", 1);
   ("NetworkPolicy restricts ingress", 1);
   ("Security context (non-root, read-only fs)", 2);
   ("Image tag not :latest", 1);
   ("ConfigMap referenced from deployment", 1);
   ("Incident 1: root cause + remediation", 4);
   ("Incident 2: root cause + remediation", 4);
   ("Incident 3: root cause + remediation", 4);
   ("Prevention measures in incident responses", 1);
   ("shellcheck passes on .sh files", 2);
   ("Python syntax valid (camera_discovery.py)", 1);
   ("Firewall: default DROP policy", 3);
   ("Firewall: RTSP, HTTPS, SSH, camera isolation", 3);
   ("setup.sh: Docker, NTP, log rotation, systemd, error handling", 5);
   ("camera_discovery.py: XML parsing, JSON output, timeout", 3);
   ("site_plan.md: VLAN design, IP scheme, isolation", 2);
   ("golden_image.md: creation process, patching strategy", 1);
   ("Pipeline YAML syntax", 1);
   ("Build + test + deploy stages in order", 3);
   ("ECR push, staging deploy, prod manual gate", 3);
   ("Rollback/failure handling in pipeline", 1);
   ("monitoring_setup.md: metrics, SLOs, alerting, escalation", 3);
   ("deploy.py exists", 4);
   ("deploy.py: valid Python, argparse, rollback, healthcheck", 4);
   ("RCA: identifies MTU as root cause", 3);
   ("RCA: identifies VPN tunnel + packet fragmentation", 3);
   ("RCA: correct timeline reconstruction", 1);
   ("remediation.sh: sets MTU, passes shellcheck", 3);
   ("postmortem.md: all sections, action items", 2);
   ("product_recommendations.md: monitoring + automated detection", 3)]%Z.

(** The one name that the source uses with two ceilings. *)
Definition varying : string := "deploy.py: valid Python syntax".

(** The Check has the ceiling declared for its name; the Check of the
    varying name has ceiling 4 when it failed and ceiling 1 when it
    passed. *)
Definition fixed (c : Check) : bool :=
  match PyDict.get (name c) declared with
  | Some m => (max_points c =? m)%Z
  | None =>
      String.eqb (name c) varying
      && (if passed c then (max_points c =? 1)%Z else (max_points c =? 4)%Z)
  end.

End Ceilings.

(** ** Ingress blocks, as the SSH Check reads them *)

Module Ingress.











(** A submission whose [terraform/] holds the one file [networking.tf]. *)
Definition submission (content : string) : Fs.node :=
  Fs.Dir [("terraform", Fs.Dir [("networking.tf", Fs.File content)])].

End Ingress.

(** * Properties *)

(** ** Points stay within their ceiling *)

Module Bounds.

Import Spec.
Open Scope Z_scope.

Lemma max_sum_app (a b : list Check) : max_sum (a ++ b) = max_sum a + max_sum b.
Proof. unfold max_sum. induction a as [|c a IH]; simpl; lia. Qed.

Lemma check_ok__check (n : string) (m : Z) (b : bool) (d : string) :
  0 <= m <= 5 -> check_ok (_check n m b d).
Proof. unfold check_ok, _check; simpl; destruct b; lia. Qed.

Lemma bool_pt_range (b : bool) : 0 <= Tally.bool_pt b <= 1.
Proof. destruct b; simpl; lia. Qed.

Lemma within_nil : within 0 [].
Proof. split; [constructor | simpl; lia]. Qed.

Lemma within_app (K1 K2 K : Z) (a b : list Check) :
  within K1 a -> within K2 b -> K1 + K2 <= K -> within K (a ++ b).
Proof.
  intros [Ha Sa] [Hb Sb] HK. split.
  - apply Forall_app; split; assumption.
  - rewrite max_sum_app. lia.
Qed.

Lemma within_snoc (K : Z) (cs : list Check) (c : Check) (K' : Z) :
  within K cs -> check_ok c -> K + max_points c <= K' -> within K' (cs ++ [c]).
Proof.
  intros [H1 H2] Hc HK. split.
  - apply Forall_app; split; auto.
  - rewrite max_sum_app. simpl. lia.
Qed.

Lemma within_one (c : Check) (K : Z) : check_ok c -> max_points c <= K -> within K [c].
Proof. intros Hc HK. apply (within_snoc 0 [] c K); auto using within_nil. Qed.

Lemma within_weaken (K K' : Z) (cs : list Check) : within K cs -> K <= K' -> within K' cs.
Proof. intros [H1 H2] HK; split; auto; lia. Qed.

Lemma score_le_max_sum (cs : list Check) :
  Forall check_ok cs -> 0 <= Scoring.compute_module_score cs <= max_sum cs.
Proof.
  unfold Scoring.compute_module_score, max_sum.
  induction 1 as [|c cs [Hc _] _ IH]; simpl; lia.
Qed.

Lemma within_score (K : Z) (cs : list Check) :
  within K cs -> 0 <= Scoring.compute_module_score cs <= K.
Proof. intros [H1 H2]. pose proof (score_le_max_sum cs H1). lia. Qed.

Lemma tally_score_range (criteria : list (bool * string)) :
  0 <= Tally.score criteria <= Z.of_nat (List.length criteria).
Proof.
  unfold Tally.score, Tally.labels. rewrite length_map.
  pose proof (filter_length_le fst criteria). lia.
Qed.

Ltac ok_check := apply check_ok__check; lia.

(** Replaces every [bool_pt b] of the goal by a number between 0 and 1. *)
Ltac bound_bool_pts :=
  repeat match goal with
         | |- context [Tally.bool_pt ?b] =>
             let H := fresh in
             pose proof (bool_pt_range b) as H;
             generalize dependent (Tally.bool_pt b); intros
         end.

(** Adds the last Check of the list to the bound [K] reached before it. *)
Ltac snoc_check K := apply (within_snoc K); [ | ok_check | simpl; lia ].

Lemma terraform_within (w : World) (root : Fs.node) (quick : bool) :
  within 25 (Terraform.validate w root quick).
Proof.
  unfold Terraform.validate.
  destruct (negb (Fs.isdir root Terraform.tf_dir)).
  { apply within_one; [ok_check | simpl; lia]. }
  set (c1 := if negb (hcl2_available w) then _ else _).
  assert (H1 : within 5 (fst c1)).
  { subst c1. destruct (negb (hcl2_available w)).
    - apply within_one; [ok_check | simpl; lia].
    - destruct (Terraform.parse_all _ _ _) as [pe ap].
      destruct pe; apply within_one; try ok_check; simpl; lia. }
  destruct c1 as [checks all_parsed]. simpl in H1.
  cbv zeta.
  match goal with
  | |- within _ (if quick then ?a else _) => assert (H2 : within 10 a)
  end.
  { snoc_check 5. exact H1. }
  destruct quick.
  { eapply within_weaken; [exact H2 | lia]. }
  snoc_check 22. snoc_check 18. snoc_check 16. snoc_check 14. snoc_check 10.
  exact H2.
Qed.

Lemma incident_check_ok (w : World) (root : Fs.node) (n : Z) :
  check_ok (Kubernetes.incident_check w root n 4)
  /\ max_points (Kubernetes.incident_check w root n 4) = 4.
Proof.
  unfold Kubernetes.incident_check. cbv zeta.
  destruct (_ || _); [split; [ok_check | reflexivity] |].
  split; [| reflexivity]. unfold check_ok; simpl.
  repeat match goal with
         | |- context [?a <=? ?b] => destruct (Z.leb_spec a b)
         end; lia.
Qed.

Lemma kubernetes_within (w : World) (root : Fs.node) (quick : bool) :
  result_within 25 (Kubernetes.validate w root quick).
Proof.
  unfold Kubernetes.validate.
  destruct (negb (Fs.isdir root Kubernetes.k8s_dir)).
  { simpl. apply within_one; [ok_check | simpl; lia]. }
  destruct (Kubernetes.load_all w root) as [[parse_errors yaml_files]|e]; [| exact I].
  cbn [bind]. cbv zeta.
  match goal with
  | |- result_within _ (if quick then Ok ?c else _) => assert (H1 : within 3 c)
  end.
  { destruct parse_errors; apply within_one; try ok_check; simpl; lia. }
  destruct quick.
  { simpl. eapply within_weaken; [exact H1 | lia]. }
  unfold bind.
  destruct (Block.run (Kubernetes.scan_resources _) _) as [has_resources|]; [|exact I].
  destruct (Block.run (Kubernetes.scan_probes _) _) as [[has_liveness has_readiness]|];
    [|exact I].
  destruct (Block.run (Kubernetes.scan_hpa _) _) as [has_hpa|]; [|exact I].
  destruct (Block.run (Kubernetes.scan_anti_affinity _) _) as [has_anti|]; [|exact I].
  destruct (Block.run (Kubernetes.scan_netpol _) _) as [has_netpol|]; [|exact I].
  destruct (Block.run (Kubernetes.scan_security _) _) as [[has_non_root has_ro]|];
    [|exact I].
  destruct (Block.run (Kubernetes.scan_images _) _) as [[has_latest has_any]|]; [|exact I].
  destruct (Block.run (Kubernetes.scan_configmap_ref _) _) as [has_ref|]; [|exact I].
  simpl result_within.
  snoc_check 24.
  apply (within_app 12 12); [ | | lia].
  - snoc_check 11. snoc_check 10. snoc_check 8. snoc_check 7. snoc_check 6.
    snoc_check 5. snoc_check 4. snoc_check 3. exact H1.
  - simpl map.
    destruct (incident_check_ok w root 1) as [A1 B1].
    destruct (incident_check_ok w root 2) as [A2 B2].
    destruct (incident_check_ok w root 3) as [A3 B3].
    split; [repeat (constructor; [assumption |]); constructor |].
    unfold max_sum, fold_right. rewrite B1, B2, B3. lia.
Qed.

Lemma shell_within (w : World) (root : Fs.node) (quick : bool) :
  within 20 (Shell.validate w root quick).
Proof.
  unfold Shell.validate. cbv zeta.
  match goal with
  | |- within _ (if quick then ?a else _) => assert (H2 : within 3 a)
  end.
  { snoc_check 2. unfold Shell.shellcheck_check. cbv zeta.
    destruct (_ =? 0); [apply within_one; [ok_check | simpl; lia] |].
    destruct (map fst _); apply within_one; try ok_check; simpl; lia. }
  destruct quick.
  { eapply within_weaken; [exact H2 | lia]. }
  snoc_check 19. snoc_check 17. snoc_check 14. snoc_check 9. snoc_check 6. snoc_check 3.
  exact H2.
Qed.

(** A Check built as a record from a tally of [n] criteria. *)
Lemma tally_check_ok (nm : string) (criteria : list (bool * string)) (m : Z)
    (p : bool) (d : string) :
  Z.of_nat (List.length criteria) <= m <= 5 ->
  check_ok {| name := nm; max_points := m; points_awarded := Tally.score criteria;
              passed := p; details := d |}.
Proof.
  intros H. pose proof (tally_score_range criteria). unfold check_ok; simpl. lia.
Qed.

Lemma pipeline_within (w : World) (root : Fs.node) (quick : bool) :
  within 11 (Pipeline.validate w root quick).
Proof.
  unfold Pipeline.validate. cbv zeta.
  match goal with
  | |- within _ (if quick then ?a else _) => assert (H1 : within 1 a)
  end.
  { destruct (negb _); [apply within_one; [ok_check | simpl; lia] |].
    destruct (negb _); [apply within_one; [ok_check | simpl; lia] |].
    destruct (yaml_safe_load w _); apply within_one; try ok_check; simpl; lia. }
  destruct quick.
  { eapply within_weaken; [exact H1 | lia]. }
  apply (within_snoc 8); [ | apply tally_check_ok; simpl; lia | simpl; lia].
  snoc_check 7.
  apply (within_snoc 4); [ | apply tally_check_ok; simpl; lia | simpl; lia].
  apply (within_snoc 1); [exact H1 | | simpl; lia].
  unfold check_ok; cbn [points_awarded max_points].
  match goal with
  | |- context [if negb ?b then Z.max _ 0 else _] => destruct (negb b)
  end; bound_bool_pts; lia.
Qed.

Lemma python_within (w : World) (root : Fs.node) (quick : bool) :
  within 4 (Python.validate w root quick).
Proof.
  unfold Python.validate. cbv zeta.
  destruct (negb _); [apply within_one; [ok_check | simpl; lia] |].
  destruct (ast_parse w _) as [tree|e]; [| apply within_one; [ok_check | simpl; lia]].
  destruct quick; [apply within_one; [ok_check | simpl; lia] |].
  apply within_one; [| simpl; lia].
  unfold check_ok, Python.rollback_pt, Python.health_pt.
  cbn [points_awarded max_points].
  bound_bool_pts; lia.
Qed.

(** A Check that awards [min(count, m)] points. *)
Lemma capped_check_ok (nm : string) (kws : list Regex.regex) (text : string) (m : Z)
    (p : bool) (d : string) :
  0 <= m <= 5 ->
  check_ok {| name := nm; max_points := m;
              points_awarded := Z.min (Document._count_keyword_matches text kws) m;
              passed := p; details := d |}.
Proof.
  intros H. unfold check_ok, Document._count_keyword_matches, Regex.count_matches.
  cbn [points_awarded max_points]. lia.
Qed.

Lemma document_within (w : World) (root : Fs.node) (quick : bool) :
  within 15 (Document.validate w root quick).
Proof.
  unfold Document.validate. cbv zeta.
  match goal with
  | |- within _ (if quick then ?a else _) => assert (H1 : within 7 a)
  end.
  { snoc_check 6.
    apply (within_snoc 3); [ | apply capped_check_ok; lia | simpl; lia].
    apply within_one; [apply capped_check_ok; lia | simpl; lia]. }
  destruct quick.
  { eapply within_weaken; [exact H1 | lia]. }
  apply (within_snoc 12); [ | apply capped_check_ok; lia | simpl; lia].
  apply (within_snoc 10); [ | | simpl; lia].
  2:{ unfold check_ok; cbn [points_awarded max_points]. bound_bool_pts; lia. }
  apply (within_snoc 7); [exact H1 | | simpl; lia].
  unfold check_ok; cbn [points_awarded max_points].
  pose proof (tally_score_range (Document.remediation_criteria
                (Fs._read_file root (Document.debug_dir ++ ["remediation.sh"])%list))) as Hr.
  cbn [List.length Document.remediation_criteria] in Hr.
  destruct (_ && _); lia.
Qed.

Lemma error_check_within (v : Evaluate.Validator) (e : exn) :
  within 0 [Evaluate.error_check v e].
Proof. apply within_one; [unfold check_ok; simpl; lia | simpl; lia]. Qed.

(** The loop of [run_module] keeps the bound when every validator does. *)
Lemma run_validators_within (w : World) (root : Fs.node) (quick : bool) :
  forall (vs : list Evaluate.Validator) (bounds : list Z) (checks : list Check) (K : Z),
    Forall2 (fun v b => result_within b (Evaluate.validate v w root quick)) vs bounds ->
    Forall (fun b => 0 <= b) bounds ->
    within K checks ->
    within (K + fold_right Z.add 0 bounds)
      (Evaluate.run_validators w root quick vs checks).
Proof.
  induction vs as [|v vs IH]; intros bounds checks K HF Hpos HK.
  - inversion HF; subst. simpl. eapply within_weaken; [exact HK | lia].
  - inversion HF as [|v' b vs' bs Hv Hrest]; subst. inversion Hpos; subst.
    simpl. destruct (Evaluate.validate v w root quick) as [result|e].
    + eapply within_weaken.
      * apply (IH bs (checks ++ result)%list (K + b)); auto.
        apply (within_app K b); [assumption | exact Hv | lia].
      * lia.
    + eapply within_weaken.
      * apply (IH bs (checks ++ [Evaluate.error_check v e])%list K); auto.
        apply (within_app K 0); [assumption | apply error_check_within | lia].
      * lia.
Qed.

Lemma get_known (A : Type) (k : string) (d : PyDict.t A) (v : A) :
  PyDict.get k d = Some v -> In k (PyDict.keys d).
Proof.
  unfold PyDict.get, PyDict.keys.
  induction d as [|[k' v'] d IH]; simpl; [discriminate |].
  destruct (String.eqb_spec k k'); [auto |]. intros H. right. apply IH, H.
Qed.

Lemma validators_within (w : World) (root : Fs.node) (quick : bool)
    (vs : list Evaluate.Validator) (bounds : list Z) :
  Forall2 (fun v b => result_within b (Evaluate.validate v w root quick)) vs bounds ->
  Forall (fun b => 0 <= b) bounds ->
  within (fold_right Z.add 0 bounds) (Evaluate.run_validators w root quick vs []).
Proof.
  intros HF Hpos.
  apply (run_validators_within w root quick vs bounds [] 0 HF Hpos within_nil).
Qed.

Lemma run_module_within (w : World) (root : Fs.node) (quick : bool) (module_name : string) :
  within (Engine.module_max module_name) (Evaluate.run_module w module_name root quick).
Proof.
  unfold Evaluate.run_module, Engine.module_max, PyDict.get,
    Evaluate.MODULE_VALIDATORS, Scoring.MODULE_CONFIG.
  cbn [Fs.assoc Scoring.max_score].
  destruct (String.eqb module_name "terraform").
  { apply (validators_within w root quick _ [25]);
      [constructor; [apply terraform_within | constructor] | repeat constructor; lia]. }
  destruct (String.eqb module_name "k8s").
  { apply (validators_within w root quick _ [25]);
      [constructor; [apply kubernetes_within | constructor] | repeat constructor; lia]. }
  destruct (String.eqb module_name "network").
  { apply (validators_within w root quick _ [20]);
      [constructor; [apply shell_within | constructor] | repeat constructor; lia]. }
  destruct (String.eqb module_name "cicd").
  { apply (validators_within w root quick _ [11; 4]);
      [constructor; [apply pipeline_within |];
       constructor; [apply python_within | constructor]
      | repeat constructor; lia]. }
  destruct (String.eqb module_name "debug").
  { apply (validators_within w root quick _ [15]);
      [constructor; [apply document_within | constructor] | repeat constructor; lia]. }
  apply within_nil.
Qed.

Lemma module_max_nonneg (module_name : string) : 0 <= Engine.module_max module_name.
Proof.
  unfold Engine.module_max, PyDict.get, Scoring.MODULE_CONFIG.
  cbn [Fs.assoc Scoring.max_score].
  repeat match goal with
         | |- context [if ?b then _ else _] => destruct b; [simpl; lia |]
         end.
  simpl; lia.
Qed.

Lemma get_set (A : Type) (k k' : string) (v : A) (d : PyDict.t A) :
  PyDict.get k (PyDict.set k' v d) = if String.eqb k k' then Some v else PyDict.get k d.
Proof.
  unfold PyDict.get.
  induction d as [|[k0 v0] d IH]; simpl.
  - reflexivity.
  - destruct (String.eqb_spec k' k0) as [->|Hne]; simpl.
    + destruct (String.eqb k k0); reflexivity.
    + rewrite IH. destruct (String.eqb_spec k k0) as [->|]; [| reflexivity].
      destruct (String.eqb_spec k0 k'); [congruence | reflexivity].
Qed.

Lemma results_of_run_set (w : World) (root : Fs.node) (quick : bool)
    (d : PyDict.t (list Check)) (k : string) (cs : list Check) :
  Engine.results_of_run w root quick d ->
  cs = [] \/ cs = Evaluate.run_module w k root quick ->
  Engine.results_of_run w root quick (PyDict.set k cs d).
Proof.
  intros Hd Hcs name cs'. rewrite get_set.
  destruct (String.eqb_spec name k) as [->|]; [| apply Hd].
  intros [= <-]. exact Hcs.
Qed.

Lemma fold_results_of_run (w : World) (root : Fs.node) (quick : bool)
    (f : PyDict.t (list Check) -> string -> PyDict.t (list Check)) :
  (forall d k, Engine.results_of_run w root quick d ->
               Engine.results_of_run w root quick (f d k)) ->
  forall names d, Engine.results_of_run w root quick d ->
                  Engine.results_of_run w root quick (fold_left f names d).
Proof.
  intros Hf names. induction names as [|k names IH]; intros d Hd; simpl; auto.
Qed.

(** The score of a module entry stays below the configured ceiling. *)
Lemma entry_score (w : World) (root : Fs.node) (quick : bool)
    (d : PyDict.t (list Check)) (module_name : string) :
  Engine.results_of_run w root quick d ->
  0 <= Scoring.compute_module_score
         match PyDict.get module_name d with Some cs => cs | None => [] end
    <= Engine.module_max module_name.
Proof.
  intros Hd. pose proof (module_max_nonneg module_name).
  destruct (PyDict.get module_name d) as [cs|] eqn:E; [| simpl; lia].
  destruct (Hd _ _ E) as [->| ->]; [simpl; lia |].
  apply within_score, run_module_within.
Qed.

Lemma total_of_run (w : World) (root : Fs.node) (quick : bool)
    (d : PyDict.t (list Check)) :
  Engine.results_of_run w root quick d ->
  0 <= Scoring.total_score (Scoring.compute_total_score d) <= 100
  /\ Scoring.max_score_total (Scoring.compute_total_score d) = 25 + 25 + 20 + 15 + 15.
Proof.
  intros Hd.
  pose proof (entry_score w root quick d "terraform" Hd) as H1.
  pose proof (entry_score w root quick d "k8s" Hd) as H2.
  pose proof (entry_score w root quick d "network" Hd) as H3.
  pose proof (entry_score w root quick d "cicd" Hd) as H4.
  pose proof (entry_score w root quick d "debug" Hd) as H5.
  unfold Scoring.compute_total_score, Scoring.fold_modules, Scoring.MODULE_CONFIG.
  cbn [fold_left Scoring.max_score Scoring.total_score Scoring.max_score_total].
  change (Engine.module_max "terraform") with 25 in H1.
  change (Engine.module_max "k8s") with 25 in H2.
  change (Engine.module_max "network") with 20 in H3.
  change (Engine.module_max "cicd") with 15 in H4.
  change (Engine.module_max "debug") with 15 in H5.
  split; [lia | reflexivity].
Qed.

Lemma collect_results_of_run (w : World) (root : Fs.node) (module : option string)
    (quick : bool) :
  Engine.results_of_run w root quick (Evaluate.collect_results w root module quick).
Proof.
  unfold Evaluate.collect_results. cbv zeta.
  apply fold_results_of_run.
  - intros d k Hd. destruct (negb (PyDict.mem k d)); [| exact Hd].
    apply results_of_run_set; auto.
  - apply fold_results_of_run.
    + intros d k Hd. destruct (negb (PyDict.mem k Evaluate.MODULE_VALIDATORS));
        [exact Hd |].
      apply results_of_run_set; auto.
    + intros name cs. discriminate.
Qed.

End Bounds.

(** C1. Every evaluation run (any submission directory, any requested module,
    quick or full mode) returns a result with
    [0 <= total_score <= max_score], and [max_score] is the sum of the
    configured module maxima, 25+25+20+15+15 = 100, whatever modules ran. *)
Theorem total_score_between_zero_and_max_score :
  forall (w : World) (submission_dir : Fs.node) (module : option string) (quick : bool)
         (r : Scoring.EvaluationResult),
    Evaluate.evaluate w submission_dir module quick = Some r ->
    (0 <= Scoring.total_score r <= Scoring.max_score_total r)%Z
    /\ Scoring.max_score_total r = (25 + 25 + 20 + 15 + 15)%Z
    /\ Scoring.max_score_total r = 100%Z.
Proof.
  intros w root module quick r. unfold Evaluate.evaluate.
  destruct (negb (Fs.isdir root [])); [discriminate |].
  intros [= <-].
  destruct (Bounds.total_of_run w root quick _
              (Bounds.collect_results_of_run w root module quick)) as [H1 H2].
  rewrite H2. repeat split; lia.
Qed.

Lemma total_score_between_zero_and_max_score_witness :
  exists r : Scoring.EvaluationResult,
    Evaluate.evaluate Sample.world Sample.deploy_submission None false = Some r
    /\ (0 <= Scoring.total_score r <= Scoring.max_score_total r)%Z
    /\ Scoring.max_score_total r = (25 + 25 + 20 + 15 + 15)%Z
    /\ Scoring.max_score_total r = 100%Z.
Proof.
  eexists. split.
  - vm_compute. reflexivity.
  - apply (total_score_between_zero_and_max_score
             Sample.world Sample.deploy_submission None false).
    vm_compute. reflexivity.
Defined.

(** ** Ceilings by name *)

Module CeilingFacts.

Import Ceilings.

Lemma fixed_snoc (cs : list Check) (c : Check) :
  Forall (fun c => fixed c = true) cs -> fixed c = true ->
  Forall (fun c => fixed c = true) (cs ++ [c]).
Proof. intros Hcs Hc. apply Forall_app. split; [exact Hcs | constructor; [exact Hc | constructor]]. Qed.

Lemma fixed_one (c : Check) : fixed c = true -> Forall (fun c => fixed c = true) [c].
Proof. intros Hc. constructor; [exact Hc | constructor]. Qed.

Ltac snoc_fixed := apply fixed_snoc; [| reflexivity].

Lemma terraform_fixed (w : World) (root : Fs.node) (quick : bool) :
  Forall (fun c => fixed c = true) (Terraform.validate w root quick).
Proof.
  unfold Terraform.validate.
  destruct (negb (Fs.isdir root Terraform.tf_dir)); [apply fixed_one; reflexivity |].
  set (first := if negb (hcl2_available w) then _ else _).
  assert (H1 : Forall (fun c => fixed c = true) (fst first)).
  { subst first. destruct (negb (hcl2_available w)); [apply fixed_one; reflexivity |].
    destruct (Terraform.parse_all _ _ _) as [pe ap].
    destruct pe; apply fixed_one; reflexivity. }
  destruct first as [checks all_parsed]. cbn [fst] in H1. cbv zeta.
  destruct quick; repeat snoc_fixed; exact H1.
Qed.

Lemma incident_fixed (w : World) (root : Fs.node) :
  fixed (Kubernetes.incident_check w root 1 4) = true
  /\ fixed (Kubernetes.incident_check w root 2 4) = true
  /\ fixed (Kubernetes.incident_check w root 3 4) = true.
Proof.
  unfold Kubernetes.incident_check. cbv zeta.
  repeat split;
    match goal with |- context [if ?b then _ else _] => destruct b end; reflexivity.
Qed.

Lemma kubernetes_fixed (w : World) (root : Fs.node) (quick : bool) (cs : list Check) :
  Kubernetes.validate w root quick = Ok cs -> Forall (fun c => fixed c = true) cs.
Proof.
  unfold Kubernetes.validate.
  destruct (negb (Fs.isdir root Kubernetes.k8s_dir)).
  { intros [= <-]. apply fixed_one. reflexivity. }
  destruct (Kubernetes.load_all w root) as [[parse_errors yaml_files]|e]; [| discriminate].
  cbn [bind]. cbv zeta.
  match goal with
  | |- (if quick then Ok ?first else _) = _ -> _ =>
      assert (H1 : Forall (fun c => fixed c = true) first)
  end.
  { destruct parse_errors; apply fixed_one; reflexivity. }
  destruct quick; [intros [= <-]; exact H1 |].
  unfold bind.
  destruct (Block.run (Kubernetes.scan_resources _) _); [| discriminate].
  destruct (Block.run (Kubernetes.scan_probes _) _) as [[? ?]|]; [| discriminate].
  destruct (Block.run (Kubernetes.scan_hpa _) _); [| discriminate].
  destruct (Block.run (Kubernetes.scan_anti_affinity _) _); [| discriminate].
  destruct (Block.run (Kubernetes.scan_netpol _) _); [| discriminate].
  destruct (Block.run (Kubernetes.scan_security _) _) as [[? ?]|]; [| discriminate].
  destruct (Block.run (Kubernetes.scan_images _) _) as [[? ?]|]; [| discriminate].
  destruct (Block.run (Kubernetes.scan_configmap_ref _) _); [| discriminate].
  intros [= <-].
  snoc_fixed. apply Forall_app. split.
  - repeat snoc_fixed. exact H1.
  - cbn [map]. destruct (incident_fixed w root) as (I1 & I2 & I3).
    repeat (constructor; [assumption |]). constructor.
Qed.

Lemma shell_fixed (w : World) (root : Fs.node) (quick : bool) :
  Forall (fun c => fixed c = true) (Shell.validate w root quick).
Proof.
  unfold Shell.validate. cbv zeta.
  assert (H1 : fixed (Shell.shellcheck_check w root (Shell.collect_sh_files root)) = true).
  { unfold Shell.shellcheck_check. cbv zeta.
    destruct (_ =? 0)%Z; [reflexivity |].
    destruct (map fst _); reflexivity. }
  destruct quick; repeat snoc_fixed; apply fixed_one; exact H1.
Qed.

Lemma pipeline_fixed (w : World) (root : Fs.node) (quick : bool) :
  Forall (fun c => fixed c = true) (Pipeline.validate w root quick).
Proof.
  unfold Pipeline.validate. cbv zeta.
  set (first := if negb (PyStr.truthy _) then _ else _).
  assert (H1 : Forall (fun c => fixed c = true) first).
  { subst first.
    destruct (negb (PyStr.truthy _)); [apply fixed_one; reflexivity |].
    destruct (negb (PyStr.truthy _)); [apply fixed_one; reflexivity |].
    destruct (yaml_safe_load w _); apply fixed_one; reflexivity. }
  clearbody first.
  destruct quick; repeat snoc_fixed; exact H1.
Qed.

Lemma python_fixed (w : World) (root : Fs.node) (quick : bool) :
  Forall (fun c => fixed c = true) (Python.validate w root quick).
Proof.
  unfold Python.validate. cbv zeta.
  destruct (negb (PyStr.truthy _)); [apply fixed_one; reflexivity |].
  destruct (ast_parse w _); [| apply fixed_one; reflexivity].
  destruct quick; apply fixed_one; reflexivity.
Qed.

Lemma document_fixed (w : World) (root : Fs.node) (quick : bool) :
  Forall (fun c => fixed c = true) (Document.validate w root quick).
Proof.
  unfold Document.validate. cbv zeta.
  destruct quick; repeat snoc_fixed; apply fixed_one; reflexivity.
Qed.

End CeilingFacts.

(** C8, as stated, fails: [max_points] is not fixed per Check.  In one and
    the same mode the Check of the syntax of [deploy.py] has ceiling 1 for a
    script that parses and ceiling 4 for a script that does not. *)
Lemma syntax_check_ceiling_varies :
  Python.validate Sample.world Sample.deploy_submission true
  = [{| name := "deploy.py: valid Python syntax";
        max_points := 1; points_awarded := 1; passed := true;
        details := EmptyString |}]
  /\ Python.validate Sample.world Quick.broken_submission true
     = [{| name := "deploy.py: valid Python syntax";
           max_points := 4; points_awarded := 0; passed := false;
           details := "SyntaxError: invalid syntax" |}].
Proof. split; vm_compute; reflexivity. Qed.

(** C8, amended.  Every Check that a validator returns, on any submission
    and in either mode, has [0 <= points_awarded <= max_points] and a ceiling
    between 0 and 5; this holds in particular for the Checks made of several
    criteria.  The ceiling is fixed by the name of the Check, as listed in
    [Ceilings.declared], for every name but one: the Check of the syntax of
    [deploy.py] has ceiling 4 when it failed and ceiling 1 when it passed. *)
Theorem check_points_within_max_points :
  forall (w : World) (submission_dir : Fs.node) (quick : bool)
         (v : Evaluate.Validator) (checks : list Check) (c : Check),
    In v Engine.all_validators ->
    Evaluate.validate v w submission_dir quick = Ok checks ->
    In c checks ->
    (0 <= points_awarded c <= max_points c)%Z
    /\ (0 <= max_points c <= 5)%Z
    /\ (name c <> Ceilings.varying ->
        PyDict.get (name c) Ceilings.declared = Some (max_points c))
    /\ (name c = Ceilings.varying ->
        (passed c = false /\ max_points c = 4%Z)
        \/ (passed c = true /\ max_points c = 1%Z)).
Proof.
  intros w root quick v checks c Hv Hrun Hc.
  assert (Hall : exists K, Spec.result_within K (Evaluate.validate v w root quick)).
  { unfold Engine.all_validators in Hv. cbn [In] in Hv.
    destruct Hv as [<-|[<-|[<-|[<-|[<-|[<-|[]]]]]]].
    - exists 25%Z. apply Bounds.terraform_within.
    - exists 25%Z. apply Bounds.kubernetes_within.
    - exists 20%Z. apply Bounds.shell_within.
    - exists 11%Z. apply Bounds.pipeline_within.
    - exists 4%Z. apply Bounds.python_within.
    - exists 15%Z. apply Bounds.document_within. }
  assert (Hfixed : Forall (fun c => Ceilings.fixed c = true) checks).
  { unfold Engine.all_validators in Hv. cbn [In] in Hv.
    destruct Hv as [<-|[<-|[<-|[<-|[<-|[<-|[]]]]]]];
      cbn [Evaluate.validate Evaluate.terraform_validator Evaluate.kubernetes_validator
           Evaluate.shell_validator Evaluate.pipeline_validator Evaluate.python_validator
           Evaluate.document_validator] in Hrun;
      unfold Evaluate.total in Hrun;
      try (injection Hrun as <-).
    - apply CeilingFacts.terraform_fixed.
    - apply (CeilingFacts.kubernetes_fixed w root quick checks Hrun).
    - apply CeilingFacts.shell_fixed.
    - apply CeilingFacts.pipeline_fixed.
    - apply CeilingFacts.python_fixed.
    - apply CeilingFacts.document_fixed. }
  destruct Hall as [K HK]. rewrite Hrun in HK. destruct HK as [HF _].
  rewrite Forall_forall in HF, Hfixed.
  destruct (HF c Hc) as [H1 H2]. specialize (Hfixed c Hc).
  split; [lia |]. split; [lia |].
  unfold Ceilings.fixed in Hfixed. split.
  - intros Hname.
    destruct (PyDict.get (name c) Ceilings.declared) as [m|].
    + apply Z.eqb_eq in Hfixed. now rewrite Hfixed.
    + apply andb_true_iff in Hfixed as [Heq _]. apply String.eqb_eq in Heq. contradiction.
  - intros Hname. rewrite Hname in Hfixed.
    change (PyDict.get Ceilings.varying Ceilings.declared) with (@None Z) in Hfixed.
    apply andb_true_iff in Hfixed as [_ Hmax].
    destruct (passed c); apply Z.eqb_eq in Hmax.
    + right. split; [reflexivity | exact Hmax].
    + left. split; [reflexivity | exact Hmax].
Qed.

Lemma check_points_within_max_points_witness :
  let c := {| name := "deploy.py: valid Python, argparse, rollback, healthcheck";
              max_points := 4; points_awarded := 2; passed := false;
              details := "Found: valid syntax, rollback function" |} in
  (0 <= points_awarded c <= max_points c)%Z
  /\ (0 <= max_points c <= 5)%Z
  /\ (name c <> Ceilings.varying ->
      PyDict.get (name c) Ceilings.declared = Some (max_points c))
  /\ (name c = Ceilings.varying ->
      (passed c = false /\ max_points c = 4%Z)
      \/ (passed c = true /\ max_points c = 1%Z)).
Proof.
  intro c.
  apply (check_points_within_max_points Sample.world Sample.deploy_submission false
           Evaluate.python_validator [c] c).
  - simpl. tauto.
  - vm_compute. reflexivity.
  - simpl. tauto.
Defined.

(** ** The text normalizers *)

Module Normalizers.

Import PyStr Text.

Lemma append_nil_r (s : string) : s ++ EmptyString = s.
Proof. induction s as [|c s IH]; simpl; [reflexivity | now rewrite IH]. Qed.

Lemma append_assoc (a b c : string) : (a ++ b) ++ c = a ++ (b ++ c).
Proof. induction a as [|x a IH]; simpl; [reflexivity | now rewrite IH]. Qed.

Lemma no_linebreak_app (a b : string) :
  no_linebreak (a ++ b) = no_linebreak a && no_linebreak b.
Proof.
  induction a as [|c a IH]; simpl; [reflexivity |].
  rewrite IH. now rewrite andb_assoc.
Qed.

(** *** [splitlines] and [join] *)

Lemma splitlines_go_no_linebreak (s : string) :
  forall (after_cr : bool) (cur : string),
    no_linebreak cur = true ->
    Forall (fun l => no_linebreak l = true) (splitlines_go after_cr cur s).
Proof.
  induction s as [|c s IH]; intros after_cr cur Hcur; simpl.
  - destruct (is_empty cur); repeat constructor; assumption.
  - destruct (after_cr && Ascii.eqb c LF); [apply IH; assumption |].
    destruct (is_linebreak c) eqn:Hc.
    + constructor; [assumption | apply IH; reflexivity].
    + apply IH. rewrite no_linebreak_app, Hcur. simpl. now rewrite Hc.
Qed.

Lemma splitlines_no_linebreak (s : string) :
  Forall (fun l => no_linebreak l = true) (splitlines s).
Proof. apply splitlines_go_no_linebreak. reflexivity. Qed.

(** A line without boundaries moves into the line being built. *)
Lemma splitlines_go_line (l : string) :
  forall (cur rest : string),
    no_linebreak l = true ->
    splitlines_go false cur (l ++ rest) = splitlines_go false (cur ++ l) rest.
Proof.
  induction l as [|c l IH]; intros cur rest Hl; simpl.
  - now rewrite append_nil_r.
  - simpl in Hl. apply andb_true_iff in Hl as [Hc Hl].
    apply negb_true_iff in Hc. rewrite Hc.
    rewrite IH by assumption. now rewrite append_assoc.
Qed.

Lemma splitlines_go_newline (cur rest : string) :
  splitlines_go false cur (NL ++ rest) = cur :: splitlines_go false EmptyString rest.
Proof. reflexivity. Qed.

Lemma join_cons2 (sep x y : string) (l : list string) :
  join sep (x :: y :: l) = x ++ sep ++ join sep (y :: l).
Proof. reflexivity. Qed.

(** Joining lines and splitting the text again gives the lines back, unless
    the last line is empty. *)
Lemma splitlines_join (lines : list string) :
  Forall (fun l => no_linebreak l = true) lines ->
  last lines "x" <> EmptyString ->
  splitlines (join NL lines) = lines.
Proof.
  unfold splitlines.
  induction lines as [|x lines IH]; intros Hall Hlast; [reflexivity |].
  inversion Hall as [|? ? Hx Hrest]; subst.
  destruct lines as [|y lines].
  - simpl in *. rewrite <- (append_nil_r x) at 1.
    rewrite splitlines_go_line by assumption. simpl.
    destruct x; [contradiction | reflexivity].
  - rewrite join_cons2, splitlines_go_line by assumption.
    rewrite splitlines_go_newline. simpl append. f_equal.
    apply IH; assumption.
Qed.

Lemma endswith_refl (s : string) : endswith s s = true.
Proof. destruct s; cbn [endswith]; rewrite String.eqb_refl; reflexivity. Qed.

Lemma endswith_app (suf a : string) : endswith suf (a ++ suf) = true.
Proof.
  induction a as [|c a IH]; cbn [append endswith].
  - apply endswith_refl.
  - rewrite IH. apply orb_true_r.
Qed.

(** When the last of several lines is empty the joined text ends with a
    newline. *)
Lemma join_ends_with_newline (x : string) (lines : list string) :
  lines <> [] ->
  last (x :: lines) "x" = EmptyString ->
  ends_with_newline (join NL (x :: lines)) = true.
Proof.
  revert x. induction lines as [|y lines IH]; intros x Hne Hlast; [contradiction |].
  rewrite join_cons2. destruct lines as [|z lines].
  - simpl in Hlast. subst y. unfold ends_with_newline.
    change (join NL [EmptyString]) with EmptyString.
    change (NL ++ EmptyString) with NL.
    apply endswith_app.
  - specialize (IH y ltac:(discriminate) Hlast).
    unfold ends_with_newline in *.
    remember (join NL (y :: z :: lines)) as t eqn:Ht. clear Ht.
    rewrite <- append_assoc.
    remember (x ++ NL) as p eqn:Hp. clear Hp.
    induction p as [|c p IHp]; simpl; [assumption |].
    rewrite IHp. apply orb_true_r.
Qed.

(** The lines of a text that does not end with a newline: either the joined
    text is empty or splitting it gives the lines back. *)
Lemma splitlines_join_cases (lines : list string) :
  Forall (fun l => no_linebreak l = true) lines ->
  ends_with_newline (join NL lines) = false ->
  join NL lines = EmptyString \/ splitlines (join NL lines) = lines.
Proof.
  intros Hall Hend.
  destruct lines as [|x lines]; [left; reflexivity |].
  destruct (string_dec (last (x :: lines) "x") EmptyString) as [Hlast|Hlast].
  - destruct lines as [|y lines].
    + simpl in Hlast. subst x. left. reflexivity.
    + rewrite join_ends_with_newline in Hend; [discriminate | discriminate | assumption].
  - right. apply splitlines_join; assumption.
Qed.

(** *** Cutting an inline comment *)

Section Cut.

Variable at_start : string -> bool.

(** A match at the start of a text is a match at the start of every text
    that extends it. *)
Hypothesis at_start_extends :
  forall p z : string, at_start p = true -> at_start (p ++ z) = true.

Lemma cut_at_prefix (x : string) : exists z, x = Scan.cut_at at_start x ++ z.
Proof.
  induction x as [|c x [z Hz]]; simpl.
  - exists EmptyString. reflexivity.
  - destruct (at_start (String c x)).
    + exists (String c x). reflexivity.
    + exists z. simpl. now rewrite <- Hz.
Qed.

Lemma cut_at_idempotent (x : string) :
  Scan.cut_at at_start (Scan.cut_at at_start x) = Scan.cut_at at_start x.
Proof.
  induction x as [|c x IH]; simpl; [reflexivity |].
  destruct (at_start (String c x)) eqn:Hat; [reflexivity |].
  simpl. rewrite IH.
  destruct (at_start (String c (Scan.cut_at at_start x))) eqn:Hcut; [| reflexivity].
  destruct (cut_at_prefix x) as [z Hz].
  apply (at_start_extends _ z) in Hcut. simpl in Hcut.
  rewrite <- Hz in Hcut. congruence.
Qed.

Lemma cut_at_no_linebreak (x : string) :
  no_linebreak x = true -> no_linebreak (Scan.cut_at at_start x) = true.
Proof.
  induction x as [|c x IH]; simpl; [reflexivity |].
  intros H. apply andb_true_iff in H as [Hc Hx].
  destruct (at_start (String c x)); [reflexivity |].
  simpl. now rewrite Hc, IH.
Qed.

End Cut.

Lemma shell_comment_from_extends (p z : string) :
  forall seen_ws : bool,
    Shell.shell_comment_from seen_ws p = true ->
    Shell.shell_comment_from seen_ws (p ++ z) = true.
Proof.
  induction p as [|c p IH]; intros seen_ws; simpl; [discriminate |].
  destruct (isspace c); [apply IH |].
  destruct (seen_ws && Ascii.eqb c "#"); [| discriminate].
  destruct p; simpl; [discriminate | auto].
Qed.

Lemma shell_comment_at_extends (p z : string) :
  Shell.shell_comment_at p = true -> Shell.shell_comment_at (p ++ z) = true.
Proof. apply shell_comment_from_extends. Qed.

(** *** Lines that start with a hash sign *)

Lemma rstrip_head (c : ascii) (s : string) :
  isspace c = false -> exists r, rstrip (String c s) = String c r.
Proof. intros Hc. simpl. rewrite Hc. simpl. eauto. Qed.

Lemma lstrip_head (s : string) :
  lstrip s = EmptyString \/ exists c r, lstrip s = String c r /\ isspace c = false.
Proof.
  induction s as [|c s IH]; simpl; [left; reflexivity |].
  destruct (isspace c) eqn:Hc; [exact IH |]. right. eauto.
Qed.

Lemma startswith_hash_strip (l : string) :
  startswith "#" (strip l) = hash_first l.
Proof.
  unfold strip, hash_first.
  destruct (lstrip_head l) as [-> | (c & r & -> & Hc)]; [reflexivity |].
  destruct (rstrip_head c r Hc) as [r' ->].
  unfold startswith. cbn [String.prefix].
  destruct (ascii_dec "#" c) as [<-|Hne].
  - destruct r'; reflexivity.
  - destruct (Ascii.eqb_spec c "#"); [congruence | reflexivity].
Qed.

(** Cutting the inline comment of a line keeps its first visible character. *)
Lemma hash_first_cut (x : string) :
  hash_first x = false ->
  hash_first (Scan.cut_at Shell.shell_comment_at x) = false.
Proof.
  unfold hash_first.
  induction x as [|c x IH]; simpl; [reflexivity |].
  destruct (Shell.shell_comment_at (String c x)); [reflexivity |].
  simpl. destruct (isspace c); [exact IH | auto].
Qed.

Lemma filter_fixed {A : Type} (f : A -> bool) (l : list A) :
  Forall (fun x => f x = true) l -> filter f l = l.
Proof.
  induction 1 as [|x l Hx _ IH]; simpl; [reflexivity |].
  now rewrite Hx, IH.
Qed.

Lemma map_fixed {A : Type} (f : A -> A) (l : list A) :
  Forall (fun x => f x = x) l -> map f l = l.
Proof.
  induction 1 as [|x l Hx _ IH]; simpl; [reflexivity |].
  now rewrite Hx, IH.
Qed.

Lemma filter_all {A : Type} (f : A -> bool) (l : list A) :
  Forall (fun x => f x = true) (filter f l).
Proof.
  apply Forall_forall. intros x Hx. apply filter_In in Hx. tauto.
Qed.

Lemma shell_lines_stable (content : string) :
  Forall (fun l => no_linebreak l = true
                   /\ negb (startswith "#" (strip l)) = true
                   /\ Scan.cut_at Shell.shell_comment_at l = l)
    (shell_lines content).
Proof.
  unfold shell_lines. apply Forall_forall. intros l Hl.
  apply in_map_iff in Hl as (x & <- & Hx).
  apply filter_In in Hx as [Hx Hkeep].
  pose proof (splitlines_no_linebreak content) as Hnl.
  rewrite Forall_forall in Hnl. specialize (Hnl x Hx).
  repeat split.
  - apply cut_at_no_linebreak, Hnl.
  - rewrite startswith_hash_strip in *. apply negb_true_iff in Hkeep.
    now rewrite hash_first_cut.
  - apply cut_at_idempotent, shell_comment_at_extends.
Qed.

Lemma strip_shell_comments_twice (content : string) :
  ends_with_newline (Shell._strip_shell_comments content) = false ->
  Shell._strip_shell_comments (Shell._strip_shell_comments content)
  = Shell._strip_shell_comments content.
Proof.
  change (Shell._strip_shell_comments content) with (join NL (shell_lines content)).
  intros Hend.
  pose proof (shell_lines_stable content) as Hst.
  destruct (splitlines_join_cases (shell_lines content)) as [Hempty|Hsplit].
  - eapply Forall_impl; [| exact Hst]. simpl. tauto.
  - exact Hend.
  - rewrite Hempty. reflexivity.
  - unfold Shell._strip_shell_comments at 1. rewrite Hsplit.
    rewrite filter_fixed, map_fixed; [reflexivity | |];
      (eapply Forall_impl; [| exact Hst]); simpl; tauto.
Qed.

Lemma filter_filter {A : Type} (f : A -> bool) (l : list A) :
  filter f (filter f l) = filter f l.
Proof. apply filter_fixed, filter_all. Qed.

Lemma strip_md_template_twice (empty_rows : bool) (content : string) :
  let once := Markdown.strip_template empty_rows content in
  ends_with_newline once = false ->
  Markdown.remove_html_comments once = once ->
  Markdown.strip_template empty_rows once = once.
Proof.
  intros once Hend Hclean.
  unfold Markdown.strip_template at 1. cbv zeta. rewrite Hclean.
  subst once. unfold Markdown.strip_template in *. cbv zeta in *.
  set (lines := filter (Markdown.keep_line empty_rows)
                  (splitlines (Markdown.remove_html_comments content))) in *.
  assert (Hnl : Forall (fun l => no_linebreak l = true) lines).
  { apply Forall_forall. intros l Hl. apply filter_In in Hl as [Hl _].
    pose proof (splitlines_no_linebreak (Markdown.remove_html_comments content)) as H.
    rewrite Forall_forall in H. auto. }
  destruct (splitlines_join_cases lines Hnl Hend) as [Hempty|Hsplit].
  - rewrite Hempty. reflexivity.
  - rewrite Hsplit. subst lines. now rewrite filter_filter.
Qed.

End Normalizers.

(** C7, as stated, fails: on a line followed by an empty line each of the
    two normalizers removes one more line break at its second pass. *)
Lemma normalizers_not_idempotent :
  Markdown._strip_md_template (Markdown._strip_md_template SampleText.blank_tail)
  <> Markdown._strip_md_template SampleText.blank_tail
  /\ Shell._strip_shell_comments (Shell._strip_shell_comments SampleText.blank_tail)
     <> Shell._strip_shell_comments SampleText.blank_tail.
Proof. split; vm_compute; discriminate. Qed.

(** The prose normalizer also fails when the text left by the removal of one
    HTML comment is itself an HTML comment. *)
Example strip_md_template_reforms_comment :
  Markdown._strip_md_template SampleText.nested_comment = "<!---->"
  /\ Markdown._strip_md_template (Markdown._strip_md_template SampleText.nested_comment)
     = EmptyString.
Proof. split; vm_compute; reflexivity. Qed.

(** C7, amended. The code/comment normalizer applied twice equals the
    normalizer applied once on every input whose normalized text does not end
    with a newline; the prose normalizer applied twice equals the normalizer
    applied once on every input whose normalized text does not end with a
    newline and holds no HTML comment any more. *)
Theorem normalizers_idempotent_on_settled_text :
  forall s : string,
    (Text.ends_with_newline (Shell._strip_shell_comments s) = false ->
     Shell._strip_shell_comments (Shell._strip_shell_comments s)
     = Shell._strip_shell_comments s)
    /\ (Text.ends_with_newline (Markdown._strip_md_template s) = false ->
        Markdown.remove_html_comments (Markdown._strip_md_template s)
        = Markdown._strip_md_template s ->
        Markdown._strip_md_template (Markdown._strip_md_template s)
        = Markdown._strip_md_template s).
Proof.
  intros s. split.
  - apply Normalizers.strip_shell_comments_twice.
  - apply (Normalizers.strip_md_template_twice true s).
Qed.

Lemma normalizers_idempotent_on_settled_text_witness :
  Shell._strip_shell_comments (Shell._strip_shell_comments SampleText.notes)
  = Shell._strip_shell_comments SampleText.notes
  /\ Markdown._strip_md_template (Markdown._strip_md_template SampleText.notes)
     = Markdown._strip_md_template SampleText.notes.
Proof.
  destruct (normalizers_idempotent_on_settled_text SampleText.notes) as [Hshell Hmd].
  split.
  - apply Hshell. vm_compute. reflexivity.
  - apply Hmd; vm_compute; reflexivity.
Defined.

(** ** Exceptions that leave a validator *)

(** C3 fails on the code. A pod manifest whose container leaves [resources]
    empty parses to a null value; check 2 of the Kubernetes validator calls
    [get] on it outside of any [try], and the [AttributeError] leaves
    [validate]. *)
Theorem kubernetes_validate_raises_on_null_resources :
  Yaml.get (Yaml.YDict [("name", Yaml.YStr "app"); ("image", Yaml.YStr "nginx:1.25");
                        ("resources", Yaml.YNull)]) "resources" Yaml.empty_dict
  = Ok Yaml.YNull
  /\ Kubernetes._find_container_spec Sample.pod_doc
     = [Yaml.YDict [("name", Yaml.YStr "app"); ("image", Yaml.YStr "nginx:1.25");
                    ("resources", Yaml.YNull)]]
  /\ Kubernetes.validate Sample.world Sample.pod_submission false
     = Raise (AttributeError "'NoneType' object has no attribute 'get'").
Proof. repeat split; vm_compute; reflexivity. Qed.

Module Isolation.



End Isolation.

(** ** Graceful degradation of the linter checks *)

Module Degradation.

Lemma run_shellcheck_silent (w : World) (p : Fs.path) :
  Linter.silent w -> Shell._run_shellcheck w p = true.
Proof.
  unfold Linter.silent, Shell._run_shellcheck.
  destruct (shellcheck w) as [run|]; [| reflexivity].
  intros H. now rewrite H.
Qed.

Lemma no_failed_scripts (w : World) (scripts : list Fs.path) :
  Linter.silent w ->
  map fst (filter (fun r : string * bool => negb (snd r))
             (map (fun fpath => (Shell.basename fpath, Shell._run_shellcheck w fpath))
                scripts)) = [].
Proof.
  intros H. induction scripts as [|p scripts IH]; simpl; [reflexivity |].
  rewrite (run_shellcheck_silent w p H). simpl. exact IH.
Qed.

Lemma shellcheck_fails_silent (w : World) :
  Linter.silent w -> Document.shellcheck_fails w = false.
Proof.
  unfold Linter.silent, Document.shellcheck_fails.
  destruct (shellcheck w) as [run|]; [| reflexivity].
  intros H. now rewrite H.
Qed.

Lemma hd_error_app {A : Type} (x : A) (l l' : list A) :
  hd_error l = Some x -> hd_error (l ++ l') = Some x.
Proof. destruct l; simpl; [discriminate | auto]. Qed.

Lemma nth_error_snoc {A : Type} (l : list A) (x : A) (n : nat) :
  List.length l = n -> nth_error (l ++ [x]) n = Some x.
Proof.
  intros <-. rewrite nth_error_app2 by apply Nat.le_refl.
  now rewrite Nat.sub_diag.
Qed.

End Degradation.

(** C5, as stated, fails: without [shellcheck] and without any script the
    linter Check of the shell validator is failed and awards nothing. *)
Lemma linter_check_fails_without_scripts :
  shellcheck Sample.world = None
  /\ hd_error (Shell.validate Sample.world Sample.empty_submission false)
     = Some {| name := "shellcheck passes on .sh files";
               max_points := 2; points_awarded := 0; passed := false;
               details := "No shell scripts with content found" |}.
Proof. split; vm_compute; reflexivity. Qed.

(** C5, amended. When [shellcheck] is absent or times out, the linter Check
    of the shell validator passes with its two points as soon as some script
    of [network/] or [edge/] has five lines of code (and is failed, for want
    of scripts, otherwise), and the remediation Check of the document
    validator loses no point: it awards one point for each criterion that the
    text of the script meets. *)
Theorem linter_absence_takes_no_points :
  forall (w : World) (submission_dir : Fs.node) (quick : bool),
    Linter.silent w ->
    hd_error (Shell.validate w submission_dir quick)
    = Some (if Linter.has_content_scripts submission_dir
            then _check "shellcheck passes on .sh files" 2 true EmptyString
            else _check "shellcheck passes on .sh files" 2 false
                   "No shell scripts with content found")
    /\ nth_error (Document.validate w submission_dir false) 3
       = Some (Linter.remediation_check submission_dir).
Proof.
  intros w root quick Hsilent. split.
  - assert (Hfirst : Shell.shellcheck_check w root (Shell.collect_sh_files root)
                     = if Linter.has_content_scripts root
                       then _check "shellcheck passes on .sh files" 2 true EmptyString
                       else _check "shellcheck passes on .sh files" 2 false
                              "No shell scripts with content found").
    { unfold Shell.shellcheck_check. cbv zeta.
      rewrite (Degradation.no_failed_scripts w _ Hsilent).
      unfold Linter.has_content_scripts.
      destruct (Shell.content_scripts root (Shell.collect_sh_files root)) as [|p ps];
        [reflexivity |].
      replace (Z.of_nat (List.length (p :: ps)) =? 0)%Z with false
        by (symmetry; apply Z.eqb_neq; simpl List.length; lia).
      reflexivity. }
    unfold Shell.validate. cbv zeta. rewrite Hfirst.
    destruct quick; repeat (apply Degradation.hd_error_app); reflexivity.
  - unfold Document.validate. cbv zeta.
    rewrite (Degradation.shellcheck_fails_silent w Hsilent), andb_false_r.
    rewrite <- app_assoc.
    rewrite nth_error_app1 by (rewrite !length_app; cbn [List.length]; lia).
    apply Degradation.nth_error_snoc. reflexivity.
Qed.

Lemma linter_absence_takes_no_points_witness :
  hd_error (Shell.validate Sample.world Sample.script_submission false)
  = Some (_check "shellcheck passes on .sh files" 2 true EmptyString)
  /\ nth_error (Document.validate Sample.world Sample.script_submission false) 3
     = Some {| name := "remediation.sh: sets MTU, passes shellcheck";
               max_points := 3; points_awarded := 3; passed := true;
               details := "Found: sets MTU, shebang + error handling, verification step" |}.
Proof.
  exact (linter_absence_takes_no_points Sample.world Sample.script_submission false I).
Defined.

(** ** Quick mode and full mode *)

Module Modes.

Import Spec.









End Modes.




(** ** Stub routines are not implemented routines *)

Module StubFacts.

Import Stubs.

Lemma stub_body_no_real_stmts (body : list PyAst.stmt_kind) :
  stub_body body = true -> PyAst.real_stmts body = [].
Proof.
  unfold stub_body, PyAst.real_stmts.
  induction body as [|s body IH]; simpl; [reflexivity |].
  destruct s; simpl; try discriminate; exact IH.
Qed.

Lemma all_stubs_tail (n : PyAst.node) (tree : PyAst.tree) :
  all_stubs (n :: tree) -> all_stubs tree.
Proof. intros H fname body Hin. apply (H fname body). right. exact Hin. Qed.

Lemma implemented_funcs_of_stubs (tree : PyAst.tree) :
  all_stubs tree -> Python.implemented_funcs tree = [].
Proof.
  unfold Python.implemented_funcs, PyAst.walk.
  induction tree as [|n tree IH]; intros H; simpl; [reflexivity |].
  rewrite (IH (all_stubs_tail _ _ H)), app_nil_r.
  destruct n as [fname body| | |]; try reflexivity.
  rewrite (stub_body_no_real_stmts body); [reflexivity |].
  apply (H fname body). left. reflexivity.
Qed.

(** Setting a key to false keeps a dictionary of false values. *)
Lemma set_false_all_false (k : string) (d : PyDict.t bool) :
  Forall (fun b => b = false) (PyDict.values d) ->
  Forall (fun b => b = false) (PyDict.values (PyDict.set k false d)).
Proof.
  unfold PyDict.values.
  induction d as [|[k' v'] d IH]; simpl; intros H.
  - repeat constructor.
  - inversion H; subst.
    destruct (String.eqb k k'); simpl; constructor; auto.
Qed.

Lemma func_bodies_of_stubs (tree : PyAst.tree) :
  all_stubs tree ->
  existsb (fun b => b) (PyDict.values (Shell.func_bodies tree)) = false.
Proof.
  intros H.
  assert (Hall : Forall (fun b => b = false) (PyDict.values (Shell.func_bodies tree))).
  { unfold Shell.func_bodies, PyAst.walk.
    assert (Hgen : forall d : PyDict.t bool,
               Forall (fun b => b = false) (PyDict.values d) ->
               Forall (fun b => b = false)
                 (PyDict.values
                    (fold_left
                       (fun bodies node =>
                          match node with
                          | PyAst.FunctionDef fname body =>
                              PyDict.set fname
                                (0 <? Z.of_nat (List.length (PyAst.real_stmts body)))%Z
                                bodies
                          | _ => bodies
                          end) tree d))).
    { induction tree as [|n tree IH]; intros d Hd; simpl; [exact Hd |].
      apply (IH (all_stubs_tail _ _ H)).
      destruct n as [fname body| | |]; try exact Hd.
      rewrite (stub_body_no_real_stmts body).
      - apply set_false_all_false, Hd.
      - apply (H fname body). left. reflexivity. }
    apply Hgen. constructor. }
  induction Hall as [|b bs Hb _ IH]; simpl; [reflexivity |].
  now rewrite Hb, IH.
Qed.

End StubFacts.

(** C9. When every routine that a script declares holds only a docstring
    and/or [pass], the routines earn nothing in the Checks gated on being
    implemented, whatever their names: for [deploy.py] no function counts as
    implemented, the rollback and health-check points are zero, and the Check
    awards the syntax point and the argparse point only and is not passed;
    for [camera_discovery.py] the Check awards zero points and is not
    passed. *)
Theorem stub_routines_count_as_not_implemented :
  forall (w : World) (submission_dir : Fs.node) (tree : PyAst.tree),
    Stubs.all_stubs tree ->
    (PyStr.truthy (Stubs.deploy_py submission_dir) = true ->
     ast_parse w (Stubs.deploy_py submission_dir) = Parsed tree ->
     Python.implemented_funcs tree = []
     /\ Python.rollback_pt (Python.implemented_funcs tree) = 0%Z
     /\ Python.health_pt (Python.implemented_funcs tree) = 0%Z
     /\ exists c,
          Python.validate w submission_dir false = [c]
          /\ name c = "deploy.py: valid Python, argparse, rollback, healthcheck"
          /\ points_awarded c
             = (1 + Tally.bool_pt
                      (Python.argparse_ok tree (Stubs.deploy_py submission_dir)))%Z
          /\ passed c = false)
    /\ (ast_parse w (Stubs.camera_py submission_dir) = Parsed tree ->
        nth_error (Shell.validate w submission_dir false) 5
        = Some {| name := "camera_discovery.py: XML parsing, JSON output, timeout";
                  max_points := 3; points_awarded := 0; passed := false;
                  details := "Skeleton not implemented" |}).
Proof.
  intros w root tree Hstubs. split.
  - intros Hcontent Hparse.
    pose proof (StubFacts.implemented_funcs_of_stubs tree Hstubs) as Himpl.
    rewrite Himpl. repeat split.
    unfold Python.validate. cbv zeta.
    unfold Stubs.deploy_py in *. rewrite Hcontent, Hparse, Himpl.
    cbn [negb]. eexists. split; [reflexivity |].
    cbn [name points_awarded passed Python.rollback_pt Python.health_pt
         Python.funcs_named filter Python.nonempty Tally.bool_pt].
    repeat split; [lia |].
    destruct (Python.argparse_ok _ _); reflexivity.
  - intros Hparse.
    unfold Shell.validate. cbv zeta.
    unfold Stubs.camera_py in Hparse. rewrite Hparse.
    rewrite (StubFacts.func_bodies_of_stubs tree Hstubs).
    replace (if PyStr.truthy (Fs._read_file root ["network"; "camera_discovery.py"])
             then @nil (bool * string) else [])
      with (@nil (bool * string)) by (destruct (PyStr.truthy _); reflexivity).
    rewrite <- app_assoc.
    rewrite nth_error_app1 by (rewrite !length_app; cbn [List.length]; lia).
    apply Degradation.nth_error_snoc. reflexivity.
Qed.

Lemma stub_routines_count_as_not_implemented_witness :
  Python.implemented_funcs Sample.stub_tree = []
  /\ Python.validate Sample.world Sample.stub_submission false
     = [{| name := "deploy.py: valid Python, argparse, rollback, healthcheck";
           max_points := 4; points_awarded := 1; passed := false;
           details := "Found: valid syntax" |}]
  /\ nth_error (Shell.validate Sample.world Sample.stub_submission false) 5
     = Some {| name := "camera_discovery.py: XML parsing, JSON output, timeout";
               max_points := 3; points_awarded := 0; passed := false;
               details := "Skeleton not implemented" |}.
Proof.
  assert (Hstubs : Stubs.all_stubs Sample.stub_tree).
  { intros fname body Hin. simpl in Hin.
    destruct Hin as [H|[H|[H|[H|[H|[]]]]]]; try discriminate H;
      injection H as <- <-; reflexivity. }
  destruct (stub_routines_count_as_not_implemented
              Sample.world Sample.stub_submission Sample.stub_tree Hstubs)
    as [Hdeploy Hcamera].
  destruct Hdeploy as (Himpl & _ & _ & _); [vm_compute; reflexivity .. |].
  split; [exact Himpl |]. split; [vm_compute; reflexivity |].
  apply Hcamera. vm_compute. reflexivity.
Defined.

(** ** The SSH check of the Terraform validator *)

Module TerraformFacts.

Import TerraformDir.







End TerraformFacts.

(** ** Ingress blocks *)

Module IngressFacts.

Import Ingress.

(** *** Texts *)










(** *** White space and braces *)








(** *** The match of the pattern at the start of a text *)







(** *** [re.findall] *)




(** *** The files that the Check reads *)




End IngressFacts.

Module QuickTerraform.

Import TerraformDir.



End QuickTerraform.




(** ** The empty submission *)

Module EmptyFacts.

Import Empty.

Lemma read_in_missing_dir (root : Fs.node) (d fname : string) :
  Fs.isdir root [d] = false -> Fs._read_file root [d; fname] = EmptyString.
Proof.
  unfold Fs.isdir, Fs._read_file. cbn [Fs.resolve].
  destruct (Fs.child root d) as [[content|entries]|]; try reflexivity.
  discriminate.
Qed.

Lemma count_on_empty (w : World) (group list_name text : string) :
  keywords_need_text w ->
  text = EmptyString ->
  Regex.count_matches (keywords w group list_name) text = 0%Z.
Proof.
  intros Hkw ->. unfold Regex.count_matches.
  specialize (Hkw group list_name).
  induction (keywords w group list_name) as [|kw kws IH]; [reflexivity |].
  cbn [filter]. rewrite (Hkw kw) by (left; reflexivity).
  apply IH. intros kw' Hin. apply Hkw. right. exact Hin.
Qed.

Section Missing.

Variable w : World.
Variable root : Fs.node.
Hypothesis Hkw : keywords_need_text w.
Hypothesis Hlacks : lacks read_dirs root.

Lemma missing (d : string) : In d read_dirs -> Fs.isdir root [d] = false.
Proof.
  destruct Hlacks as [_ H]. rewrite Forall_forall in H. apply H.
Qed.

Lemma read_nothing (d fname : string) :
  In d read_dirs -> Fs._read_file root [d; fname] = EmptyString.
Proof. intros Hd. apply read_in_missing_dir, missing, Hd. Qed.

Ltac in_dirs := unfold read_dirs; cbn [In]; tauto.

Lemma terraform_missing (quick : bool) :
  Terraform.validate w root quick = [TerraformDir.missing_check].
Proof.
  unfold Terraform.validate, Terraform.tf_dir.
  rewrite (missing "terraform") by in_dirs. reflexivity.
Qed.

Lemma kubernetes_missing (quick : bool) :
  Kubernetes.validate w root quick = Ok [k8s_missing_check].
Proof.
  unfold Kubernetes.validate, Kubernetes.k8s_dir.
  rewrite (missing "k8s") by in_dirs. reflexivity.
Qed.

Lemma python_missing (quick : bool) :
  Python.validate w root quick = [deploy_missing_check].
Proof.
  unfold Python.validate.
  rewrite (read_nothing "cicd") by in_dirs. reflexivity.
Qed.

Lemma shell_missing :
  map outcome (Shell.validate w root false)
  = [(0, false); (0, false); (0, false); (0, false); (0, false); (0, false);
     (0, false); (0, false)]%Z.
Proof.
  unfold Shell.validate, Shell.shellcheck_check, Shell.collect_sh_files.
  cbn [flat_map]. rewrite (missing "network"), (missing "edge") by in_dirs.
  rewrite !(read_nothing "network"), !(read_nothing "edge") by in_dirs.
  cbv zeta.
  rewrite !(count_on_empty w _ _ _ Hkw) by reflexivity.
  vm_compute. reflexivity.
Qed.

Lemma pipeline_missing :
  map outcome (Pipeline.validate w root false)
  = [(0, false); (0, false); (0, false); (0, false); (0, false)]%Z.
Proof.
  unfold Pipeline.validate, Pipeline.cicd_dir. cbn [app].
  rewrite !(read_nothing "cicd") by in_dirs.
  cbv zeta.
  rewrite !(count_on_empty w _ _ _ Hkw) by reflexivity.
  vm_compute. reflexivity.
Qed.

Lemma document_missing :
  map outcome (Document.validate w root false)
  = [(0, false); (0, false); (0, false); (0, false); (0, false); (0, false)]%Z.
Proof.
  unfold Document.validate, Document.debug_dir, Document._count_keyword_matches.
  cbn [app].
  rewrite !(read_nothing "debug") by in_dirs.
  cbv zeta.
  rewrite !(count_on_empty w _ _ _ Hkw) by reflexivity.
  vm_compute. reflexivity.
Qed.

End Missing.

Lemma failed_of_outcome (cs : list Check) (n : nat) :
  map outcome cs = repeat (0%Z, false) n ->
  Forall failed cs /\ Scoring.compute_module_score cs = 0%Z /\ List.length cs = n.
Proof.
  revert n. induction cs as [|c cs IH]; intros [|n] H; simpl in H; try discriminate.
  - repeat split. constructor.
  - unfold outcome at 1 in H. injection H as Hp Hb Hcs.
    destruct (IH n Hcs) as (HF & Hs & Hl).
    repeat split.
    + constructor; [split; assumption | assumption].
    + simpl. rewrite Hp. exact Hs.
    + simpl. now rewrite Hl.
Qed.

Lemma nonempty_of_length {A : Type} (l : list A) (n : nat) :
  List.length l = S n -> l <> [].
Proof. intros H ->. discriminate H. Qed.

End EmptyFacts.

Module EvaluateFacts.

(** The result of a run of all modules, from the Checks of the validators. *)
Lemma evaluate_all (w : World) (root : Fs.node) (quick : bool) :
  Fs.isdir root [] = true ->
  let run module_name := Evaluate.run_module w module_name root quick in
  let total :=
    (0 + Scoring.compute_module_score (run "terraform")
     + Scoring.compute_module_score (run "k8s")
     + Scoring.compute_module_score (run "network")
     + Scoring.compute_module_score (run "cicd")
     + Scoring.compute_module_score (run "debug"))%Z in
  Evaluate.evaluate w root None quick
  = Some {| Scoring.total_score := total;
            Scoring.max_score_total := 100;
            Scoring.band := Scoring.score_to_band total;
            Scoring.modules :=
              [Engine.entry "terraform" 25 (run "terraform");
               Engine.entry "k8s" 25 (run "k8s");
               Engine.entry "network" 20 (run "network");
               Engine.entry "cicd" 15 (run "cicd");
               Engine.entry "debug" 15 (run "debug")] |}.
Proof.
  intros Hdir. unfold Evaluate.evaluate. rewrite Hdir. reflexivity.
Qed.

Lemma run_terraform (w : World) (root : Fs.node) (quick : bool) :
  Evaluate.run_module w "terraform" root quick = Terraform.validate w root quick.
Proof. reflexivity. Qed.

Lemma run_k8s (w : World) (root : Fs.node) (quick : bool) :
  Evaluate.run_module w "k8s" root quick
  = match Kubernetes.validate w root quick with
    | Ok cs => cs
    | Raise e => [Evaluate.error_check Evaluate.kubernetes_validator e]
    end.
Proof.
  unfold Evaluate.run_module.
  change (PyDict.get "k8s" Evaluate.MODULE_VALIDATORS)
    with (Some [Evaluate.kubernetes_validator]).
  cbn [Evaluate.run_validators Evaluate.validate Evaluate.kubernetes_validator].
  destruct (Kubernetes.validate w root quick); reflexivity.
Qed.

Lemma run_network (w : World) (root : Fs.node) (quick : bool) :
  Evaluate.run_module w "network" root quick = Shell.validate w root quick.
Proof. reflexivity. Qed.

Lemma run_cicd (w : World) (root : Fs.node) (quick : bool) :
  Evaluate.run_module w "cicd" root quick
  = (Pipeline.validate w root quick ++ Python.validate w root quick)%list.
Proof. reflexivity. Qed.

Lemma run_debug (w : World) (root : Fs.node) (quick : bool) :
  Evaluate.run_module w "debug" root quick = Document.validate w root quick.
Proof. reflexivity. Qed.

End EvaluateFacts.



(** C2, as stated, fails: a submission without the five module directories
    can hold an [edge/] directory, which the network module reads as well;
    with a provisioning script there the total is 7, not 0. *)
Lemma edge_directory_scores_without_module_directories :
  Empty.lacks Empty.module_dirs Sample.edge_only
  /\ Empty.keywords_need_text Sample.world
  /\ exists r,
       Evaluate.evaluate Sample.world Sample.edge_only None false = Some r
       /\ Scoring.total_score r = 7%Z.
Proof.
  split; [| split].
  - split; [reflexivity | repeat constructor].
  - intros group list_name kw Hin. simpl in Hin.
    destruct Hin as [<-|[<-|[<-|[]]]]; reflexivity.
  - eexists. split; [vm_compute; reflexivity | reflexivity].
Qed.

(** C2, amended. For a submission directory that exists and holds none of
    the directories that the validators read (the five module directories and
    [edge/]), and a keyword configuration without a pattern that matches the
    empty text, the full evaluation of all modules returns a result with
    [total_score = 0], [max_score = 100] and the band No Hire, in which every
    module has Checks, all of them failed with zero points: the failed
    directory Check alone for terraform and k8s, and the failed [deploy.py]
    Check among those of cicd. *)
Theorem empty_submission_scores_zero :
  forall (w : World) (submission_dir : Fs.node),
    Empty.lacks Empty.read_dirs submission_dir ->
    Empty.keywords_need_text w ->
    exists r : Scoring.EvaluationResult,
      Evaluate.evaluate w submission_dir None false = Some r
      /\ Scoring.total_score r = 0%Z
      /\ Scoring.max_score_total r = 100%Z
      /\ Scoring.band r = "No Hire"
      /\ PyDict.keys (Scoring.modules r) = ["terraform"; "k8s"; "network"; "cicd"; "debug"]
      /\ Forall (fun m => Scoring.checks m <> [] /\ Forall Empty.failed (Scoring.checks m))
           (PyDict.values (Scoring.modules r))
      /\ PyDict.get "terraform" (Scoring.modules r)
         = Some {| Scoring.score := 0; Scoring.max := 25;
                   Scoring.checks := [TerraformDir.missing_check] |}
      /\ PyDict.get "k8s" (Scoring.modules r)
         = Some {| Scoring.score := 0; Scoring.max := 25;
                   Scoring.checks := [Empty.k8s_missing_check] |}
      /\ exists m, PyDict.get "cicd" (Scoring.modules r) = Some m
                   /\ In Empty.deploy_missing_check (Scoring.checks m).
Proof.
  intros w root Hlacks Hkw.
  pose proof (EmptyFacts.failed_of_outcome _ 8 (EmptyFacts.shell_missing w root Hkw Hlacks))
    as (Fsh & Ssh & Lsh).
  pose proof (EmptyFacts.failed_of_outcome _ 5 (EmptyFacts.pipeline_missing w root Hkw Hlacks))
    as (Fpi & Spi & Lpi).
  pose proof (EmptyFacts.failed_of_outcome _ 6 (EmptyFacts.document_missing w root Hkw Hlacks))
    as (Fdo & Sdo & Ldo).
  assert (Scicd : Scoring.compute_module_score
                    (Pipeline.validate w root false ++ Python.validate w root false) = 0%Z).
  { rewrite (EmptyFacts.python_missing w root Hlacks).
    unfold Scoring.compute_module_score in *. rewrite fold_right_app.
    simpl fold_right at 2. exact Spi. }
  eexists. split; [apply EvaluateFacts.evaluate_all; apply Hlacks |].
  cbv beta zeta. unfold Engine.entry.
  rewrite EvaluateFacts.run_terraform, EvaluateFacts.run_k8s, EvaluateFacts.run_network,
    EvaluateFacts.run_cicd, EvaluateFacts.run_debug.
  rewrite (EmptyFacts.terraform_missing w root Hlacks).
  rewrite (EmptyFacts.kubernetes_missing w root Hlacks).
  cbn [Scoring.total_score Scoring.max_score_total Scoring.band Scoring.modules].
  rewrite Ssh, Scicd, Sdo.
  repeat split.
  - assert (Hone : forall c : Check, Empty.failed c -> Forall Empty.failed [c])
      by (intros c Hc; constructor; [exact Hc | constructor]).
    cbn [PyDict.values map snd].
    apply Forall_cons; [cbn [Scoring.checks]; split |].
    { discriminate. }
    { apply Hone. split; reflexivity. }
    apply Forall_cons; [cbn [Scoring.checks]; split |].
    { discriminate. }
    { apply Hone. split; reflexivity. }
    apply Forall_cons; [cbn [Scoring.checks]; split |].
    { apply (EmptyFacts.nonempty_of_length _ _ Lsh). }
    { exact Fsh. }
    apply Forall_cons; [cbn [Scoring.checks]; split |].
    { intros Happ. apply app_eq_nil in Happ as [Happ _].
      apply (EmptyFacts.nonempty_of_length _ _ Lpi Happ). }
    { apply Forall_app. split; [exact Fpi |].
      rewrite (EmptyFacts.python_missing w root Hlacks).
      apply Hone. split; reflexivity. }
    apply Forall_cons; [cbn [Scoring.checks]; split |].
    { apply (EmptyFacts.nonempty_of_length _ _ Ldo). }
    { exact Fdo. }
    apply Forall_nil.
  - eexists. split; [reflexivity |].
    cbn [Scoring.checks]. apply in_or_app. right.
    rewrite (EmptyFacts.python_missing w root Hlacks). left. reflexivity.
Qed.

Lemma empty_submission_scores_zero_witness :
  exists r : Scoring.EvaluationResult,
    Evaluate.evaluate Sample.world Sample.empty_submission None false = Some r
    /\ Scoring.total_score r = 0%Z
    /\ Scoring.max_score_total r = 100%Z
    /\ Scoring.band r = "No Hire".
Proof.
  destruct (empty_submission_scores_zero Sample.world Sample.empty_submission)
    as (r & Hr & Ht & Hm & Hb & _).
  - split; [reflexivity | repeat constructor].
  - intros group list_name kw Hin. simpl in Hin.
    destruct Hin as [<-|[<-|[<-|[]]]]; reflexivity.
  - exists r. repeat split; assumption.
Defined.

(** * Further properties of the code *)

(** ** [scoring.py] *)

(** X1. [score_to_band] is monotone: a higher score never gets a lower band,
    and the band is one of the four bands of the source. *)
Theorem score_to_band_monotone :
  forall a b : Z,
    (a <= b)%Z ->
    Bands.rank (Scoring.score_to_band a) <= Bands.rank (Scoring.score_to_band b)
    /\ In (Scoring.score_to_band a) Bands.all_bands.
Proof.
  intros a b Hab. unfold Scoring.score_to_band.
  destruct (Z.leb_spec 80 a); destruct (Z.leb_spec 65 a); destruct (Z.leb_spec 50 a);
    destruct (Z.leb_spec 80 b); destruct (Z.leb_spec 65 b); destruct (Z.leb_spec 50 b);
    try lia; (split; [cbv; lia | cbv; tauto]).
Qed.

Lemma score_to_band_monotone_witness :
  Bands.rank (Scoring.score_to_band 64) <= Bands.rank (Scoring.score_to_band 65)
  /\ In (Scoring.score_to_band 64) Bands.all_bands.
Proof. apply (score_to_band_monotone 64 65). lia. Defined.

(** ** [evaluate.py] *)

Module RunFacts.

Lemma valid_modules_cases (m : string) :
  In m Evaluate.VALID_MODULES ->
  m = "terraform" \/ m = "k8s" \/ m = "network" \/ m = "cicd" \/ m = "debug".
Proof.
  cbv [Evaluate.VALID_MODULES PyDict.keys Evaluate.MODULE_VALIDATORS map fst In].
  intuition auto.
Qed.

Lemma unknown_module (m : string) :
  ~ In m Evaluate.VALID_MODULES -> PyDict.mem m Evaluate.MODULE_VALIDATORS = false.
Proof.
  cbv [Evaluate.VALID_MODULES PyDict.keys Evaluate.MODULE_VALIDATORS map fst In].
  intros H. unfold PyDict.mem, PyDict.get. cbn [Fs.assoc].
  repeat match goal with
         | |- context [String.eqb m ?k] =>
             destruct (String.eqb_spec m k); [exfalso; apply H; subst; tauto |]
         end.
  reflexivity.
Qed.

End RunFacts.

(** X3. Requesting one module gives that module the Checks it gets when all
    modules are requested; the other modules are reported all the same, as
    not run: no Checks, score zero, their configured maximum. *)
Theorem evaluate_single_module :
  forall (w : World) (submission_dir : Fs.node) (quick : bool) (m : string),
    Fs.isdir submission_dir [] = true ->
    In m Evaluate.VALID_MODULES ->
    exists one all : Scoring.EvaluationResult,
      Evaluate.evaluate w submission_dir (Some m) quick = Some one
      /\ Evaluate.evaluate w submission_dir None quick = Some all
      /\ PyDict.get m (Scoring.modules one) = PyDict.get m (Scoring.modules all)
      /\ PyDict.keys (Scoring.modules one) = PyDict.keys (Scoring.modules all)
      /\ forall other : string,
           In other Evaluate.VALID_MODULES -> other <> m ->
           PyDict.get other (Scoring.modules one) = Some (Bands.not_run other).
Proof.
  intros w root quick m Hdir Hm.
  unfold Evaluate.evaluate. rewrite Hdir. cbn [negb].
  do 2 eexists. split; [reflexivity |]. split; [reflexivity |].
  apply RunFacts.valid_modules_cases in Hm.
  destruct Hm as [->|[->|[->|[->| ->]]]];
    (split; [reflexivity |]; split; [reflexivity |];
     intros other Hother Hne;
     apply RunFacts.valid_modules_cases in Hother;
     destruct Hother as [->|[->|[->|[->| ->]]]];
     try reflexivity; contradiction).
Qed.

Lemma evaluate_single_module_witness :
  exists one all : Scoring.EvaluationResult,
    Evaluate.evaluate Sample.world Sample.deploy_submission (Some "cicd") false = Some one
    /\ Evaluate.evaluate Sample.world Sample.deploy_submission None false = Some all
    /\ PyDict.get "cicd" (Scoring.modules one) = PyDict.get "cicd" (Scoring.modules all)
    /\ PyDict.get "debug" (Scoring.modules one) = Some (Bands.not_run "debug").
Proof.
  destruct (evaluate_single_module Sample.world Sample.deploy_submission false "cicd")
    as (one & all & H1 & H2 & H3 & _ & H5).
  - reflexivity.
  - cbv [Evaluate.VALID_MODULES PyDict.keys Evaluate.MODULE_VALIDATORS map fst In]. tauto.
  - exists one, all. repeat split; try assumption.
    apply H5; [| discriminate].
    cbv [Evaluate.VALID_MODULES PyDict.keys Evaluate.MODULE_VALIDATORS map fst In]. tauto.
Defined.

(** X4. A module name that is not known is skipped, not an error: the result
    lists the five modules as not run, with total 0 of 100 and the band No
    Hire.  The empty name requests all modules. *)
Theorem evaluate_unknown_module :
  forall (w : World) (submission_dir : Fs.node) (quick : bool) (m : string),
    Fs.isdir submission_dir [] = true ->
    PyStr.truthy m = true ->
    ~ In m Evaluate.VALID_MODULES ->
    Evaluate.evaluate w submission_dir (Some m) quick
    = Some {| Scoring.total_score := 0;
              Scoring.max_score_total := 100;
              Scoring.band := "No Hire";
              Scoring.modules :=
                map (fun n => (n, Bands.not_run n)) Evaluate.VALID_MODULES |}
    /\ Evaluate.evaluate w submission_dir (Some EmptyString) quick
       = Evaluate.evaluate w submission_dir None quick.
Proof.
  intros w root quick m Hdir Hm Hunknown.
  split; [| reflexivity].
  unfold Evaluate.evaluate. rewrite Hdir. cbn [negb].
  unfold Evaluate.collect_results. rewrite Hm.
  cbn [fold_left]. rewrite (RunFacts.unknown_module m Hunknown).
  reflexivity.
Qed.

Lemma evaluate_unknown_module_witness :
  Evaluate.evaluate Sample.world Sample.deploy_submission (Some "security") true
  = Some {| Scoring.total_score := 0;
            Scoring.max_score_total := 100;
            Scoring.band := "No Hire";
            Scoring.modules := map (fun n => (n, Bands.not_run n)) Evaluate.VALID_MODULES |}.
Proof.
  apply (evaluate_unknown_module Sample.world Sample.deploy_submission true "security").
  - reflexivity.
  - reflexivity.
  - cbv [Evaluate.VALID_MODULES PyDict.keys Evaluate.MODULE_VALIDATORS map fst In].
    intros H. repeat (destruct H as [H|H]; [discriminate H |]). exact H.
Defined.

(** ** The schedule of Checks *)

Module Schedule.

Open Scope Z_scope.

Lemma terraform_ceilings (w : World) (root : Fs.node) :
  Fs.isdir root Terraform.tf_dir = true ->
  map max_points (Terraform.validate w root false) = [5; 5; 4; 2; 2; 4; 3].
Proof.
  intros Hdir. unfold Terraform.validate. rewrite Hdir. cbn [negb].
  set (first := if negb (hcl2_available w) then _ else _).
  assert (H1 : map max_points (fst first) = [5]).
  { subst first. destruct (negb (hcl2_available w)); [reflexivity |].
    destruct (Terraform.parse_all _ _ _) as [pe ap]. destruct pe; reflexivity. }
  destruct first as [checks all_parsed]. cbn [fst] in H1. cbv zeta.
  rewrite !map_app, H1. reflexivity.
Qed.

Lemma kubernetes_ceilings (w : World) (root : Fs.node) (cs : list Check) :
  Fs.isdir root Kubernetes.k8s_dir = true ->
  Kubernetes.validate w root false = Ok cs ->
  map max_points cs = [3; 1; 1; 1; 1; 1; 2; 1; 1; 4; 4; 4; 1].
Proof.
  intros Hdir. unfold Kubernetes.validate. rewrite Hdir. cbn [negb].
  destruct (Kubernetes.load_all w root) as [[parse_errors yaml_files]|e]; [| discriminate].
  cbn [bind]. cbv zeta. unfold bind.
  destruct (Block.run (Kubernetes.scan_resources _) _); [| discriminate].
  destruct (Block.run (Kubernetes.scan_probes _) _) as [[? ?]|]; [| discriminate].
  destruct (Block.run (Kubernetes.scan_hpa _) _); [| discriminate].
  destruct (Block.run (Kubernetes.scan_anti_affinity _) _); [| discriminate].
  destruct (Block.run (Kubernetes.scan_netpol _) _); [| discriminate].
  destruct (Block.run (Kubernetes.scan_security _) _) as [[? ?]|]; [| discriminate].
  destruct (Block.run (Kubernetes.scan_images _) _) as [[? ?]|]; [| discriminate].
  destruct (Block.run (Kubernetes.scan_configmap_ref _) _); [| discriminate].
  intros [= <-]. rewrite !map_app. cbn [map].
  destruct (Bounds.incident_check_ok w root 1) as [_ ->].
  destruct (Bounds.incident_check_ok w root 2) as [_ ->].
  destruct (Bounds.incident_check_ok w root 3) as [_ ->].
  destruct parse_errors; reflexivity.
Qed.

Lemma shell_ceilings (w : World) (root : Fs.node) :
  map max_points (Shell.validate w root false) = [2; 1; 3; 3; 5; 3; 2; 1].
Proof.
  unfold Shell.validate. cbv zeta. rewrite !map_app. cbn [map].
  replace (max_points (Shell.shellcheck_check w root (Shell.collect_sh_files root)))
    with 2; [reflexivity |].
  unfold Shell.shellcheck_check. cbv zeta.
  destruct (_ =? 0); [reflexivity |]. destruct (map fst _); reflexivity.
Qed.

Lemma pipeline_ceilings (w : World) (root : Fs.node) :
  map max_points (Pipeline.validate w root false) = [1; 3; 3; 1; 3].
Proof.
  unfold Pipeline.validate. cbv zeta. rewrite !map_app.
  destruct (negb _); [reflexivity |].
  destruct (negb _); [reflexivity |].
  destruct (yaml_safe_load w _); reflexivity.
Qed.

Lemma python_ceilings (w : World) (root : Fs.node) :
  map max_points (Python.validate w root false) = [4].
Proof.
  unfold Python.validate. cbv zeta.
  destruct (negb _); [reflexivity |].
  destruct (ast_parse w _); reflexivity.
Qed.

Lemma document_ceilings (w : World) (root : Fs.node) :
  map max_points (Document.validate w root false) = [3; 3; 1; 3; 2; 3].
Proof. unfold Document.validate. cbv zeta. rewrite !map_app. reflexivity. Qed.

Lemma max_sum_of_ceilings (cs : list Check) :
  Spec.max_sum cs = fold_right Z.add 0 (map max_points cs).
Proof.
  unfold Spec.max_sum. induction cs as [|c cs IH]; simpl; [reflexivity | now rewrite IH].
Qed.

End Schedule.

(** X5. In full mode the ceilings of the Checks are fixed: every validator
    returns the same [max_points], in the same order, for every submission
    (the Terraform and Kubernetes validators when their directory exists),
    and the ceilings of the Checks of each module add up to the maximum that
    [MODULE_CONFIG] gives the module. *)
Theorem full_mode_ceilings_match_module_config :
  forall (w : World) (submission_dir : Fs.node),
    (Fs.isdir submission_dir Terraform.tf_dir = true ->
     map max_points (Terraform.validate w submission_dir false) = [5; 5; 4; 2; 2; 4; 3]%Z
     /\ Spec.max_sum (Evaluate.run_module w "terraform" submission_dir false)
        = Engine.module_max "terraform")
    /\ (forall cs : list Check,
          Fs.isdir submission_dir Kubernetes.k8s_dir = true ->
          Kubernetes.validate w submission_dir false = Ok cs ->
          map max_points cs = [3; 1; 1; 1; 1; 1; 2; 1; 1; 4; 4; 4; 1]%Z
          /\ Spec.max_sum (Evaluate.run_module w "k8s" submission_dir false)
             = Engine.module_max "k8s")
    /\ (map max_points (Shell.validate w submission_dir false) = [2; 1; 3; 3; 5; 3; 2; 1]%Z
        /\ Spec.max_sum (Evaluate.run_module w "network" submission_dir false)
           = Engine.module_max "network")
    /\ (map max_points (Pipeline.validate w submission_dir false) = [1; 3; 3; 1; 3]%Z
        /\ map max_points (Python.validate w submission_dir false) = [4]%Z
        /\ Spec.max_sum (Evaluate.run_module w "cicd" submission_dir false)
           = Engine.module_max "cicd")
    /\ (map max_points (Document.validate w submission_dir false) = [3; 3; 1; 3; 2; 3]%Z
        /\ Spec.max_sum (Evaluate.run_module w "debug" submission_dir false)
           = Engine.module_max "debug").
Proof.
  intros w root. split; [| split; [| split; [| split]]].
  - intros Hdir. split; [apply Schedule.terraform_ceilings, Hdir |].
    rewrite EvaluateFacts.run_terraform, Schedule.max_sum_of_ceilings,
      (Schedule.terraform_ceilings w root Hdir). reflexivity.
  - intros cs Hdir Hok. split; [apply (Schedule.kubernetes_ceilings w root cs Hdir Hok) |].
    rewrite EvaluateFacts.run_k8s, Hok, Schedule.max_sum_of_ceilings,
      (Schedule.kubernetes_ceilings w root cs Hdir Hok). reflexivity.
  - split; [apply Schedule.shell_ceilings |].
    rewrite EvaluateFacts.run_network, Schedule.max_sum_of_ceilings,
      Schedule.shell_ceilings. reflexivity.
  - split; [apply Schedule.pipeline_ceilings |].
    split; [apply Schedule.python_ceilings |].
    rewrite EvaluateFacts.run_cicd, Schedule.max_sum_of_ceilings, map_app,
      Schedule.pipeline_ceilings, Schedule.python_ceilings. reflexivity.
  - split; [apply Schedule.document_ceilings |].
    rewrite EvaluateFacts.run_debug, Schedule.max_sum_of_ceilings,
      Schedule.document_ceilings. reflexivity.
Qed.

Lemma full_mode_ceilings_match_module_config_witness :
  map max_points (Terraform.validate Sample.world Sample.bare_terraform false)
  = [5; 5; 4; 2; 2; 4; 3]%Z
  /\ Spec.max_sum (Evaluate.run_module Sample.world "terraform" Sample.bare_terraform false)
     = Engine.module_max "terraform".
Proof.
  destruct (full_mode_ceilings_match_module_config Sample.world Sample.bare_terraform)
    as [H _].
  apply H. reflexivity.
Defined.

(** ** The loops of the Kubernetes validator *)

Module KubeFacts.

Import Shape Loops.

Lemma get_of_dict (v : Yaml.value) (key : string) (default : Yaml.value) :
  Yaml.is_dict v = true -> Yaml.get v key default = Ok (field v key default).
Proof.
  destruct v; try discriminate. intros _. unfold field. simpl.
  destruct (Fs.assoc key fields); reflexivity.
Qed.

Lemma dict_at_get (v : Yaml.value) (key : string) :
  dict_at v key = true ->
  Yaml.is_dict v = true /\ Yaml.is_dict (field v key Yaml.empty_dict) = true.
Proof. unfold dict_at. intros H. apply andb_true_iff in H. exact H. Qed.

(** A loop whose body never raises ends with the state that the bodies
    build. *)
Lemma for_each_fold {S A : Type} (step : A -> S -> S) (body : A -> block S unit)
    (xs : list A) :
  (forall x, In x xs -> forall s, body x s = (step x s, Ok tt)) ->
  forall s, Block.for_each xs body s = (fold_left (fun s x => step x s) xs s, Ok tt).
Proof.
  induction xs as [|x xs IH]; intros Hbody s; [reflexivity |].
  cbn [Block.for_each fold_left]. unfold Block.bind.
  rewrite (Hbody x (or_introl eq_refl)).
  apply IH. intros y Hy. apply Hbody. right. exact Hy.
Qed.

Lemma run_of_state {S : Type} (m : block S unit) (s s' : S) :
  m s = (s', Ok tt) -> Block.run m s = Ok s'.
Proof. unfold Block.run. now intros ->. Qed.

Lemma resources_body_safe (c : Yaml.value) (s : bool) :
  safe_container c = true ->
  resources_body c s
  = if has_requests_and_limits c then (true, Ok true) else (s, Ok false).
Proof.
  unfold safe_container. intros H. apply andb_true_iff in H as [H _].
  apply dict_at_get in H as [Hc Hres].
  unfold resources_body, has_requests_and_limits, Block.bind, Block.lift.
  rewrite (get_of_dict c _ _ Hc).
  rewrite (get_of_dict _ "requests" Yaml.YNull Hres).
  destruct (Yaml.truthy (field _ "requests" _)); [| reflexivity].
  rewrite (get_of_dict _ "limits" Yaml.YNull Hres).
  destruct (Yaml.truthy (field _ "limits" _)); reflexivity.
Qed.

Lemma resources_loop (cs : list Yaml.value) :
  Forall (fun c => safe_container c = true) cs ->
  forall s : bool,
    Block.for_each_until cs resources_body s
    = (s || existsb has_requests_and_limits cs, Ok tt).
Proof.
  induction 1 as [|c cs Hc _ IH]; intros s.
  - cbn. now rewrite orb_false_r.
  - cbn [Block.for_each_until existsb]. unfold Block.bind.
    rewrite (resources_body_safe c s Hc).
    destruct (has_requests_and_limits c).
    + cbn. now rewrite orb_true_r.
    + rewrite IH. reflexivity.
Qed.

Lemma scan_resources_safe (docs : list Yaml.value) :
  Forall (fun c => safe_container c = true) (flat_map Kubernetes._find_container_spec docs) ->
  forall s : bool,
    Kubernetes.scan_resources docs s
    = (s || existsb has_requests_and_limits
              (flat_map Kubernetes._find_container_spec docs), Ok tt).
Proof.
  unfold Kubernetes.scan_resources. fold resources_body.
  induction docs as [|doc docs IH]; intros Hall s.
  - cbn. now rewrite orb_false_r.
  - cbn [flat_map] in *. apply Forall_app in Hall as [Hdoc Hrest].
    cbn [Block.for_each]. unfold Block.bind at 1.
    rewrite (resources_loop _ Hdoc). rewrite (IH Hrest).
    now rewrite existsb_app, orb_assoc.
Qed.

Lemma for_each_ok {S A : Type} (body : A -> block S unit) (xs : list A) :
  (forall x, In x xs -> forall s, snd (body x s) = Ok tt) ->
  forall s, snd (Block.for_each xs body s) = Ok tt.
Proof.
  induction xs as [|x xs IH]; intros Hbody s; [reflexivity |].
  cbn [Block.for_each]. unfold Block.bind.
  pose proof (Hbody x (or_introl eq_refl) s) as Hx.
  destruct (body x s) as [s' [[]|e]]; [| discriminate Hx].
  apply IH. intros y Hy. apply Hbody. right. exact Hy.
Qed.

Lemma run_ok {S : Type} (m : block S unit) (s : S) :
  snd (m s) = Ok tt -> Block.run m s = Ok (fst (m s)).
Proof. unfold Block.run. destruct (m s) as [s' [[]|e]]; [reflexivity | discriminate]. Qed.

Lemma try_pass_ok {S : Type} (m : block S unit) (s : S) :
  snd (Block.try_pass m s) = Ok tt.
Proof. reflexivity. Qed.

Lemma safe_doc_parts (doc : Yaml.value) :
  safe_doc doc = true ->
  Forall (fun c => safe_container c = true) (Kubernetes._find_container_spec doc)
  /\ (Kubernetes.kind_is doc "HorizontalPodAutoscaler" = true -> dict_at doc "spec" = true)
  /\ (Kubernetes.kind_is doc "NetworkPolicy" = true ->
      dict_at doc "spec" = true
      /\ iterable (field (field doc "spec" Yaml.empty_dict) "policyTypes" Yaml.empty_list)
         = true).
Proof.
  unfold safe_doc. intros H.
  apply andb_true_iff in H as [H Hnet]. apply andb_true_iff in H as [Hcs Hhpa].
  split; [apply Forall_forall; apply forallb_forall; exact Hcs |].
  split.
  - intros Hk. now rewrite Hk in Hhpa.
  - intros Hk. rewrite Hk in Hnet. now apply andb_true_iff in Hnet.
Qed.

Lemma containers_of_docs (docs : list Yaml.value) :
  Forall (fun d => safe_doc d = true) docs ->
  Forall (fun c => safe_container c = true) (flat_map Kubernetes._find_container_spec docs).
Proof.
  induction 1 as [|d docs Hd _ IH]; [constructor |].
  cbn [flat_map]. apply Forall_app. split; [| exact IH].
  apply (safe_doc_parts d Hd).
Qed.

Lemma scan_probes_safe (docs : list Yaml.value) :
  Forall (fun c => safe_container c = true) (flat_map Kubernetes._find_container_spec docs) ->
  forall s : bool * bool,
    Kubernetes.scan_probes docs s
    = ((fst s || existsb has_liveness (flat_map Kubernetes._find_container_spec docs),
        snd s || existsb has_readiness (flat_map Kubernetes._find_container_spec docs)),
       Ok tt).
Proof.
  unfold Kubernetes.scan_probes.
  induction docs as [|doc docs IH]; intros Hall [l r].
  - cbn; now rewrite ?orb_false_r.
  - cbn [flat_map] in *. apply Forall_app in Hall as [Hdoc Hrest].
    cbn [Block.for_each]. unfold Block.bind at 1.
    rewrite (for_each_fold
               (fun c (s : bool * bool) =>
                  (fst s || has_liveness c, snd s || has_readiness c))).
    + rewrite (IH Hrest). cbn [fst snd]. rewrite !existsb_app.
      clear IH Hdoc Hrest.
      generalize (Kubernetes._find_container_spec doc). intros cs.
      revert l r. induction cs as [|c cs IHcs]; intros l r; cbn [fold_left existsb fst snd].
      * cbn [orb]. now rewrite ?orb_false_r.
      * rewrite IHcs. cbn [fst snd]. now rewrite !orb_assoc.
    + intros c Hc [l' r']. rewrite Forall_forall in Hdoc.
      pose proof (Hdoc c Hc) as Hsafe. unfold safe_container in Hsafe.
      apply andb_true_iff in Hsafe as [Hd _]. apply dict_at_get in Hd as [Hd _].
      unfold Block.bind, Block.lift, Kubernetes.set_if, Block.when, Block.modify, Block.ret,
        has_liveness, has_readiness.
      rewrite !(get_of_dict c _ _ Hd). cbn [fst snd].
      destruct (Yaml.truthy (field c "livenessProbe" Yaml.YNull));
        destruct (Yaml.truthy (field c "readinessProbe" Yaml.YNull));
        now rewrite ?orb_true_r, ?orb_false_r.
Qed.

Lemma scan_hpa_ok (docs : list Yaml.value) (s : bool) :
  Forall (fun d => safe_doc d = true) docs ->
  snd (Kubernetes.scan_hpa docs s) = Ok tt.
Proof.
  intros Hall. unfold Kubernetes.scan_hpa. revert s. apply for_each_ok.
  intros doc Hdoc s. rewrite Forall_forall in Hall.
  destruct (safe_doc_parts doc (Hall doc Hdoc)) as (_ & Hhpa & _).
  destruct (Kubernetes.kind_is doc "HorizontalPodAutoscaler"); [| reflexivity].
  destruct (dict_at_get _ _ (Hhpa eq_refl)) as [Hd Hspec].
  unfold Block.bind, Block.lift, Kubernetes.set_if, Block.when, Block.modify, Block.ret.
  rewrite (get_of_dict doc _ _ Hd).
  rewrite (get_of_dict _ "minReplicas" Yaml.YNull Hspec).
  destruct (Yaml.truthy _); [| reflexivity].
  rewrite (get_of_dict _ "maxReplicas" Yaml.YNull Hspec).
  destruct (Yaml.truthy _); reflexivity.
Qed.

Lemma scan_netpol_ok (docs : list Yaml.value) (s : bool) :
  Forall (fun d => safe_doc d = true) docs ->
  snd (Kubernetes.scan_netpol docs s) = Ok tt.
Proof.
  intros Hall. unfold Kubernetes.scan_netpol. revert s. apply for_each_ok.
  intros doc Hdoc s. rewrite Forall_forall in Hall.
  destruct (safe_doc_parts doc (Hall doc Hdoc)) as (_ & _ & Hnet).
  destruct (Kubernetes.kind_is doc "NetworkPolicy"); [| reflexivity].
  destruct (Hnet eq_refl) as [Hspec Hiter].
  destruct (dict_at_get _ _ Hspec) as [Hd Hs].
  unfold Block.bind, Block.lift, Kubernetes.set_if, Block.when, Block.modify, Block.ret.
  rewrite (get_of_dict doc _ _ Hd).
  rewrite (get_of_dict _ "policyTypes" Yaml.empty_list Hs).
  destruct (field (field doc "spec" Yaml.empty_dict) "policyTypes" Yaml.empty_list);
    try discriminate Hiter; cbn [Yaml.str_in];
    match goal with |- context [if ?b then _ else _] => destruct b end; reflexivity.
Qed.

Lemma scan_images_ok (docs : list Yaml.value) (s : bool * bool) :
  Forall (fun d => safe_doc d = true) docs ->
  snd (Kubernetes.scan_images docs s) = Ok tt.
Proof.
  intros Hall. unfold Kubernetes.scan_images. revert s. apply for_each_ok.
  intros doc Hdoc s. rewrite Forall_forall in Hall.
  destruct (safe_doc_parts doc (Hall doc Hdoc)) as (Hcs & _).
  revert s. apply for_each_ok. intros c Hc [latest any].
  rewrite Forall_forall in Hcs. pose proof (Hcs c Hc) as Hsafe.
  unfold safe_container in Hsafe. apply andb_true_iff in Hsafe as [Hd Himg].
  apply dict_at_get in Hd as [Hd _].
  unfold Block.bind, Block.lift, Kubernetes.set_if, Block.when, Block.modify, Block.ret.
  rewrite (get_of_dict c _ _ Hd).
  destruct (field c "image" (Yaml.YStr EmptyString)) as [| | | |img| |];
    try (apply negb_true_iff in Himg; rewrite Himg; reflexivity).
  destruct (Yaml.truthy (Yaml.YStr img)); [| reflexivity].
  cbn [Yaml.endswith Yaml.str_in].
  destruct (PyStr.endswith ":latest" img); [reflexivity |].
  destruct (PyStr.contains ":" img); reflexivity.
Qed.

Lemma scan_anti_affinity_ok (docs : list Yaml.value) (s : bool) :
  snd (Kubernetes.scan_anti_affinity docs s) = Ok tt.
Proof.
  unfold Kubernetes.scan_anti_affinity. revert s. apply for_each_ok.
  intros doc _ s. apply try_pass_ok.
Qed.

Lemma scan_security_ok (docs : list Yaml.value) (s : bool * bool) :
  snd (Kubernetes.scan_security docs s) = Ok tt.
Proof.
  unfold Kubernetes.scan_security. revert s. apply for_each_ok.
  intros doc _ s. apply try_pass_ok.
Qed.

Lemma scan_configmap_ref_ok (docs : list Yaml.value) (s : bool) :
  snd (Kubernetes.scan_configmap_ref docs s) = Ok tt.
Proof.
  unfold Kubernetes.scan_configmap_ref. revert s. apply for_each_ok.
  intros doc _ s. destruct (negb (Yaml.is_dict doc)); [reflexivity | apply try_pass_ok].
Qed.

End KubeFacts.

(** ** Texts that are not blank *)

Module InkFacts.

Import PyStr Ink.

Lemma truthy_lstrip (s : string) : truthy (lstrip s) = has_ink s.
Proof.
  induction s as [|c s IH]; [reflexivity |].
  cbn [lstrip has_ink]. destruct (isspace c); [exact IH | reflexivity].
Qed.

Lemma has_ink_lstrip (s : string) : has_ink (lstrip s) = has_ink s.
Proof.
  induction s as [|c s IH]; [reflexivity |].
  cbn [lstrip]. destruct (isspace c) eqn:Hc; [| reflexivity].
  cbn [has_ink]. now rewrite Hc.
Qed.

Lemma truthy_rstrip (s : string) : truthy (rstrip s) = has_ink s.
Proof.
  induction s as [|c s IH]; [reflexivity |].
  cbn [rstrip has_ink]. unfold truthy in *.
  destruct (isspace c); cbn [andb negb orb].
  - destruct (is_empty (rstrip s)) eqn:He; [rewrite <- IH; reflexivity |].
    rewrite <- IH. reflexivity.
  - reflexivity.
Qed.

(** [s.strip()] is not empty exactly when [s] holds a character that is not
    white space. *)
Lemma truthy_strip (s : string) : truthy (strip s) = has_ink s.
Proof. unfold strip. now rewrite truthy_rstrip, has_ink_lstrip. Qed.

Lemma has_ink_app (a b : string) : has_ink (a ++ b) = has_ink a || has_ink b.
Proof.
  induction a as [|c a IH]; [reflexivity |].
  cbn [String.append has_ink]. now rewrite IH, orb_assoc.
Qed.

Lemma has_ink_join (lines : list string) :
  has_ink (join NL lines) = existsb has_ink lines.
Proof.
  unfold join. induction lines as [|l ls IH]; [reflexivity |].
  cbn [String.concat existsb]. destruct ls as [|l' ls'].
  - cbn [existsb]. now rewrite orb_false_r.
  - rewrite !has_ink_app, IH. reflexivity.
Qed.

Lemma code_line_has_ink (l : string) : is_code_line l = true -> has_ink l = true.
Proof.
  unfold is_code_line. rewrite truthy_strip. intros H.
  apply andb_true_iff in H. apply H.
Qed.

(** The text that is left of the lines of code is not blank exactly when
    there is a line of code. *)
Lemma code_text (lines : list string) :
  truthy (strip (join NL (filter is_code_line lines))) = existsb is_code_line lines.
Proof.
  rewrite truthy_strip, has_ink_join.
  induction lines as [|l ls IH]; [reflexivity |].
  cbn [filter existsb]. destruct (is_code_line l) eqn:Hl.
  - cbn [existsb]. now rewrite (code_line_has_ink l Hl).
  - exact IH.
Qed.

End InkFacts.

(** ** The parse loop of the Kubernetes validator *)

Module LoadFacts.

Import YamlFiles.

Lemma set_not_nil {A : Type} (k : string) (v : A) (d : PyDict.t A) :
  is_nil (PyDict.set k v d) = false.
Proof.
  destruct d as [|[k' v'] d]; [reflexivity |].
  cbn [PyDict.set]. destruct (String.eqb k k'); reflexivity.
Qed.

(** An exception of the parser that is not a [YAMLError] leaves
    [_load_yaml]. *)
Lemma load_yaml_raises (w : World) (root : Fs.node) (fname : string) (e : exn) :
  crash w root fname = Some e ->
  Kubernetes._load_yaml w root (path_of fname) = Raise e.
Proof.
  unfold crash, Kubernetes._load_yaml, Kubernetes.has_code_line, Fs._read_file.
  destruct (Fs.resolve root (path_of fname)) as [[content|entries]|];
    cbv zeta; try discriminate.
  rewrite InkFacts.code_text.
  destruct (existsb PyStr.is_code_line (PyStr.splitlines content)); [| discriminate].
  cbn [negb]. destruct (yaml_safe_load_all w content); try discriminate.
  now intros [= ->].
Qed.

Lemma load_yaml_returns (w : World) (root : Fs.node) (fname : string) :
  crash w root fname = None ->
  exists docs, Kubernetes._load_yaml w root (path_of fname) = Ok docs.
Proof.
  unfold crash, Kubernetes._load_yaml, Kubernetes.has_code_line, Fs._read_file.
  destruct (Fs.resolve root (path_of fname)) as [[content|entries]|];
    cbv zeta; try (intros _; eexists; reflexivity).
  rewrite InkFacts.code_text.
  destruct (existsb PyStr.is_code_line (PyStr.splitlines content));
    [| intros _; eexists; reflexivity].
  cbn [negb]. destruct (yaml_safe_load_all w content); try discriminate;
    intros _; eexists; reflexivity.
Qed.

(** A file without a line of code is never handed to the parser. *)
Lemma skeleton_not_loaded (w : World) (root : Fs.node) (fname : string) :
  skeleton root fname = true ->
  loads w root fname = false /\ crash w root fname = None.
Proof.
  unfold skeleton, loads, crash, Kubernetes._load_yaml, Kubernetes.has_code_line,
    Fs._read_file.
  destruct (Fs.resolve root (path_of fname)) as [[content|entries]|];
    cbv zeta; try (intros _; split; reflexivity).
  rewrite InkFacts.code_text. intros H. apply negb_true_iff in H. rewrite H.
  split; reflexivity.
Qed.

(** The parse loop over any list of names, from any lists built so far: it
    ends with the first exception that leaves [_load_yaml], or with the
    broken files and a dictionary that is empty exactly when no file
    loads. *)
Lemma load_loop (w : World) (root : Fs.node) (names : list string) :
  forall (parse_errors : list string) (yaml_files : PyDict.t (list Yaml.value)),
    match first_crash_of w root (filter is_yaml names) with
    | Some e => Kubernetes.load_files w root names parse_errors yaml_files = Raise e
    | None =>
        exists yaml_files',
          Kubernetes.load_files w root names parse_errors yaml_files
          = Ok ((parse_errors ++ filter (broken w root) (filter is_yaml names))%list,
                yaml_files')
          /\ is_nil yaml_files'
             = is_nil yaml_files && negb (existsb (loads w root) (filter is_yaml names))
    end.
Proof.
  induction names as [|fname names IH]; intros parse_errors yaml_files.
  - cbn. exists yaml_files. now rewrite app_nil_r, andb_true_r.
  - cbn [Kubernetes.load_files filter].
    change (PyStr.endswith ".yaml" fname || PyStr.endswith ".yml" fname)
      with (is_yaml fname).
    change (Kubernetes.k8s_dir ++ [fname])%list with (path_of fname).
    destruct (is_yaml fname); [| apply IH].
    cbv zeta. cbn [filter existsb first_crash_of].
    destruct (crash w root fname) as [e|] eqn:Hcrash.
    { rewrite (load_yaml_raises w root fname e Hcrash). reflexivity. }
    destruct (load_yaml_returns w root fname Hcrash) as [docs Hl].
    assert (Hlo : loads w root fname = match docs with Some _ => true | None => false end)
      by (unfold loads; now rewrite Hl).
    rewrite Hl. cbn [bind]. destruct docs as [docs|].
    + assert (Hb : broken w root fname = false) by (unfold broken; now rewrite Hlo).
      rewrite Hlo, Hb. cbn [orb negb].
      specialize (IH parse_errors (PyDict.set fname docs yaml_files)).
      destruct (first_crash_of w root (filter is_yaml names)); [exact IH |].
      destruct IH as (yf & Hfold & Hnil).
      exists yf. split; [exact Hfold |].
      rewrite Hnil, set_not_nil. now rewrite andb_false_r.
    + rewrite Hlo. cbn [orb].
      destruct (Kubernetes.has_code_line (Fs._read_file root (path_of fname))) eqn:Hc.
      * assert (Hb : broken w root fname = true)
          by (unfold broken, skeleton; now rewrite Hlo, Hc).
        rewrite Hb.
        specialize (IH (parse_errors ++ [fname])%list yaml_files).
        destruct (first_crash_of w root (filter is_yaml names)); [exact IH |].
        destruct IH as (yf & Hfold & Hnil).
        exists yf. split; [| exact Hnil].
        rewrite Hfold. now rewrite <- app_assoc.
      * assert (Hb : broken w root fname = false)
          by (unfold broken, skeleton; now rewrite Hlo, Hc).
        rewrite Hb. apply IH.
Qed.

Lemma load_all_spec (w : World) (root : Fs.node) :
  match first_crash w root with
  | Some e => Kubernetes.load_all w root = Raise e
  | None =>
      exists yaml_files,
        Kubernetes.load_all w root
        = Ok (filter (broken w root) (Shape.yaml_names root), yaml_files)
        /\ is_nil yaml_files = negb (existsb (loads w root) (Shape.yaml_names root))
  end.
Proof.
  unfold Kubernetes.load_all, first_crash, Shape.yaml_names.
  exact (load_loop w root (Fs.listdir root Kubernetes.k8s_dir) [] []).
Qed.

Lemma load_all_returns (w : World) (root : Fs.node) :
  first_crash w root = None ->
  exists loaded, Kubernetes.load_all w root = Ok loaded.
Proof.
  intros Hnone. pose proof (load_all_spec w root) as H. rewrite Hnone in H.
  destruct H as (yaml_files & Hload & _). eexists. exact Hload.
Qed.

Lemma length_positive {A : Type} (l : list A) :
  (0 <? Z.of_nat (List.length l))%Z = negb (is_nil l).
Proof. destruct l; [reflexivity |]. cbn [List.length is_nil negb]. apply Z.ltb_lt. lia. Qed.

End LoadFacts.

Module KubeRun.

Import Shape Containers KubeFacts.

(** The full run on files that load and documents that the checks can read:
    the Checks of the resources and of the probes, and the number of Checks
    that follow. *)
Lemma validate_on_safe_docs (w : World) (root : Fs.node) :
  Fs.isdir root Kubernetes.k8s_dir = true ->
  YamlFiles.first_crash w root = None ->
  Forall (fun doc => safe_doc doc = true) (all_docs w root) ->
  exists c1 rest,
    Kubernetes.validate w root false
    = Ok (c1
          :: _check "Resource requests and limits" 1
               (existsb has_requests_and_limits (all_containers w root)) EmptyString
          :: _check "Liveness and readiness probes" 1
               (existsb has_liveness (all_containers w root)
                && existsb has_readiness (all_containers w root)) EmptyString
          :: rest)
    /\ List.length rest = 10%nat.
Proof.
  intros Hdir Hloads Hsafe. unfold Kubernetes.validate. rewrite Hdir. cbn [negb].
  unfold all_containers, all_docs in *.
  destruct (LoadFacts.load_all_returns w root Hloads) as [[parse_errors yaml_files] Hload].
  rewrite Hload in *. cbn [bind]. cbv zeta.
  set (docs := concat (PyDict.values yaml_files)) in *.
  pose proof (containers_of_docs docs Hsafe) as Hcs.
  rewrite (run_of_state _ _ _ (scan_resources_safe docs Hcs false)).
  rewrite (run_of_state _ _ _ (scan_probes_safe docs Hcs (false, false))).
  cbn [bind fst snd orb].
  rewrite (run_ok _ _ (scan_hpa_ok docs false Hsafe)).
  rewrite (run_ok _ _ (scan_anti_affinity_ok docs false)).
  rewrite (run_ok _ _ (scan_netpol_ok docs false Hsafe)).
  rewrite (run_ok _ _ (scan_security_ok docs (false, false))).
  rewrite (run_ok _ _ (scan_images_ok docs (false, false) Hsafe)).
  rewrite (run_ok _ _ (scan_configmap_ref_ok docs false)).
  cbn [bind].
  destruct (fst (Kubernetes.scan_security docs (false, false))) as [non_root read_only].
  destruct (fst (Kubernetes.scan_images docs (false, false))) as [latest any].
  destruct parse_errors as [|e errors];
    (eexists; eexists; split; [reflexivity | reflexivity]).
Qed.

End KubeRun.

(** ** [validators/kubernetes_validator.py] *)

(** X6. When no YAML file of k8s/ makes the parser raise an exception other
    than a YAMLError, and the loaded documents have the shape that the code
    outside of its try blocks relies on (containers are mappings with a
    mapping under resources and a text or false image, autoscalers and
    network policies have a mapping under spec, policy types can be
    iterated), the full run of the Kubernetes validator raises nothing and
    returns thirteen Checks. *)
Theorem kubernetes_validate_returns_on_well_shaped_documents
    (w : World) (root : Fs.node) :
  Fs.isdir root Kubernetes.k8s_dir = true ->
  YamlFiles.first_crash w root = None ->
  Forall (fun doc => Shape.safe_doc doc = true) (Shape.all_docs w root) ->
  exists cs, Kubernetes.validate w root false = Ok cs /\ List.length cs = 13%nat.
Proof.
  intros Hdir Hloads Hsafe.
  destruct (KubeRun.validate_on_safe_docs w root Hdir Hloads Hsafe)
    as (c1 & rest & Hrun & Hlen).
  eexists. split; [exact Hrun |]. cbn [List.length]. now rewrite Hlen.
Qed.

Lemma kubernetes_validate_returns_on_well_shaped_documents_witness :
  exists cs,
    Kubernetes.validate (KubeSample.world true) (KubeSample.submission true) false = Ok cs
    /\ List.length cs = 13%nat.
Proof.
  apply kubernetes_validate_returns_on_well_shaped_documents.
  - vm_compute. reflexivity.
  - vm_compute. reflexivity.
  - apply Forall_forall. apply forallb_forall. vm_compute. reflexivity.
Defined.

(** X7. On a submission whose YAML files load without an exception of the
    parser that is left uncaught and whose loaded Kubernetes documents are
    well shaped, the Check of the resources is the second Check of the full
    run of the Kubernetes validator; it passes exactly when one container, of
    any document, has requests and limits that both count as true, and it
    then carries its one point. *)
Theorem resources_check_needs_requests_and_limits (w : World) (root : Fs.node) :
  Fs.isdir root Kubernetes.k8s_dir = true ->
  YamlFiles.first_crash w root = None ->
  Forall (fun doc => Shape.safe_doc doc = true) (Shape.all_docs w root) ->
  exists cs c,
    Kubernetes.validate w root false = Ok cs
    /\ nth_error cs 1 = Some c
    /\ name c = "Resource requests and limits"
    /\ (passed c = true <->
        exists container,
          In container (Containers.all_containers w root)
          /\ Shape.has_requests_and_limits container = true)
    /\ points_awarded c = (if passed c then 1 else 0)%Z.
Proof.
  intros Hdir Hloads Hsafe.
  destruct (KubeRun.validate_on_safe_docs w root Hdir Hloads Hsafe)
    as (c1 & rest & Hrun & _).
  eexists. eexists. split; [exact Hrun |]. split; [reflexivity |].
  split; [reflexivity |]. split.
  - cbn [passed _check]. apply existsb_exists.
  - cbn [passed points_awarded _check]. reflexivity.
Qed.

Lemma resources_check_needs_requests_and_limits_witness :
  exists cs c,
    Kubernetes.validate (KubeSample.world false) (KubeSample.submission false) false = Ok cs
    /\ nth_error cs 1 = Some c
    /\ name c = "Resource requests and limits"
    /\ (passed c = true <->
        exists container,
          In container
            (Containers.all_containers (KubeSample.world false) (KubeSample.submission false))
          /\ Shape.has_requests_and_limits container = true)
    /\ points_awarded c = (if passed c then 1 else 0)%Z.
Proof.
  apply resources_check_needs_requests_and_limits.
  - vm_compute. reflexivity.
  - vm_compute. reflexivity.
  - apply Forall_forall. apply forallb_forall. vm_compute. reflexivity.
Defined.

(** X8. On a submission whose YAML files load without an exception of the
    parser that is left uncaught and whose loaded Kubernetes documents are
    well shaped, the Check of the probes is the third Check of the full run
    of the Kubernetes validator; it passes exactly when some container has a
    liveness probe and some container, the same or another one, has a
    readiness probe. *)
Theorem probes_check_joins_all_containers (w : World) (root : Fs.node) :
  Fs.isdir root Kubernetes.k8s_dir = true ->
  YamlFiles.first_crash w root = None ->
  Forall (fun doc => Shape.safe_doc doc = true) (Shape.all_docs w root) ->
  exists cs c,
    Kubernetes.validate w root false = Ok cs
    /\ nth_error cs 2 = Some c
    /\ name c = "Liveness and readiness probes"
    /\ (passed c = true <->
        (exists container,
            In container (Containers.all_containers w root)
            /\ Shape.has_liveness container = true)
        /\ (exists container,
               In container (Containers.all_containers w root)
               /\ Shape.has_readiness container = true)).
Proof.
  intros Hdir Hloads Hsafe.
  destruct (KubeRun.validate_on_safe_docs w root Hdir Hloads Hsafe)
    as (c1 & rest & Hrun & _).
  eexists. eexists. split; [exact Hrun |]. split; [reflexivity |].
  split; [reflexivity |].
  cbn [passed _check]. rewrite andb_true_iff, !existsb_exists. reflexivity.
Qed.

Lemma probes_check_joins_all_containers_witness :
  exists cs c,
    Kubernetes.validate (KubeSample.world true) (KubeSample.submission true) false = Ok cs
    /\ nth_error cs 2 = Some c
    /\ name c = "Liveness and readiness probes"
    /\ (passed c = true <->
        (exists container,
            In container
              (Containers.all_containers (KubeSample.world true) (KubeSample.submission true))
            /\ Shape.has_liveness container = true)
        /\ (exists container,
               In container
                 (Containers.all_containers (KubeSample.world true)
                    (KubeSample.submission true))
               /\ Shape.has_readiness container = true)).
Proof.
  apply probes_check_joins_all_containers.
  - vm_compute. reflexivity.
  - vm_compute. reflexivity.
  - apply Forall_forall. apply forallb_forall. vm_compute. reflexivity.
Defined.

(** X9. When k8s/ is a directory, the Kubernetes validator either raises or
    opens with the Check of the YAML files.  If some YAML file with a line of
    code makes the parser raise an exception other than a YAMLError (a
    ValueError for a date that does not exist, say), the first such
    exception, in the order of the directory, leaves the validator in both
    modes.  Otherwise the quick run returns one Check worth three points; it
    passes exactly when no YAML file is broken (has a line of code but does
    not load) and at least one YAML file loads, and it then carries all three
    points. *)
Theorem yaml_parsing_check_reads_files (w : World) (root : Fs.node) :
  Fs.isdir root Kubernetes.k8s_dir = true ->
  match YamlFiles.first_crash w root with
  | Some e => forall quick : bool, Kubernetes.validate w root quick = Raise e
  | None =>
      exists c,
        Kubernetes.validate w root true = Ok [c]
        /\ max_points c = 3%Z
        /\ passed c
           = forallb (fun fname => negb (YamlFiles.broken w root fname))
               (Shape.yaml_names root)
             && existsb (YamlFiles.loads w root) (Shape.yaml_names root)
        /\ points_awarded c = (if passed c then 3 else 0)%Z
  end.
Proof.
  intros Hdir. unfold Kubernetes.validate. rewrite Hdir. cbn [negb].
  pose proof (LoadFacts.load_all_spec w root) as Hspec.
  destruct (YamlFiles.first_crash w root) as [e|].
  { intros quick. rewrite Hspec. reflexivity. }
  destruct Hspec as (yaml_files & Hload & Hnil).
  rewrite Hload. cbn [bind]. cbv zeta.
  assert (Hall : forall names,
             forallb (fun fname => negb (YamlFiles.broken w root fname)) names
             = YamlFiles.is_nil (filter (YamlFiles.broken w root) names)).
  { induction names as [|f names IH]; [reflexivity |].
    cbn [forallb filter]. destruct (YamlFiles.broken w root f); [reflexivity | exact IH]. }
  rewrite Hall.
  destruct (filter (YamlFiles.broken w root) (Shape.yaml_names root)) as [|e errors].
  - eexists. split; [reflexivity |].
    rewrite LoadFacts.length_positive, Hnil, negb_involutive.
    cbn [max_points passed points_awarded _check YamlFiles.is_nil andb].
    destruct (existsb _ _); repeat split; reflexivity.
  - eexists. split; [reflexivity |]. repeat split; reflexivity.
Qed.

Lemma yaml_parsing_check_reads_files_witness :
  Kubernetes.validate KubeSample.dated_world KubeSample.dated_submission true
  = Raise (ValueError "month must be in 1..12")
  /\ Kubernetes.validate KubeSample.dated_world KubeSample.dated_submission false
     = Raise (ValueError "month must be in 1..12").
Proof.
  assert (Hcrash : YamlFiles.first_crash KubeSample.dated_world KubeSample.dated_submission
                   = Some (ValueError "month must be in 1..12"))
    by (vm_compute; reflexivity).
  pose proof (yaml_parsing_check_reads_files KubeSample.dated_world
                KubeSample.dated_submission eq_refl) as H.
  rewrite Hcrash in H. split; apply H.
Defined.

(** X10. When every YAML file of k8s/ is a skeleton (empty, blank or
    comments only), no file counts as a parse error and the parser is never
    consulted: whatever the parser would do, the quick run returns the one
    failed Check that reports that no YAML content was found. *)
Theorem skeleton_manifests_are_not_parse_errors (w : World) (root : Fs.node) :
  Fs.isdir root Kubernetes.k8s_dir = true ->
  (forall fname, In fname (Shape.yaml_names root) -> YamlFiles.skeleton root fname = true) ->
  Kubernetes.validate w root true
  = Ok [_check "YAML parsing" 3 false "No YAML content found"].
Proof.
  intros Hdir Hskel. unfold Kubernetes.validate. rewrite Hdir. cbn [negb].
  assert (Hnone : forall names,
             (forall fname, In fname names -> YamlFiles.skeleton root fname = true) ->
             filter (YamlFiles.broken w root) names = []
             /\ existsb (YamlFiles.loads w root) names = false
             /\ YamlFiles.first_crash_of w root names = None).
  { induction names as [|f names IH]; intros Hall; [repeat split; reflexivity |].
    destruct (IH (fun g Hg => Hall g (or_intror Hg))) as (Hf & He & Hc).
    pose proof (Hall f (or_introl eq_refl)) as Hs.
    destruct (LoadFacts.skeleton_not_loaded w root f Hs) as [Hlo Hcr].
    cbn [filter existsb YamlFiles.first_crash_of]. unfold YamlFiles.broken at 1.
    rewrite Hlo, Hs, Hcr. cbn [negb andb orb].
    repeat split; assumption. }
  destruct (Hnone _ Hskel) as (Hf & He & Hc).
  pose proof (LoadFacts.load_all_spec w root) as Hspec.
  unfold YamlFiles.first_crash in Hspec. rewrite Hc in Hspec.
  destruct Hspec as (yaml_files & Hload & Hnil).
  rewrite Hload. cbn [bind]. cbv zeta.
  rewrite Hf. rewrite He in Hnil. cbn [negb] in Hnil.
  destruct yaml_files; [reflexivity | discriminate Hnil].
Qed.

Lemma skeleton_manifests_are_not_parse_errors_witness :
  Kubernetes.validate Sample.world KubeSample.skeleton_submission true
  = Ok [_check "YAML parsing" 3 false "No YAML content found"].
Proof.
  apply skeleton_manifests_are_not_parse_errors.
  - vm_compute. reflexivity.
  - intros fname Hin.
    assert (Hall : forallb (YamlFiles.skeleton KubeSample.skeleton_submission)
                     (Shape.yaml_names KubeSample.skeleton_submission) = true)
      by (vm_compute; reflexivity).
    exact (proj1 (forallb_forall _ _) Hall fname Hin).
Defined.

(** ** Literal patterns and substrings *)

Module Literal.

Lemma prefixmatch_void (s : string) : Regex.prefixmatch Regex.Void s = false.
Proof. induction s as [|c s IH]; [reflexivity | exact IH]. Qed.

Lemma cat_eps_lit (p : string) : Regex.cat Regex.Eps (Regex.lit p) = Regex.lit p.
Proof. destruct p; reflexivity. Qed.

Lemma cat_void (r : Regex.regex) : Regex.cat Regex.Void r = Regex.Void.
Proof. reflexivity. Qed.

(** [re.match] with a literal pattern is [str.startswith]. *)
Lemma prefixmatch_lit (p s : string) :
  Regex.prefixmatch (Regex.lit p) s = String.prefix p s.
Proof.
  revert s. induction p as [|c p IH]; intros s.
  - destruct s; reflexivity.
  - destruct s as [|d s]; [reflexivity |].
    cbn [Regex.lit Regex.prefixmatch Regex.nullable Regex.deriv Regex.chr andb orb
         String.prefix].
    destruct (ascii_dec c d) as [->|Hne].
    + rewrite Ascii.eqb_refl, cat_eps_lit. apply IH.
    + apply Ascii.eqb_neq in Hne. rewrite Hne, cat_void. apply prefixmatch_void.
Qed.

(** [re.search] with a literal pattern is the substring test. *)
Lemma search_lit (p s : string) : Regex.search (Regex.lit p) s = PyStr.contains p s.
Proof.
  induction s as [|c s IH]; cbn [Regex.search PyStr.contains]; rewrite prefixmatch_lit;
    [reflexivity | now rewrite IH].
Qed.

Lemma find_from_spec (sub s : string) (i : Z) :
  (if PyStr.contains sub s then (i <= PyStr.find_from i sub s)%Z
   else PyStr.find_from i sub s = (-1)%Z).
Proof.
  revert i. induction s as [|c s IH]; intros i; cbn [PyStr.contains PyStr.find_from].
  - destruct (String.prefix sub EmptyString); cbn [orb]; [lia | reflexivity].
  - destruct (String.prefix sub (String c s)); cbn [orb]; [lia |].
    specialize (IH (i + 1)%Z). destruct (PyStr.contains sub s); [lia | exact IH].
Qed.

(** [s.find(sub)] is not negative exactly when [sub in s]. *)
Lemma find_contains (sub s : string) :
  PyStr.contains sub s = (0 <=? PyStr.find sub s)%Z.
Proof.
  unfold PyStr.find. pose proof (find_from_spec sub s 0) as H.
  destruct (PyStr.contains sub s).
  - symmetry. apply Z.leb_le. exact H.
  - rewrite H. reflexivity.
Qed.

End Literal.

(** ** [validators/pipeline_validator.py] *)

Module PipelineFacts.

(** The first Check of the pipeline validator is one Check. *)
Lemma first_check (w : World) (root : Fs.node) :
  exists c, Pipeline.validate w root true = [c].
Proof.
  unfold Pipeline.validate.
  destruct (negb (PyStr.truthy (PyStr.strip _))); [eexists; reflexivity |].
  cbv zeta.
  destruct (negb (PyStr.truthy (PyStr.strip _))); [eexists; reflexivity |].
  destruct (yaml_safe_load w _); eexists; reflexivity.
Qed.

End PipelineFacts.

(** X11. The Check of the stages is the second Check of the full run of the
    pipeline validator.  It passes exactly when the words build, test and
    deploy all occur in the pipeline file (comment lines left out, lower
    case) and their first occurrences come in this order; it then carries
    all three points, and it never carries fewer points than the number of
    words found minus one. *)
Theorem stages_check_passes_iff_in_order (w : World) (root : Fs.node) :
  exists c,
    nth_error (Pipeline.validate w root false) 1 = Some c
    /\ name c = "Build + test + deploy stages in order"
    /\ (passed c = true <->
        (0 <= PyStr.find "build" (Stages.content_lower root)
           <= PyStr.find "test" (Stages.content_lower root)
         /\ PyStr.find "test" (Stages.content_lower root)
            <= PyStr.find "deploy" (Stages.content_lower root))%Z)
    /\ (passed c = true -> points_awarded c = 3%Z)
    /\ (Tally.bool_pt (PyStr.contains "build" (Stages.content_lower root))
        + Tally.bool_pt (PyStr.contains "test" (Stages.content_lower root))
        + Tally.bool_pt (PyStr.contains "deploy" (Stages.content_lower root)) - 1
        <= points_awarded c)%Z.
Proof.
  destruct (PipelineFacts.first_check w root) as [c1 Hfirst].
  unfold Pipeline.validate in *. cbv zeta in *.
  rewrite Hfirst. clear Hfirst.
  fold Stages.pipeline_file. fold (Stages.content_lower root).
  rewrite !Literal.search_lit, !Literal.find_contains.
  set (b := PyStr.find "build" (Stages.content_lower root)).
  set (t := PyStr.find "test" (Stages.content_lower root)).
  set (d := PyStr.find "deploy" (Stages.content_lower root)).
  eexists. split; [reflexivity |]. split; [reflexivity |].
  cbn [passed points_awarded].
  clearbody b t d.
  destruct (0 <=? b)%Z eqn:Hb; destruct (0 <=? t)%Z eqn:Ht; destruct (0 <=? d)%Z eqn:Hd;
    cbn [andb negb Tally.bool_pt];
    try (destruct (t <? b)%Z eqn:Htb); try (destruct (d <? t)%Z eqn:Hdt);
    cbn [negb];
    repeat match goal with
           | H : (_ <=? _)%Z = true |- _ => apply Z.leb_le in H
           | H : (_ <=? _)%Z = false |- _ => apply Z.leb_gt in H
           | H : (_ <? _)%Z = true |- _ => apply Z.ltb_lt in H
           | H : (_ <? _)%Z = false |- _ => apply Z.ltb_ge in H
           end;
    rewrite !Z.leb_le; repeat split; intros; lia.
Qed.

Module GateFacts.

Lemma no_code_lines (lines : list string) :
  existsb PyStr.is_code_line lines = false -> filter PyStr.is_code_line lines = [].
Proof.
  induction lines as [|l ls IH]; [reflexivity |].
  cbn [existsb filter]. intros H. apply orb_false_iff in H as [Hl Hls].
  rewrite Hl. apply IH. exact Hls.
Qed.

End GateFacts.

(** X12. A pipeline file without a line of code (empty, blank or comments
    only) fails the syntax Check without the YAML parser being consulted:
    whatever the parser would do, the quick run returns one failed Check
    without points. *)
Theorem skeleton_pipeline_fails_without_parsing (w : World) (root : Fs.node) :
  existsb PyStr.is_code_line
    (PyStr.splitlines (Fs._read_file root Stages.pipeline_file)) = false ->
  exists details,
    Pipeline.validate w root true = [_check "Pipeline YAML syntax" 1 false details]
    /\ (details = "pipeline.yaml is empty" \/ details = "pipeline.yaml has no YAML content").
Proof.
  intros Hskel. unfold Pipeline.validate. fold Stages.pipeline_file.
  destruct (negb (PyStr.truthy (PyStr.strip (Fs._read_file root Stages.pipeline_file)))).
  - eexists. split; [reflexivity | left; reflexivity].
  - cbv zeta. rewrite (GateFacts.no_code_lines _ Hskel).
    eexists. split; [reflexivity | right; reflexivity].
Qed.

Lemma skeleton_pipeline_fails_without_parsing_witness :
  exists details,
    Pipeline.validate Sample.world Skeletons.submission true
    = [_check "Pipeline YAML syntax" 1 false details]
    /\ (details = "pipeline.yaml is empty" \/ details = "pipeline.yaml has no YAML content").
Proof.
  apply skeleton_pipeline_fails_without_parsing. vm_compute. reflexivity.
Defined.

(** ** [validators/shell_validator.py] *)

(** X13. A provisioning script with fewer than ten lines of code earns
    nothing in the setup Check, whatever keywords it names and whether or
    not it sets the shell options: the fifth Check of the full run of the
    shell validator then has no points and is not passed. *)
Theorem setup_check_needs_ten_lines_of_code (w : World) (root : Fs.node) :
  Shell._has_substantial_code (Skeletons.setup_raw root) 10 = false ->
  exists c,
    nth_error (Shell.validate w root false) 4 = Some c
    /\ name c = "setup.sh: Docker, NTP, log rotation, systemd, error handling"
    /\ max_points c = 5%Z
    /\ points_awarded c = 0%Z
    /\ passed c = false.
Proof.
  unfold Skeletons.setup_raw. intros Hshort.
  unfold Shell.validate. cbv zeta. rewrite Hshort. cbn [negb]. rewrite andb_false_r.
  eexists. split; [reflexivity |]. repeat split; reflexivity.
Qed.

Lemma setup_check_needs_ten_lines_of_code_witness :
  exists c,
    nth_error (Shell.validate Sample.world Skeletons.submission false) 4 = Some c
    /\ name c = "setup.sh: Docker, NTP, log rotation, systemd, error handling"
    /\ max_points c = 5%Z
    /\ points_awarded c = 0%Z
    /\ passed c = false.
Proof.
  apply setup_check_needs_ten_lines_of_code. vm_compute. reflexivity.
Defined.

(** X14. The first Check of the shell validator, in both modes, passes
    exactly when at least one script of network/ or edge/ has five lines of
    code and the linter accepts every such script (a linter that is missing
    or runs out of time accepts). *)
Theorem linter_check_passes_iff_every_script_passes
    (w : World) (root : Fs.node) (quick : bool) :
  exists c,
    hd_error (Shell.validate w root quick) = Some c
    /\ name c = "shellcheck passes on .sh files"
    /\ max_points c = 2%Z
    /\ (passed c = true <->
        Shell.content_scripts root (Shell.collect_sh_files root) <> []
        /\ forall fpath,
             In fpath (Shell.content_scripts root (Shell.collect_sh_files root)) ->
             Shell._run_shellcheck w fpath = true).
Proof.
  exists (Shell.shellcheck_check w root (Shell.collect_sh_files root)).
  split.
  { unfold Shell.validate. cbv zeta.
    destruct quick; repeat (apply Degradation.hd_error_app); reflexivity. }
  unfold Shell.shellcheck_check. cbv zeta.
  set (scripts := Shell.content_scripts root (Shell.collect_sh_files root)).
  clearbody scripts.
  assert (Hfailed : forall ps : list Fs.path,
             map fst (filter (fun r : string * bool => negb (snd r))
                        (map (fun fpath => (Shell.basename fpath, Shell._run_shellcheck w fpath))
                           ps)) = []
             <-> forall fpath, In fpath ps -> Shell._run_shellcheck w fpath = true).
  { induction ps as [|p ps IH]; cbn [map filter snd].
    - split; [intros _ fpath [] | reflexivity].
    - destruct (Shell._run_shellcheck w p) eqn:Hp; cbn [negb map].
      + rewrite IH. split.
        * intros H fpath [<-|Hin]; [exact Hp | apply H; exact Hin].
        * intros H fpath Hin. apply H. right. exact Hin.
      + split; [discriminate |].
        intros H. specialize (H p (or_introl eq_refl)). congruence. }
  destruct scripts as [|p ps].
  - cbn [List.length map filter Z.of_nat Z.eqb].
    split; [reflexivity |]. split; [reflexivity |]. cbn [passed _check]. split.
    + discriminate.
    + intros [Hne _]. now elim Hne.
  - replace (Z.of_nat (List.length (p :: ps)) =? 0)%Z with false
      by (symmetry; apply Z.eqb_neq; cbn [List.length]; lia).
    specialize (Hfailed (p :: ps)).
    destruct (map fst _) as [|f fs].
    + split; [reflexivity |]. split; [reflexivity |]. cbn [passed _check]. split.
      * intros _. split; [discriminate | apply Hfailed; reflexivity].
      * reflexivity.
    + split; [reflexivity |]. split; [reflexivity |]. cbn [passed _check]. split.
      * discriminate.
      * intros [_ Hall]. apply Hfailed in Hall. discriminate Hall.
Qed.

(** ** [validators/document_validator.py] *)

Module RemediationFacts.

Lemma fourth_check (w : World) (root : Fs.node) :
  exists c,
    nth_error (Document.validate w root false) 3 = Some c
    /\ name c = "remediation.sh: sets MTU, passes shellcheck"
    /\ points_awarded c
       = (let score := Tally.score (Document.remediation_criteria (Skeletons.remediation_raw root)) in
          if (0 <? score)%Z && Document.shellcheck_fails w
          then Z.max (score - 1) 0 else score)
    /\ passed c = (2 <=? points_awarded c)%Z
    /\ (Tally.score (Document.remediation_criteria (Skeletons.remediation_raw root)) = 0%Z ->
        details c = "Script not implemented").
Proof.
  unfold Document.validate, Skeletons.remediation_raw. cbv zeta.
  eexists. split; [reflexivity |]. split; [reflexivity |]. split; [reflexivity |].
  split; [reflexivity |].
  cbn [details]. intros Hzero. rewrite Hzero. cbn [Z.ltb Z.compare andb].
  unfold Tally.score in Hzero.
  destruct (Tally.labels _); [reflexivity | discriminate Hzero].
Qed.

End RemediationFacts.

(** X15. The Check of the remediation script is the fourth Check of the full
    run of the document validator.  A linter that reports warnings costs
    exactly one point when the script earned any, and is not looked at
    otherwise; the points stay between zero and three. *)
Theorem remediation_linter_costs_one_point (w : World) (root : Fs.node) :
  exists c,
    nth_error (Document.validate w root false) 3 = Some c
    /\ name c = "remediation.sh: sets MTU, passes shellcheck"
    /\ points_awarded c
       = (Tally.score (Document.remediation_criteria (Skeletons.remediation_raw root))
          - Tally.bool_pt
              ((0 <? Tally.score
                       (Document.remediation_criteria (Skeletons.remediation_raw root)))%Z
               && Document.shellcheck_fails w))%Z
    /\ (0 <= points_awarded c <= 3)%Z.
Proof.
  destruct (RemediationFacts.fourth_check w root) as (c & Hnth & Hname & Hpoints & _).
  exists c. split; [exact Hnth |]. split; [exact Hname |].
  cbv zeta in Hpoints. rewrite Hpoints.
  pose proof (Bounds.tally_score_range
                (Document.remediation_criteria (Skeletons.remediation_raw root))) as Hrange.
  assert (Hlen : List.length (Document.remediation_criteria (Skeletons.remediation_raw root))
                 = 3%nat) by reflexivity.
  rewrite Hlen in Hrange.
  destruct (0 <? Tally.score _)%Z eqn:Hpos; cbn [andb Tally.bool_pt].
  - apply Z.ltb_lt in Hpos. destruct (Document.shellcheck_fails w); cbn [Tally.bool_pt]; lia.
  - lia.
Qed.

(** X16. A remediation script with fewer than three lines of code earns
    nothing, whatever it names and whatever the linter says: the Check has no
    points, is not passed, and reports that the script is not implemented. *)
Theorem remediation_check_needs_three_lines_of_code (w : World) (root : Fs.node) :
  (Skeletons.remediation_code_lines root < 3)%Z ->
  exists c,
    nth_error (Document.validate w root false) 3 = Some c
    /\ name c = "remediation.sh: sets MTU, passes shellcheck"
    /\ points_awarded c = 0%Z
    /\ passed c = false
    /\ details c = "Script not implemented".
Proof.
  intros Hshort.
  destruct (RemediationFacts.fourth_check w root)
    as (c & Hnth & Hname & Hpoints & Hpassed & Hdetails).
  assert (Hzero : Tally.score (Document.remediation_criteria (Skeletons.remediation_raw root))
                  = 0%Z).
  { unfold Document.remediation_criteria. cbv zeta.
    unfold Skeletons.remediation_code_lines in Hshort.
    apply Z.leb_gt in Hshort. rewrite Hshort. reflexivity. }
  exists c. split; [exact Hnth |]. split; [exact Hname |].
  cbv zeta in Hpoints. rewrite Hzero in Hpoints. cbn [Z.ltb Z.compare andb] in Hpoints.
  split; [exact Hpoints |]. split; [now rewrite Hpassed, Hpoints |].
  apply Hdetails. exact Hzero.
Qed.

Lemma remediation_check_needs_three_lines_of_code_witness :
  exists c,
    nth_error (Document.validate Sample.strict_world Skeletons.submission false) 3 = Some c
    /\ name c = "remediation.sh: sets MTU, passes shellcheck"
    /\ points_awarded c = 0%Z
    /\ passed c = false
    /\ details c = "Script not implemented".
Proof.
  apply remediation_check_needs_three_lines_of_code. vm_compute. reflexivity.
Defined.

(** ** [validators/terraform_validator.py] *)

Module ParserFacts.

Lemma score_app (a b : list Check) :
  Scoring.compute_module_score (a ++ b)
  = (Scoring.compute_module_score a + Scoring.compute_module_score b)%Z.
Proof.
  unfold Scoring.compute_module_score.
  induction a as [|c a IH]; cbn [app fold_right]; [reflexivity | rewrite IH; lia].
Qed.

Lemma score_one (c : Check) : Scoring.compute_module_score [c] = points_awarded c.
Proof. unfold Scoring.compute_module_score. cbn [fold_right]. lia. Qed.

End ParserFacts.

(** X17. When the python-hcl2 package is not installed, the Terraform
    validator gives no points for parsing and none for the plan structure:
    the quick run is worth nothing and the full run fifteen points at most,
    whatever the submission holds. *)
Theorem terraform_without_hcl2_earns_fifteen_at_most (w : World) (root : Fs.node) :
  hcl2_available w = false ->
  Scoring.compute_module_score (Terraform.validate w root true) = 0%Z
  /\ (0 <= Scoring.compute_module_score (Terraform.validate w root false) <= 15)%Z.
Proof.
  intros Hno. unfold Terraform.validate. rewrite Hno. cbn [negb].
  destruct (negb (Fs.isdir root Terraform.tf_dir)).
  { split; [reflexivity | rewrite ParserFacts.score_one; cbn [points_awarded _check]; lia]. }
  cbv zeta. rewrite andb_false_r. split; [reflexivity |].
  rewrite !ParserFacts.score_app, !ParserFacts.score_one.
  cbn [points_awarded _check].
  repeat match goal with
         | |- context [(if ?b then _ else 0)%Z] => destruct b
         end; lia.
Qed.

Lemma terraform_without_hcl2_earns_fifteen_at_most_witness :
  Scoring.compute_module_score (Terraform.validate Sample.world Sample.bare_terraform true)
  = 0%Z
  /\ (0 <= Scoring.compute_module_score
             (Terraform.validate Sample.world Sample.bare_terraform false) <= 15)%Z.
Proof.
  apply terraform_without_hcl2_earns_fifteen_at_most. reflexivity.
Defined.

(** ** [validators/python_validator.py] *)

Module ImplementedFacts.

Lemma nonempty_app {A : Type} (a b : list A) :
  Python.nonempty (a ++ b) = Python.nonempty a || Python.nonempty b.
Proof. destruct a; reflexivity. Qed.

(** The functions of the set that carry [word] in their name are there
    exactly when some definition of the tree is implemented and carries the
    word. *)
Lemma funcs_named_has (word : string) (tree : PyAst.tree) :
  Python.nonempty (Python.funcs_named word (Python.implemented_funcs tree))
  = Implemented.has word tree.
Proof.
  unfold Python.funcs_named, Python.implemented_funcs, Implemented.has, PyAst.walk.
  induction tree as [|node tree IH]; [reflexivity |].
  cbn [flat_map existsb]. rewrite filter_app, nonempty_app, IH. f_equal.
  destruct node as [fname body| | |]; try reflexivity.
  cbn [Implemented.defines].
  destruct (PyAst.real_stmts body) as [|s ss].
  - cbn. now rewrite andb_false_r.
  - replace (0 <? Z.of_nat (List.length (s :: ss)))%Z with true
      by (symmetry; apply Z.ltb_lt; cbn [List.length]; lia).
    cbn [filter]. destruct (PyStr.contains word (PyStr.lower fname)); reflexivity.
Qed.

End ImplementedFacts.

(** X18. For a deploy script that parses, the full run of the Python
    validator returns one Check.  Its points are one for the syntax, one for
    argparse with arguments, one when some function definition with rollback
    in its name has a real statement, and one when some definition with
    health in its name has one; any one definition is enough, also when
    another definition of the same name is a stub.  The Check passes exactly
    when two of the three features are there. *)
Theorem deploy_check_counts_implemented_definitions
    (w : World) (root : Fs.node) (tree : PyAst.tree) :
  PyStr.truthy (Stubs.deploy_py root) = true ->
  ast_parse w (Stubs.deploy_py root) = Parsed tree ->
  exists c,
    Python.validate w root false = [c]
    /\ max_points c = 4%Z
    /\ points_awarded c
       = (1 + Tally.bool_pt (Python.argparse_ok tree (Stubs.deploy_py root))
          + Tally.bool_pt (Implemented.has "rollback" tree)
          + Tally.bool_pt (Implemented.has "health" tree))%Z
    /\ passed c = (3 <=? points_awarded c)%Z.
Proof.
  unfold Stubs.deploy_py. intros Hcontent Hparse.
  unfold Python.validate. cbv zeta. rewrite Hcontent, Hparse. cbn [negb].
  unfold Python.rollback_pt, Python.health_pt.
  rewrite !ImplementedFacts.funcs_named_has.
  eexists. split; [reflexivity |]. repeat split; reflexivity.
Qed.

Lemma deploy_check_counts_implemented_definitions_witness :
  exists c,
    Python.validate Sample.world Sample.deploy_submission false = [c]
    /\ max_points c = 4%Z
    /\ points_awarded c
       = (1 + Tally.bool_pt
                (Python.argparse_ok Sample.deploy_tree
                   (Stubs.deploy_py Sample.deploy_submission))
          + Tally.bool_pt (Implemented.has "rollback" Sample.deploy_tree)
          + Tally.bool_pt (Implemented.has "health" Sample.deploy_tree))%Z
    /\ passed c = (3 <=? points_awarded c)%Z.
Proof.
  apply deploy_check_counts_implemented_definitions; vm_compute; reflexivity.
Defined.

(** ** [report.py] *)

Module ReportFacts.

(** A property that holds for the first [n] numbers holds for every number
    below [n]. *)
Lemma below_cases (P : Z -> bool) (n : nat) :
  forallb P (map Z.of_nat (seq 0 n)) = true ->
  forall t : Z, (0 <= t < Z.of_nat n)%Z -> P t = true.
Proof.
  intros Hall t Ht. rewrite forallb_forall in Hall. apply Hall.
  apply in_map_iff. exists (Z.to_nat t). split; [lia |].
  apply in_seq. lia.
Qed.

Lemma percent_of_hundred (t : Z) :
  (0 <= t <= 100)%Z ->
  Report.percent t 100
  = Some (t - (if existsb (Z.eqb t) Report.short_totals then 1 else 0))%Z.
Proof.
  intros Ht.
  assert (Hall : forallb Report.percent_is (map Z.of_nat (seq 0 101)) = true)
    by (vm_compute; reflexivity).
  pose proof (below_cases Report.percent_is 101 Hall t ltac:(lia)) as H.
  unfold Report.percent_is in H. destruct (Report.percent t 100) as [pct|]; [| discriminate H].
  apply Z.eqb_eq in H. now rewrite H.
Qed.

Lemma concat_cons (x : string) (l : list string) :
  String.concat EmptyString (x :: l) = x ++ String.concat EmptyString l.
Proof.
  destruct l as [|y l]; cbn [String.concat].
  - symmetry. apply Normalizers.append_nil_r.
  - reflexivity.
Qed.

Lemma length_times (c : ascii) (n : Z) :
  String.length (Report.times (String c EmptyString) n) = Z.to_nat n.
Proof.
  unfold Report.times. induction (Z.to_nat n) as [|k IH]; [reflexivity |].
  cbn [repeat]. rewrite concat_cons. cbn [String.append String.length]. now rewrite IH.
Qed.

Lemma length_append (a b : string) :
  String.length (a ++ b) = (String.length a + String.length b)%nat.
Proof. induction a as [|c a IH]; cbn [String.append String.length]; [reflexivity | now rewrite IH]. Qed.

Lemma bar_length (pct : Z) :
  (0 <= pct <= 100)%Z -> String.length (Report.score_bar pct) = 20%nat.
Proof.
  intros Hpct. unfold Report.score_bar. cbv zeta.
  rewrite length_append, !length_times.
  assert (0 <= pct / 5 <= 20)%Z.
  { split; [apply Z.div_pos; lia |]. apply Z.div_le_upper_bound; lia. }
  lia.
Qed.

End ReportFacts.

(** X19. For the result of any evaluation, the percentage that the report
    prints is computed without an error, and it is the total score except for
    the totals 29, 57 and 58, where binary floating point makes it one
    less. *)
Theorem report_percent_falls_short_of_some_totals
    (w : World) (root : Fs.node) (module : option string) (quick : bool)
    (r : Scoring.EvaluationResult) :
  Evaluate.evaluate w root module quick = Some r ->
  Report.percent (Scoring.total_score r) (Scoring.max_score_total r)
  = Some (Scoring.total_score r
          - (if existsb (Z.eqb (Scoring.total_score r)) Report.short_totals
             then 1 else 0))%Z.
Proof.
  unfold Evaluate.evaluate.
  destruct (negb (Fs.isdir root [])); [discriminate |].
  intros [= <-].
  destruct (Bounds.total_of_run w root quick _
              (Bounds.collect_results_of_run w root module quick)) as [Hrange Hmax].
  rewrite Hmax. apply ReportFacts.percent_of_hundred. exact Hrange.
Qed.

Lemma report_percent_falls_short_of_some_totals_witness :
  exists r : Scoring.EvaluationResult,
    Evaluate.evaluate Sample.world Sample.deploy_submission None false = Some r
    /\ Report.percent (Scoring.total_score r) (Scoring.max_score_total r)
       = Some (Scoring.total_score r
               - (if existsb (Z.eqb (Scoring.total_score r)) Report.short_totals
                  then 1 else 0))%Z.
Proof.
  eexists. split.
  - vm_compute. reflexivity.
  - apply (report_percent_falls_short_of_some_totals
             Sample.world Sample.deploy_submission None false).
    vm_compute. reflexivity.
Defined.

(** X20. For the result of any evaluation, the head of the markdown report is
    seven lines, and its sixth line is the score bar: twenty cells between
    brackets, then a percentage between 0 and 100. *)
Theorem report_bar_has_twenty_cells
    (w : World) (root : Fs.node) (module : option string) (quick : bool)
    (r : Scoring.EvaluationResult) :
  Evaluate.evaluate w root module quick = Some r ->
  exists lines pct,
    Report.head_lines r = Some lines
    /\ List.length lines = 7%nat
    /\ nth_error lines 5
       = Some ("[" ++ Report.score_bar pct ++ "] " ++ PyStr.str_of_int pct ++ "%")
    /\ String.length (Report.score_bar pct) = 20%nat
    /\ (0 <= pct <= 100)%Z.
Proof.
  unfold Evaluate.evaluate.
  destruct (negb (Fs.isdir root [])); [discriminate |].
  intros [= <-].
  destruct (Bounds.total_of_run w root quick _
              (Bounds.collect_results_of_run w root module quick)) as [Hrange Hmax].
  unfold Report.head_lines. cbv zeta. rewrite Hmax.
  change (25 + 25 + 20 + 15 + 15)%Z with 100%Z.
  rewrite (ReportFacts.percent_of_hundred _ Hrange).
  set (total := Scoring.total_score _) in *. clearbody total.
  assert (Hpct : (0 <= total - (if existsb (Z.eqb total) Report.short_totals
                                then 1 else 0) <= 100)%Z).
  { destruct (existsb (Z.eqb total) Report.short_totals) eqn:Hshort; [| lia].
    apply existsb_exists in Hshort as (t & Hin & Heq). apply Z.eqb_eq in Heq. subst t.
    cbv [Report.short_totals In] in Hin. lia. }
  eexists. eexists. split; [reflexivity |]. split; [reflexivity |].
  split; [reflexivity |]. split; [apply ReportFacts.bar_length; exact Hpct | exact Hpct].
Qed.

Lemma report_bar_has_twenty_cells_witness :
  exists (r : Scoring.EvaluationResult) lines pct,
    Evaluate.evaluate Sample.world Sample.deploy_submission None false = Some r
    /\ Report.head_lines r = Some lines
    /\ List.length lines = 7%nat
    /\ nth_error lines 5
       = Some ("[" ++ Report.score_bar pct ++ "] " ++ PyStr.str_of_int pct ++ "%")
    /\ String.length (Report.score_bar pct) = 20%nat
    /\ (0 <= pct <= 100)%Z.
Proof.
  destruct (report_bar_has_twenty_cells Sample.world Sample.deploy_submission None false
              (Scoring.compute_total_score
                 (Evaluate.collect_results Sample.world Sample.deploy_submission None false)))
    as (lines & pct & H).
  - reflexivity.
  - eexists. exists lines, pct. split; [reflexivity | exact H].
Defined.
